(** * MailKit: proxy-tunnelled IMAP login and multi-folder scan

    A shallow embedding of [mailkit/main.py] and [mailkit/proxification_v2.py].

    The Python code talks to the outside world through PySocks, [ssl],
    [imaplib], [imap_tools], [tenacity] and [bs4].  Those libraries are not part
    of the repository: their answers are supplied by an environment [Env] (a
    mock network), and every call that crosses that boundary is recorded in a
    chronological trace of [Event]s.  Everything of the repository itself
    (the retry decorators, the proxy-type translation, the argument plumbing,
    the folder loop and its filters) is translated function by function.

    A Python [str] is modelled by its UTF-8 encoding, a [string] of bytes:
    splitting at an ASCII character, substring tests and comparisons are the
    same on the encoding as on the characters. *)

From Stdlib Require Import ZArith List String Ascii Bool Lia.
From stdpp Require Import gmap strings list fin_maps.

Import ListNotations.
Local Open Scope string_scope.
Local Open Scope list_scope.
Local Open Scope Z_scope.

(* ===================================================================== *)
(** ** Python strings *)
(* ===================================================================== *)

Module PyStr.

Definition is_lower (c : ascii) : bool :=
  ((97 <=? nat_of_ascii c) && (nat_of_ascii c <=? 122))%nat.

Definition is_upper (c : ascii) : bool :=
  ((65 <=? nat_of_ascii c) && (nat_of_ascii c <=? 90))%nat.

Definition upper_ascii (c : ascii) : ascii :=
  if is_lower c then ascii_of_nat (nat_of_ascii c - 32) else c.

Definition lower_ascii (c : ascii) : ascii :=
  if is_upper c then ascii_of_nat (nat_of_ascii c + 32) else c.

(** The string with the given bytes. *)
Definition utf8 (bytes : list Z) : string :=
  string_of_list_ascii (map (fun b => ascii_of_nat (Z.to_nat b)) bytes).

(** The characters outside ASCII whose upper case, in the full case mapping
    that [str.upper] applies, contains an ASCII character: the character and
    its upper case, both in UTF-8. *)
Definition upper_special : list (string * string) :=
  [ (utf8 [195; 159], "SS");                        (* U+00DF, sharp s *)
    (utf8 [196; 177], "I");                         (* U+0131, dotless i *)
    (utf8 [197; 137], utf8 [202; 188; 78]);         (* U+0149 *)
    (utf8 [197; 191], "S");                         (* U+017F, long s *)
    (utf8 [199; 176], utf8 [74; 204; 140]);         (* U+01F0 *)
    (utf8 [225; 186; 150], utf8 [72; 204; 177]);    (* U+1E96 *)
    (utf8 [225; 186; 151], utf8 [84; 204; 136]);    (* U+1E97 *)
    (utf8 [225; 186; 152], utf8 [87; 204; 138]);    (* U+1E98 *)
    (utf8 [225; 186; 153], utf8 [89; 204; 138]);    (* U+1E99 *)
    (utf8 [225; 186; 154], utf8 [65; 202; 190]);    (* U+1E9A *)
    (utf8 [239; 172; 128], "FF");                   (* U+FB00, ligatures *)
    (utf8 [239; 172; 129], "FI");
    (utf8 [239; 172; 130], "FL");
    (utf8 [239; 172; 131], "FFI");
    (utf8 [239; 172; 132], "FFL");
    (utf8 [239; 172; 133], "ST");
    (utf8 [239; 172; 134], "ST") ].

(** The same for [str.lower]. *)
Definition lower_special : list (string * string) :=
  [ (utf8 [196; 176], utf8 [105; 204; 135]);        (* U+0130 *)
    (utf8 [226; 132; 170], "k") ].                  (* U+212A, Kelvin sign *)

(** The entry of [table] that [s] starts with: its image and its length. *)
Fixpoint special_case (table : list (string * string)) (s : string)
    : option (string * nat) :=
  match table with
  | [] => None
  | (k, v) :: table' =>
      if String.prefix k s then Some (v, String.length k)
      else special_case table' s
  end.

(** Case mapping over the encoding.  An ASCII letter is mapped by
    [ascii_case] and a character of [table] is replaced by its image ([skip]
    counts the bytes of it that are still to be dropped); the bytes of any
    other character are left in place.  Such a character is not ASCII and
    its upper and lower case contain no ASCII character, so that comparing
    the result with an ASCII string, or looking it up under ASCII keys, gives
    what Python gives. *)
Fixpoint map_case (ascii_case : ascii -> ascii) (table : list (string * string))
    (skip : nat) (s : string) : string :=
  match s with
  | EmptyString => EmptyString
  | String c s' =>
      match skip with
      | S k => map_case ascii_case table k s'
      | O =>
          match special_case table s with
          | Some (v, n) =>
              String.append v (map_case ascii_case table (n - 1) s')
          | None => String (ascii_case c) (map_case ascii_case table 0 s')
          end
      end
  end.

(** [s.upper()] *)
Definition upper (s : string) : string := map_case upper_ascii upper_special 0 s.

(** [s.lower()] *)
Definition lower (s : string) : string := map_case lower_ascii lower_special 0 s.

(** [s.isascii()] *)
Fixpoint isascii (s : string) : bool :=
  match s with
  | EmptyString => true
  | String c s' => (nat_of_ascii c <? 128)%nat && isascii s'
  end.

(** [f] applied to every byte. *)
Fixpoint bytewise (f : ascii -> ascii) (s : string) : string :=
  match s with
  | EmptyString => EmptyString
  | String c s' => String (f c) (bytewise f s')
  end.

(** [s.split(sep)] for a one-character separator. *)
Fixpoint split (sep : ascii) (s : string) : list string :=
  match s with
  | EmptyString => [EmptyString]
  | String c s' =>
      if Ascii.eqb c sep then EmptyString :: split sep s'
      else match split sep s' with
           | [] => [String c EmptyString]
           | p :: ps => String c p :: ps
           end
  end.

(** [c in s] for a character. *)
Fixpoint has_char (c : ascii) (s : string) : bool :=
  match s with
  | EmptyString => false
  | String d s' => Ascii.eqb d c || has_char c s'
  end.

(** [k in b]: substring test. *)
Fixpoint contains (k b : string) : bool :=
  String.prefix k b ||
  match b with
  | EmptyString => false
  | String _ b' => contains k b'
  end.

(** What [k in b] means: [k] occurs somewhere inside [b]. *)
Definition occurs_in (k b : string) : Prop :=
  exists pre post, b = String.append pre (String.append k post).

(** Truthiness of an [Optional[str]]: [None] and [''] are falsy. *)
Definition truthy (o : option string) : bool :=
  match o with
  | Some s => negb (String.eqb s "")
  | None => false
  end.

(** [a or b] on strings. *)
Definition or_else (a b : string) : string :=
  if String.eqb a "" then b else a.

End PyStr.

(* ===================================================================== *)
(** ** Exceptions *)
(* ===================================================================== *)

(** The exception classes that the code raises, catches or wraps.
    [ProxyError] stands for the socket level failures of PySocks and [ssl]
    (all subclasses of [OSError]); [KeyboardInterrupt] is the representative
    of a [BaseException] that is not an [Exception]. *)
Inductive exn : Type :=
| ValueError (msg : string)
| TypeError (msg : string)
| KeyError (key : string)
| AttributeError (msg : string)
| MailboxLoginError (msg : string)
| MailboxFolderSelectError (msg : string)
| ImapError (msg : string)
| ProxyError (msg : string)
| RetryError (last_attempt : exn)
| KeyboardInterrupt.

(** [isinstance(e, Exception)] *)
Definition is_Exception (e : exn) : bool :=
  match e with
  | KeyboardInterrupt => false
  | _ => true
  end.

(** [isinstance(e, MailboxLoginError)] *)
Definition is_MailboxLoginError (e : exn) : bool :=
  match e with
  | MailboxLoginError _ => true
  | _ => false
  end.

(* ===================================================================== *)
(** ** Data model *)
(* ===================================================================== *)

(** PySocks constants: [socks.SOCKS4 = PROXY_TYPE_SOCKS4 = 1],
    [socks.SOCKS5 = PROXY_TYPE_SOCKS5 = 2], [socks.HTTP = PROXY_TYPE_HTTP = 3]. *)
Module socks.
Definition SOCKS4 : Z := 1.
Definition SOCKS5 : Z := 2.
Definition HTTP : Z := 3.
Definition PROXY_TYPE_SOCKS4 : Z := SOCKS4.
Definition PROXY_TYPE_SOCKS5 : Z := SOCKS5.
Definition PROXY_TYPE_HTTP : Z := HTTP.
End socks.

(** The value held by the attribute [ProxyConfig.proxy_type]: declared [str],
    but [connect_and_login] stores a PySocks integer in it. *)
Inductive proxy_type_value : Type :=
| PTStr (s : string)
| PTInt (code : Z).

(** [class ProxyConfig(BaseModel)] *)
Record ProxyConfig : Type := {
  proxy_type : proxy_type_value;
  proxy_addr : string;
  proxy_port : Z;
  proxy_username : option string;
  proxy_password : option string;
  timeout : option Z
}.

(** The field constraints of [ProxyConfig]: [proxy_type: str],
    [proxy_port] with [ge=1, le=65535], [timeout] with [ge=1]. *)
Definition ProxyConfig_validates (c : ProxyConfig) : bool :=
  match proxy_type c with PTStr _ => true | PTInt _ => false end
  && (1 <=? proxy_port c) && (proxy_port c <=? 65535)
  && match timeout c with Some t => 1 <=? t | None => true end.

Definition set_proxy_type (v : proxy_type_value) (c : ProxyConfig) : ProxyConfig :=
  {| proxy_type := v;
     proxy_addr := proxy_addr c;
     proxy_port := proxy_port c;
     proxy_username := proxy_username c;
     proxy_password := proxy_password c;
     timeout := timeout c |}.

(** [providers] *)
Definition providers : gmap string string :=
  list_to_map
    [ ("gmail.com", "imap.gmail.com");
      ("yahoo.com", "imap.mail.yahoo.com");
      ("mail.com", "imap.mail.com");
      ("gmx.com", "imap.gmx.com");
      ("mail.ru", "imap.mail.ru");
      ("rambler.ru", "imap.rambler.ru");
      ("autorambler.ru", "imap.rambler.ru");
      ("outlook.com", "outlook.office365.com");
      ("hotmail.com", "outlook.office365.com");
      ("aol.com", "imap.aol.com") ].

(** The keyword arguments of one call of [socks.create_connection]. *)
Record ConnectCall : Type := {
  cc_host : string;
  cc_port : Z;
  cc_proxy_type : Z;
  cc_proxy_addr : option string;
  cc_proxy_port : option Z;
  cc_proxy_rdns : bool;
  cc_proxy_username : option string;
  cc_proxy_password : option string;
  cc_timeout : Z
}.

(** The dict [search_criteria] handed to [AND]: the keys that [scrap] may set. *)
Record Criteria : Type := {
  c_seen : option bool;
  c_subject : option string;
  c_from : option string
}.

(** A [datetime]: its wall-clock reading in seconds and, for an aware value,
    its UTC offset ([tzinfo] is [None] for a naive one). *)
Record datetime : Type := {
  wall : Z;
  tzinfo : option Z
}.

(** A fetched message: the attributes of [imap_tools.MailMessage] that [scrap]
    reads.  [msg.date] is the parsed [Date] header, aware when the header
    names a time zone. *)
Record Message : Type := {
  uid : nat;
  date : datetime;
  text : string;
  html : string
}.

(** [BeautifulSoup(markup, features=...)] *)
Inductive Soup : Type :=
| BeautifulSoup (markup : string) (features : string).

(** A connected socket: what [socks.create_connection] returns, possibly
    wrapped by [ssl_context.wrap_socket]. *)
Inductive Socket : Type :=
| ProxiedSocket (c : ConnectCall)
| TlsSocket (sock : Socket) (server_hostname : option string).

(** The attributes of a [SocksIMAP4] / [SocksIMAP4SSL] instance.  [s_host],
    [s_port] and [s_sock] are the attributes [host], [port] and [sock] that
    [IMAP4.open] assigns. *)
Record SocksIMAP4 : Type := {
  s_host : string;
  s_port : Z;
  s_sock : option Socket;
  s_proxy_addr : option string;
  s_proxy_port : option Z;
  s_rdns : bool;
  s_username : option string;
  s_password : option string;
  s_proxy_type : Z
}.

(** The attributes that [MailBoxProxy.__init__] stores. *)
Record MailBoxProxy : Type := {
  _host : string;
  _port : Z;
  _keyfile : option string;
  _certfile : option string;
  _ssl_context : option unit;
  _p_timeout : option Z;
  _p_proxy_type : string;
  _p_proxy_addr : option string;
  _p_proxy_port : option Z;
  _p_proxy_rdns : bool;
  _p_proxy_username : option string;
  _p_proxy_password : option string
}.

(** The objects that [self.mailbox] can hold: an [imap_tools.MailBox] or a
    [MailBoxProxy] together with its [client]. *)
Inductive MailBoxObj : Type :=
| MailBox (host : string)
| ProxiedMailBox (mb : MailBoxProxy) (client : SocksIMAP4).

Abbreviation loc := nat.

(** The attributes of a [MailKit] instance.  [proxy] is a reference: the
    [ProxyConfig] object itself lives in the heap and is shared with the
    caller who built it. *)
Record MailKit : Type := {
  u : string;
  pw : string;
  mailbox : option MailBoxObj;
  login_status : bool;
  proxy : option loc
}.

Inductive LogRecord : Type :=
| LogInfo (msg : string)
| LogError (msg : string)
| LogErrorExn (prefix : string) (e : exn).

(** What the program does to the outside world, in order.  [EvFetch] is the
    start of an iteration over [mailbox.fetch(criteria, mark_seen=...)] (the
    search), [EvFetchMsg] the fetch of one message as the generator yields it.
    [EvAttempt fn] is tenacity's bookkeeping ([statistics['attempt_number']]
    of the wrapped function [fn]): one record per attempt. *)
Inductive Event : Type :=
| EvCreateConnection (c : ConnectCall)
| EvWrapSocket (server_hostname : option string)
| EvGreeting (host : string)
| EvDirectConnect (host : string)
| EvLogin (user password : string)
| EvSelect (folder : string)
| EvFetch (folder : string) (criteria : Criteria) (mark_seen : bool)
| EvFetchMsg (folder : string) (msg_uid : nat) (mark_seen : bool)
| EvSleep (seconds : Z)
| EvAttempt (fn : string)
| EvLog (r : LogRecord).

(** Events that put bytes on the wire. *)
Definition is_network (e : Event) : bool :=
  match e with
  | EvCreateConnection _ | EvWrapSocket _ | EvGreeting _ | EvDirectConnect _
  | EvLogin _ _ | EvSelect _ | EvFetch _ _ _ | EvFetchMsg _ _ _ => true
  | EvSleep _ | EvAttempt _ | EvLog _ => false
  end.

Definition is_connect (e : Event) : bool :=
  match e with EvCreateConnection _ => true | _ => false end.

Definition is_sleep (e : Event) : bool :=
  match e with EvSleep _ => true | _ => false end.

Definition is_attempt_of (fn : string) (e : Event) : bool :=
  match e with EvAttempt g => String.eqb fn g | _ => false end.

Definition network_calls (t : list Event) : nat := length (List.filter is_network t).
Definition connect_attempts (t : list Event) : nat := length (List.filter is_connect t).
Definition sleeps (t : list Event) : nat := length (List.filter is_sleep t).
Definition attempts_of (fn : string) (t : list Event) : nat :=
  length (List.filter (is_attempt_of fn) t).

(* ===================================================================== *)
(** ** The environment and the program state *)
(* ===================================================================== *)

(** What [self.mailbox.folder.set(name)] does: raise, or return a value whose
    truthiness is [truthy]. *)
Inductive FolderSetResult : Type :=
| SetReturns (truthy : bool)
| SetRaises (e : exn).

(** The answers of the external libraries.  [None] means success.
    [create_connection n c] is the outcome of a call of
    [socks.create_connection] with arguments [c] made after [n] earlier calls;
    [wrap_socket n h] is the TLS handshake on the socket obtained by call
    number [n].  [fetch folder criteria] is the generator returned by
    [mailbox.fetch(AND(...), ...)] in the selected folder: the messages it
    yields and the exception, if any, that ends the iteration (an error of
    the search or of a fetch).  The IMAP answers do not depend on what
    happened before: they describe a mock session, in which the seen flags
    that a fetch sets are not tracked.  One call of [scrap] searches each
    folder once, so that any run of a single call is described by such
    answers; a later call is described by the same answers only where the
    flags set in between do not matter to its searches. *)
Record Env : Type := {
  create_connection : nat -> ConnectCall -> option exn;
  wrap_socket : nat -> option string -> option exn;
  HAS_SNI : bool;
  imap_greeting : string -> option exn;
  direct_connect : string -> option exn;
  imap_login : string -> string -> option exn;
  folder_set : string -> FolderSetResult;
  fetch : string -> Criteria -> list Message * option exn
}.

(** The mutable state: the heap of [ProxyConfig] objects, the [MailKit]
    instance, the list object bound to the local variable [soups] of the
    running [scrap] call (appends to it survive a later exception), the clock
    read by [datetime.now()] and the trace. *)
Record State : Type := {
  heap : gmap loc ProxyConfig;
  self : MailKit;
  soups : list Soup;
  clock : Z;
  trace : list Event
}.

Inductive outcome (A : Type) : Type :=
| Returns (a : A)
| Raises (e : exn).
Arguments Returns {A} a.
Arguments Raises {A} e.

(** Computations: state passing with exceptions; the state survives a raise. *)
Definition M (A : Type) : Type := State -> outcome A * State.

#[global] Instance M_ret : MRet M := fun A a st => (Returns a, st).

#[global] Instance M_bind : MBind M := fun A B f m st =>
  match m st with
  | (Returns a, st') => f a st'
  | (Raises e, st') => (Raises e, st')
  end.

#[global] Instance M_throw : MThrow exn M := fun A e st => (Raises e, st).

(** [try: body except <classes selected by handler>: ...]; a handler that
    answers [None] lets the exception propagate. *)
Definition try_except {A} (body : M A) (handler : exn -> option (M A)) : M A :=
  fun st =>
    match body st with
    | (Returns a, st') => (Returns a, st')
    | (Raises e, st') =>
        match handler e with
        | Some h => h st'
        | None => (Raises e, st')
        end
    end.

Definition emit (e : Event) : M unit := fun st =>
  (Returns tt,
   {| heap := heap st; self := self st; soups := soups st; clock := clock st;
      trace := trace st ++ [e] |}).

Definition get_state : M State := fun st => (Returns st, st).

Definition set_self (k : MailKit) : M unit := fun st =>
  (Returns tt,
   {| heap := heap st; self := k; soups := soups st; clock := clock st;
      trace := trace st |}).

Definition set_soups (l : list Soup) : M unit := fun st =>
  (Returns tt,
   {| heap := heap st; self := self st; soups := l; clock := clock st;
      trace := trace st |}).

Definition set_heap (h : gmap loc ProxyConfig) : M unit := fun st =>
  (Returns tt,
   {| heap := h; self := self st; soups := soups st; clock := clock st;
      trace := trace st |}).

(** [time.sleep(seconds)]: the only thing that moves the clock. *)
Definition sleep (seconds : Z) : M unit := fun st =>
  (Returns tt,
   {| heap := heap st; self := self st; soups := soups st;
      clock := clock st + seconds;
      trace := trace st ++ [EvSleep seconds] |}).

Definition logger_info (msg : string) : M unit := emit (EvLog (LogInfo msg)).
Definition logger_error (msg : string) : M unit := emit (EvLog (LogError msg)).
Definition logger_error_exn (prefix : string) (e : exn) : M unit :=
  emit (EvLog (LogErrorExn prefix e)).

(** Reading an attribute of the [ProxyConfig] at [l]. *)
Definition deref (l : loc) : M ProxyConfig := fun st =>
  match heap st !! l with
  | Some c => (Returns c, st)
  | None => (Raises (AttributeError "proxy"), st)
  end.

(** [self.mailbox = mb] *)
Definition assign_mailbox (mb : MailBoxObj) : M unit :=
  st ← get_state;
  set_self {| u := u (self st); pw := pw (self st); mailbox := Some mb;
              login_status := login_status (self st); proxy := proxy (self st) |}.

(** [self.login_status = b] *)
Definition assign_login_status (b : bool) : M unit :=
  st ← get_state;
  set_self {| u := u (self st); pw := pw (self st); mailbox := mailbox (self st);
              login_status := b; proxy := proxy (self st) |}.

(** [self.proxy.proxy_type = v], for [self.proxy] at [l]. *)
Definition assign_proxy_type (l : loc) (v : proxy_type_value) : M unit :=
  c ← deref l;
  st ← get_state;
  set_heap (<[l := set_proxy_type v c]> (heap st)).

(* ===================================================================== *)
(** ** tenacity *)
(* ===================================================================== *)

(** [@retry(stop=stop_after_attempt(n), wait=wait_fixed(w))] with tenacity's
    defaults: an attempt that raises an [Exception] is repeated after a sleep
    of [w] seconds; when the attempt count reaches [n] a [RetryError] wrapping
    the last exception is raised ([reraise] is off); a [BaseException] that is
    not an [Exception] propagates at once.  [more] counts the attempts still
    allowed after the current one. *)
Fixpoint retrying {A} (fn : string) (more : nat) (wait : Z) (op : M A) : M A :=
  emit (EvAttempt fn);;
  try_except op (fun e =>
    if is_Exception e then
      Some (match more with
            | O => mthrow (RetryError e)
            | S k => sleep wait;; retrying fn k wait op
            end)
    else None).

Definition retry {A} (fn : string) (stop_after_attempt : nat) (wait_fixed : Z)
    (op : M A) : M A :=
  retrying fn (stop_after_attempt - 1) wait_fixed op.

(* ===================================================================== *)
(** ** proxification_v2.py *)
(* ===================================================================== *)

(** [SocksIMAP4.PROXY_TYPES] *)
Definition PROXY_TYPES : gmap string Z :=
  list_to_map
    [ ("socks4", socks.PROXY_TYPE_SOCKS4);
      ("socks5", socks.PROXY_TYPE_SOCKS5);
      ("http", socks.PROXY_TYPE_HTTP) ].

Definition is_some {A} (o : option A) : bool :=
  match o with Some _ => true | None => false end.

Section Proxification.
Context (env : Env).

(** [socks.create_connection(dest, proxy_type=..., ..., timeout=...)] *)
Definition socks_create_connection (c : ConnectCall) : M Socket :=
  st ← get_state;
  emit (EvCreateConnection c);;
  match create_connection env (connect_attempts (trace st)) c with
  | None => mret (ProxiedSocket c)
  | Some e => mthrow e
  end.

(** [ssl_context.wrap_socket(sock, server_hostname=...)] *)
Definition ssl_wrap_socket (sock : Socket) (server_hostname : option string)
    : M Socket :=
  st ← get_state;
  emit (EvWrapSocket server_hostname);;
  match wrap_socket env (connect_attempts (trace st) - 1) server_hostname with
  | None => mret (TlsSocket sock server_hostname)
  | Some e => mthrow e
  end.

(** [SocksIMAP4._create_socket]: the [timeout] argument is not used, the
    call passes the literal [timeout=10]. *)
Definition SocksIMAP4_create_socket (self : SocksIMAP4) (timeout : option Z)
    : M Socket :=
  retry "SocksIMAP4._create_socket" 3 3
    (socks_create_connection
       {| cc_host := s_host self;
          cc_port := s_port self;
          cc_proxy_type := s_proxy_type self;
          cc_proxy_addr := s_proxy_addr self;
          cc_proxy_port := s_proxy_port self;
          cc_proxy_rdns := s_rdns self;
          cc_proxy_username := s_username self;
          cc_proxy_password := s_password self;
          cc_timeout := 10 |}).

(** [SocksIMAP4SSL._create_socket] *)
Definition SocksIMAP4SSL_create_socket (self : SocksIMAP4) (timeout : option Z)
    : M Socket :=
  retry "SocksIMAP4SSL._create_socket" 3 3
    (sock ← SocksIMAP4_create_socket self timeout;
     let server_hostname := if HAS_SNI env then Some (s_host self) else None in
     ssl_wrap_socket sock server_hostname).

(** [imaplib.IMAP4.open]: stores [host] and [port], then
    [self.sock = self._create_socket(timeout)], which on a [SocksIMAP4SSL]
    instance is [SocksIMAP4SSL._create_socket]. *)
Definition IMAP4_open (self : SocksIMAP4) (host : string) (port : Z)
    (timeout : option Z) : M SocksIMAP4 :=
  let self :=
    {| s_host := host; s_port := port; s_sock := s_sock self;
       s_proxy_addr := s_proxy_addr self; s_proxy_port := s_proxy_port self;
       s_rdns := s_rdns self; s_username := s_username self;
       s_password := s_password self; s_proxy_type := s_proxy_type self |} in
  sock ← SocksIMAP4SSL_create_socket self timeout;
  mret {| s_host := s_host self; s_port := s_port self; s_sock := Some sock;
          s_proxy_addr := s_proxy_addr self; s_proxy_port := s_proxy_port self;
          s_rdns := s_rdns self; s_username := s_username self;
          s_password := s_password self; s_proxy_type := s_proxy_type self |}.

(** [SocksIMAP4SSL.open] *)
Definition SocksIMAP4SSL_open (self : SocksIMAP4) (host : string) (port : Z)
    (timeout : option Z) : M SocksIMAP4 :=
  retry "SocksIMAP4SSL.open" 3 3 (IMAP4_open self host port timeout).

(** [imaplib.IMAP4.__init__]: [self.open(host, port, timeout)], then the
    server greeting is read. *)
Definition IMAP4_init (self : SocksIMAP4) (host : string) (port : Z)
    (timeout : option Z) : M SocksIMAP4 :=
  self ← SocksIMAP4SSL_open self host port timeout;
  emit (EvGreeting host);;
  match imap_greeting env host with
  | None => mret self
  | Some e => mthrow e
  end.

(** [SocksIMAP4.__init__] *)
Definition SocksIMAP4_init (host : string) (port : Z)
    (proxy_addr : option string) (proxy_port : option Z) (rdns : bool)
    (username password : option string) (proxy_type : string)
    (timeout : option Z) : M SocksIMAP4 :=
  match PROXY_TYPES !! PyStr.lower proxy_type with
  | Some code =>
      IMAP4_init
        {| s_host := ""; s_port := 0; s_sock := None;
           s_proxy_addr := proxy_addr; s_proxy_port := proxy_port;
           s_rdns := rdns; s_username := username; s_password := password;
           s_proxy_type := code |}
        host port timeout
  | None => mthrow (KeyError (PyStr.lower proxy_type))
  end.

(** [SocksIMAP4SSL.__init__] *)
Definition SocksIMAP4SSL_init (host : string) (port : Z)
    (keyfile certfile : option string) (ssl_context : option unit)
    (proxy_addr : option string) (proxy_port : option Z) (rdns : bool)
    (username password : option string) (proxy_type : string)
    (timeout : option Z) : M SocksIMAP4 :=
  if is_some ssl_context && is_some keyfile then
    mthrow (ValueError "ssl_context and keyfile arguments are mutually exclusive")
  else if is_some ssl_context && is_some certfile then
    mthrow (ValueError "ssl_context and certfile arguments are mutually exclusive")
  else
    SocksIMAP4_init host port proxy_addr proxy_port rdns username password
      proxy_type timeout.

(** [MailBoxProxy._get_mailbox_client] *)
Definition MailBoxProxy_get_mailbox_client (self : MailBoxProxy) : M SocksIMAP4 :=
  retry "MailBoxProxy._get_mailbox_client" 3 3
    (SocksIMAP4SSL_init (_host self) (_port self) (_keyfile self)
       (_certfile self) (_ssl_context self) (_p_proxy_addr self)
       (_p_proxy_port self) (_p_proxy_rdns self) (_p_proxy_username self)
       (_p_proxy_password self) (_p_proxy_type self) (_p_timeout self)).

(** [MailBoxProxy.__init__] as [connect_and_login] calls it (the other
    parameters take their defaults); [BaseMailBox.__init__] then does
    [self.client = self._get_mailbox_client()]. *)
Definition MailBoxProxy_init (host : string) (p_proxy_type : string)
    (p_proxy_addr : option string) (p_proxy_port : option Z)
    (p_proxy_username p_proxy_password : option string)
    (p_timeout : option Z) : M MailBoxObj :=
  let self :=
    {| _host := host; _port := 993; _keyfile := None; _certfile := None;
       _ssl_context := None; _p_timeout := p_timeout;
       _p_proxy_type := p_proxy_type; _p_proxy_addr := p_proxy_addr;
       _p_proxy_port := p_proxy_port; _p_proxy_rdns := true;
       _p_proxy_username := p_proxy_username;
       _p_proxy_password := p_proxy_password |} in
  client ← MailBoxProxy_get_mailbox_client self;
  mret (ProxiedMailBox self client).

End Proxification.

(* ===================================================================== *)
(** ** main.py *)
(* ===================================================================== *)

(** What [scrap] returns: a non-empty list of soups, [None], or (from the
    outer handler) the exception object itself. *)
Inductive ScrapResult : Type :=
| ResultSoups (l : list Soup)
| ResultNone
| ResultExn (e : exn).

(** [for x in l: body(x)] *)
Fixpoint for_each {A} (l : list A) (body : A -> M unit) : M unit :=
  match l with
  | [] => mret tt
  | x :: l' => body x;; for_each l' body
  end.

(** The list [folders] of [scrap]. *)
Definition folders : list string :=
  [ "INBOX"; "SENT"; "DRAFTS"; "JUNK"; "TRASH"; "ARCHIVE"; "Trash"; "DraftBox";
    "Spam"; "Sentbox"; "Archive"; "Deleted"; "Drafts"; "Inbox"; "Junk"; "Notes";
    "Outbox"; "Sent" ].

(** An f-string field holding an [Optional[str]]. *)
Definition fmt (o : option string) : string :=
  match o with Some s => s | None => "None" end.

(** [d.date()] of a timestamp in seconds. *)
Definition day_of (t : Z) : Z := t / 86400.

(** [msg.text or msg.html] *)
Definition body_of (msg : Message) : string := PyStr.or_else (text msg) (html msg).

(** [time_diff and datetime.now() - msg_time > time_diff] for a naive
    [msg_time]. *)
Definition too_old (time_diff : option Z) (now : Z) (msg : Message) : bool :=
  match time_diff with
  | Some d => negb (d =? 0) && (d <? now - wall (date msg))
  | None => false
  end.

(** [specific_date and msg_time.date() != specific_date.date()]; [.date()]
    reads the wall clock and ignores [tzinfo]. *)
Definition other_day (specific_date : option Z) (msg : Message) : bool :=
  match specific_date with
  | Some sd => negb (day_of (wall (date msg)) =? day_of sd)
  | None => false
  end.

(** [keyword and keyword not in (msg.text or msg.html)] *)
Definition lacks_keyword (keyword : option string) (msg : Message) : bool :=
  match keyword with
  | Some k => negb (String.eqb k "") && negb (PyStr.contains k (body_of msg))
  | None => false
  end.

(** A message reaches [soups.append] when none of the three [continue]s fires. *)
Definition message_kept (time_diff specific_date : option Z)
    (keyword : option string) (now : Z) (msg : Message) : bool :=
  negb (too_old time_diff now msg)
  && negb (other_day specific_date msg)
  && negb (lacks_keyword keyword msg).

Definition soup_of (msg : Message) : Soup := BeautifulSoup (body_of msg) "lxml".

Section Main.
Context (env : Env).

(** [MailBox(provider)]: imap_tools connects in the constructor. *)
Definition MailBox_init (host : string) : M MailBoxObj :=
  emit (EvDirectConnect host);;
  match direct_connect env host with
  | None => mret (MailBox host)
  | Some e => mthrow e
  end.

(** [self.mailbox.login(user, password)] *)
Definition mailbox_login (user password : string) : M unit :=
  emit (EvLogin user password);;
  match imap_login env user password with
  | None => mret tt
  | Some e => mthrow e
  end.

(** [self.mailbox.folder.set(name)] *)
Definition mailbox_folder_set (name : string) : M bool :=
  emit (EvSelect name);;
  match folder_set env name with
  | SetReturns b => mret b
  | SetRaises e => mthrow e
  end.

(** Iterating over the generator [self.mailbox.fetch(criteria, mark_seen=...)]
    in the selected [folder]: the search runs when the iteration starts, each
    message is fetched (and flagged, when [mark_seen]) as it is yielded, and
    the generator may end with an exception. *)
Fixpoint iterate (folder : string) (mark_seen : bool) (msgs : list Message)
    (final : option exn) (body : Message -> M unit) : M unit :=
  match msgs with
  | [] => match final with Some e => mthrow e | None => mret tt end
  | m :: ms =>
      emit (EvFetchMsg folder (uid m) mark_seen);;
      body m;;
      iterate folder mark_seen ms final body
  end.

Definition for_each_fetched (folder : string) (criteria : Criteria)
    (mark_seen : bool) (body : Message -> M unit) : M unit :=
  emit (EvFetch folder criteria mark_seen);;
  iterate folder mark_seen (fst (fetch env folder criteria))
    (snd (fetch env folder criteria)) body.

(** The translation of [proxy_type] at the head of the proxy branch of
    [connect_and_login]. *)
Definition translate_proxy_type (l : loc) : M unit :=
  c ← deref l;
  match proxy_type c with
  | PTStr s =>
      if String.eqb (PyStr.upper s) "HTTP" then
        assign_proxy_type l (PTInt socks.HTTP)
      else if String.eqb (PyStr.upper s) "SOCKS5" then
        assign_proxy_type l (PTInt socks.SOCKS5)
      else mret tt
  | PTInt code =>
      if (code =? socks.HTTP) || (code =? socks.SOCKS5) then mret tt
      else mthrow (ValueError
        "Invalid proxy type. Must be either 'HTTP', 'SOCKS5', or a valid socks proxy type.")
  end.

(** The body of [MailKit.connect_and_login]; [None] is the implicit return
    of the path on which the address has no ['@']. *)
Definition connect_and_login_body : M (option bool) :=
  st ← get_state;
  let parsed_user := PyStr.split "@" (u (self st)) in
  if (1 <? length parsed_user)%nat then
    let parsed_user := nth 1 parsed_user "" in
    try_except
      (match providers !! parsed_user with
       | Some provider =>
           match proxy (self st) with
           | Some l =>
               translate_proxy_type l;;
               c ← deref l;
               mb ← MailBoxProxy_init env provider "HTTP"
                      (Some (proxy_addr c)) (Some (proxy_port c))
                      (proxy_username c) (proxy_password c) (timeout c);
               assign_mailbox mb
           | None =>
               mb ← MailBox_init provider;
               assign_mailbox mb
           end;;
           mailbox_login (u (self st)) (pw (self st));;
           ok ← mailbox_folder_set "INBOX";
           if (ok : bool) then
             logger_info (String.append "Successful login on " (u (self st)));;
             assign_login_status true;;
             mret (Some true)
           else
             logger_error
               (String.append "Failed to connect to INBOX on " (u (self st)));;
             assign_login_status false;;
             mret (Some false)
       | None =>
           logger_error
             "Please enter an email that is supported in the provider dict.";;
           assign_login_status false;;
           mret (Some false)
       end)
      (fun e =>
         if is_MailboxLoginError e then
           Some (logger_error_exn
                   (String.append "Failed login on " (u (self st))) e;;
                 assign_login_status false;;
                 mret (Some false))
         else if is_Exception e then
           Some (logger_error_exn "" e;; mret (Some false))
         else None)
  else mret None.

(** [MailKit.connect_and_login] *)
Definition connect_and_login : M (option bool) :=
  retry "connect_and_login" 3 3 connect_and_login_body.

(** [datetime.now() - msg_time]: [datetime.now()] is naive, and Python
    refuses to subtract an aware [datetime] from a naive one. *)
Definition now_minus (msg_time : datetime) : M Z :=
  st ← get_state;
  match tzinfo msg_time with
  | None => mret (clock st - wall msg_time)
  | Some _ =>
      mthrow (TypeError "can't subtract offset-naive and offset-aware datetimes")
  end.

(** The body of the [for msg in messages] loop. *)
Definition scan_message (time_diff specific_date : option Z)
    (keyword : option string) (msg : Message) : M unit :=
  st ← get_state;
  let msg_time := date msg in
  old ← match time_diff with
        | Some d =>
            if d =? 0 then mret false
            else age ← now_minus msg_time; mret (d <? age)
        | None => mret false
        end;
  if (old : bool) then mret tt
  else if other_day specific_date msg then mret tt
  else if lacks_keyword keyword msg then mret tt
  else
    let soup := BeautifulSoup (PyStr.or_else (text msg) (html msg)) "lxml" in
    set_soups (soups st ++ [soup]).

(** [AND] of [imap_tools], called with the entries of [search_criteria] as
    keyword arguments: a query without any parameter is refused with a
    [ValueError]. *)
Definition AND (search_criteria : Criteria) : M Criteria :=
  if is_some (c_seen search_criteria) || is_some (c_subject search_criteria)
     || is_some (c_from search_criteria)
  then mret search_criteria
  else mthrow (ValueError "AND expects params").

(** The body of the [for i in folders] loop: everything is inside
    [try: ... except BaseException: pass]. *)
Definition scan_folder (search_criteria : Criteria)
    (time_diff specific_date : option Z) (keyword : option string)
    (i : string) : M unit :=
  try_except
    (mailbox_folder_set i;;
     criteria ← AND search_criteria;
     for_each_fetched i criteria true
       (scan_message time_diff specific_date keyword))
    (fun folder_error => Some (mret tt)).

(** The body of [MailKit.scrap]. *)
Definition scrap_body (scrapsub sender keyword : option string)
    (seen : option bool) (time_diff specific_date : option Z)
    : M ScrapResult :=
  set_soups [];;
  st ← get_state;
  match mailbox (self st) with
  | Some _ =>
      if negb (PyStr.truthy scrapsub || PyStr.truthy sender
               || PyStr.truthy keyword) then
        mthrow (ValueError
          "At least one of 'scrapsub', 'sender', 'keyword' must be provided.")
      else
        let search_criteria :=
          {| c_seen := seen;
             c_subject := if PyStr.truthy scrapsub then scrapsub else None;
             c_from := if PyStr.truthy sender then sender else None |} in
        early ← try_except
          (for_each folders
             (scan_folder search_criteria time_diff specific_date keyword);;
           mret None)
          (fun nm =>
             if is_Exception nm then
               Some (logger_error_exn "" nm;; mret (Some (ResultExn nm)))
             else None);
        match early with
        | Some r => mret r
        | None =>
            logger_info
              (String.concat ""
                 [ "Got a hit on an email from "; fmt sender;
                   " with keyword "; fmt keyword;
                   " and subject "; fmt scrapsub ]);;
            st ← get_state;
            mret (match soups st with
                  | [] => ResultNone
                  | _ :: _ => ResultSoups (soups st)
                  end)
        end
  | None =>
      logger_error (String.append "Authentication Failed on " (u (self st)));;
      mret ResultNone
  end.

(** [MailKit.scrap] *)
Definition scrap (scrapsub sender keyword : option string)
    (seen : option bool) (time_diff specific_date : option Z)
    : M ScrapResult :=
  retry "scrap" 3 3
    (scrap_body scrapsub sender keyword seen time_diff specific_date).

(** [MailKit.__init__]; the logging set-up touches only the logger and the
    log directory and is left out. *)
Definition MailKit_init (user password : string) (proxy : option loc)
    : M unit :=
  logger_info "Initializing MailKit instance";;
  set_self {| u := user; pw := password; mailbox := None;
              login_status := false; proxy := proxy |};;
  match proxy with
  | Some l =>
      c ← deref l;
      logger_info (String.append "Loaded proxy " (proxy_addr c))
  | None => mret tt
  end;;
  connect_and_login;;
  mret tt.

End Main.

(** [MailKit.__enter__]: connects and logs in (again), then returns [self]. *)
Definition MailKit_enter (env : Env) : M unit :=
  connect_and_login env;;
  mret tt.

(** The parsed command line, [args] of [argparse]; an option that was not
    given is [None]. *)
Record Args : Type := {
  args_e : string;
  args_p : string;
  args_scrap : option string;
  args_sender : option string;
  args_keyword : option string;
  args_proxy_type : option string;
  args_proxy_addr : option string;
  args_proxy_port : option Z;
  args_proxy_username : option string;
  args_proxy_password : option string;
  args_timeout : option Z
}.

(** Truthiness of an [Optional[int]]: [None] and [0] are falsy. *)
Definition truthy_int (o : option Z) : bool :=
  match o with
  | Some z => negb (z =? 0)
  | None => false
  end.

(** [ProxyConfig(...)]: pydantic checks the field constraints and raises its
    [ValidationError] (a [ValueError]) when one fails; otherwise a new object
    is allocated. *)
Definition ProxyConfig_init (c : ProxyConfig) : M loc :=
  if ProxyConfig_validates c then
    st ← get_state;
    let l := fresh (dom (heap st)) in
    set_heap (<[l := c]> (heap st));;
    mret l
  else mthrow (ValueError "validation error for ProxyConfig").

(** The keyword arguments that [main] hands to [ProxyConfig]. *)
Definition config_of_args (args : Args) : ProxyConfig :=
  {| proxy_type :=
       PTStr (if PyStr.truthy (args_proxy_type args)
              then default "" (args_proxy_type args) else "HTTP");
     proxy_addr := default "" (args_proxy_addr args);
     proxy_port := default 0 (args_proxy_port args);
     proxy_username :=
       if PyStr.truthy (args_proxy_username args)
       then args_proxy_username args else None;
     proxy_password :=
       if PyStr.truthy (args_proxy_password args)
       then args_proxy_password args else None;
     timeout :=
       Some (if truthy_int (args_timeout args)
             then default 0 (args_timeout args) else 10) |}.

(** [main()]; the result is what [main] hands to [print], [None] when it
    prints nothing. *)
Definition main (env : Env) (args : Args) : M (option ScrapResult) :=
  proxy_config ←
    (if PyStr.truthy (args_proxy_addr args) && truthy_int (args_proxy_port args)
     then l ← ProxyConfig_init (config_of_args args); mret (Some l)
     else mret None);
  MailKit_init env (args_e args) (args_p args) proxy_config;;
  if PyStr.truthy (args_scrap args) || PyStr.truthy (args_sender args)
     || PyStr.truthy (args_keyword args)
  then
    r ← scrap env (args_scrap args) (args_sender args) (args_keyword args)
          None None None;
    mret (Some r)
  else mret None.

(* ===================================================================== *)
(** ** Vocabulary of the statements *)
(* ===================================================================== *)

(** The state with one more event. *)
Definition logged (e : Event) (st : State) : State :=
  {| heap := heap st; self := self st; soups := soups st; clock := clock st;
     trace := trace st ++ [e] |}.

(** The state after [time.sleep(w)]. *)
Definition slept (w : Z) (st : State) : State :=
  {| heap := heap st; self := self st; soups := soups st;
     clock := clock st + w; trace := trace st ++ [EvSleep w] |}.

(** The fetch of a message of [folder]. *)
Definition fetches_in (folder : string) (e : Event) : bool :=
  match e with
  | EvFetchMsg f _ _ => String.eqb f folder
  | _ => false
  end.

(** [steps P st st']: from [st] to [st'] the heap of [ProxyConfig]s is
    untouched and the trace has grown by events that all satisfy [P]. *)
Definition steps (P : Event -> Prop) (st st' : State) : Prop :=
  heap st' = heap st /\
  exists t, trace st' = trace st ++ t /\ Forall P t.

Definition respects (P : Event -> Prop) {A} (m : M A) : Prop :=
  forall st, steps P st (snd (m st)).

(** Every [socks.create_connection] call names proxy type [code] and a
    timeout of [secs] seconds. *)
Definition tunnels_with (code secs : Z) (e : Event) : Prop :=
  match e with
  | EvCreateConnection c => cc_proxy_type c = code /\ cc_timeout c = secs
  | _ => True
  end.

(** The IMAP host that [connect_and_login] resolves for an address; [None]
    when the address has no ['@'] or its domain is not in [providers]. *)
Definition provider_of (user : string) : option string :=
  let parsed_user := PyStr.split "@" user in
  if (1 <? length parsed_user)%nat then providers !! nth 1 parsed_user ""
  else None.

(** What the head of the proxy branch leaves in [proxy_type]. *)
Definition translated_type (v : proxy_type_value) : proxy_type_value :=
  match v with
  | PTStr s =>
      if String.eqb (PyStr.upper s) "HTTP" then PTInt socks.HTTP
      else if String.eqb (PyStr.upper s) "SOCKS5" then PTInt socks.SOCKS5
      else PTStr s
  | PTInt code => PTInt code
  end.

(** The heap that [connect_and_login] leaves behind. *)
Definition heap_after_login (st : State) : gmap loc ProxyConfig :=
  match provider_of (u (self st)), proxy (self st) with
  | Some _, Some l =>
      match heap st !! l with
      | Some c => <[l := set_proxy_type (translated_type (proxy_type c)) c]> (heap st)
      | None => heap st
      end
  | _, _ => heap st
  end.

(** [steps_to P h st st']: as [steps], but the heap has become [h]. *)
Definition steps_to (P : Event -> Prop) (h : gmap loc ProxyConfig)
    (st st' : State) : Prop :=
  heap st' = h /\ exists t, trace st' = trace st ++ t /\ Forall P t.

(** Mock sessions: concrete environments, messages and states. *)
Module Mock.

(** Everything answers; the mailbox is empty. *)
Definition reachable : Env :=
  {| create_connection := fun _ _ => None;
     wrap_socket := fun _ _ => None;
     HAS_SNI := true;
     imap_greeting := fun _ => None;
     direct_connect := fun _ => None;
     imap_login := fun _ _ => None;
     folder_set := fun _ => SetReturns true;
     fetch := fun _ _ => ([], None) |}.

(** The proxy refuses every connection. *)
Definition proxy_down : Env :=
  {| create_connection := fun _ _ => Some (ProxyError "Connection refused");
     wrap_socket := fun _ _ => None;
     HAS_SNI := true;
     imap_greeting := fun _ => None;
     direct_connect := fun _ => None;
     imap_login := fun _ _ => None;
     folder_set := fun _ => SetReturns true;
     fetch := fun _ _ => ([], None) |}.

(** The proxy refuses the first two connections and accepts the third. *)
Definition proxy_flaky : Env :=
  {| create_connection := fun n _ =>
       if (n <? 2)%nat then Some (ProxyError "Connection timed out") else None;
     wrap_socket := fun _ _ => None;
     HAS_SNI := true;
     imap_greeting := fun _ => None;
     direct_connect := fun _ => None;
     imap_login := fun _ _ => None;
     folder_set := fun _ => SetReturns true;
     fetch := fun _ _ => ([], None) |}.

Definition invoice : Message :=
  {| uid := 1; date := {| wall := 1000; tzinfo := None |};
     text := "invoice#4471"; html := "" |}.

Definition newsletter : Message :=
  {| uid := 2; date := {| wall := 2000; tzinfo := None |};
     text := ""; html := "<p>weekly news</p>" |}.

Definition receipt : Message :=
  {| uid := 7; date := {| wall := 3000; tzinfo := None |};
     text := "your invoice is paid"; html := "" |}.

(** INBOX holds two messages, Archive one; selecting SENT fails; reading
    JUNK breaks off after the search. *)
Definition session : Env :=
  {| create_connection := fun _ _ => None;
     wrap_socket := fun _ _ => None;
     HAS_SNI := true;
     imap_greeting := fun _ => None;
     direct_connect := fun _ => None;
     imap_login := fun _ _ => None;
     folder_set := fun name =>
       if String.eqb name "SENT"
       then SetRaises (MailboxFolderSelectError "SENT")
       else SetReturns true;
     fetch := fun name _ =>
       if String.eqb name "INBOX" then ([invoice; newsletter], None)
       else if String.eqb name "Archive" then ([receipt], None)
       else if String.eqb name "JUNK" then ([], Some (ImapError "BYE"))
       else ([], None) |}.

Definition socks5_config : ProxyConfig :=
  {| proxy_type := PTStr "SOCKS5"; proxy_addr := "10.0.0.1";
     proxy_port := 1080; proxy_username := None; proxy_password := None;
     timeout := Some 30 |}.

Definition http_config : ProxyConfig :=
  {| proxy_type := PTStr "HTTP"; proxy_addr := "10.0.0.1";
     proxy_port := 8080; proxy_username := Some "username";
     proxy_password := Some "password"; timeout := Some 10 |}.

Definition nobody : MailKit :=
  {| u := ""; pw := ""; mailbox := None; login_status := false; proxy := None |}.

(** A state in which nothing has happened yet. *)
Definition start (h : gmap loc ProxyConfig) : State :=
  {| heap := h; self := nobody; soups := []; clock := 0; trace := [] |}.

(** A [MailKit] whose attributes are set and that has not connected yet. *)
Definition unconnected (user password : string) (proxy : option loc)
    (h : gmap loc ProxyConfig) : State :=
  {| heap := h;
     self := {| u := user; pw := password; mailbox := None;
                login_status := false; proxy := proxy |};
     soups := []; clock := 0; trace := [] |}.

(** A client for a gmail address whose proxy is [socks5_config]. *)
Definition socks5_client : State :=
  unconnected "user@gmail.com" "secret" (Some 0%nat)
    {[ 0%nat := socks5_config ]}.

(** A [SocksIMAP4SSL] object for gmail behind the proxy of [http_config],
    before [IMAP4.open] has connected it. *)
Definition client : SocksIMAP4 :=
  {| s_host := "imap.gmail.com"; s_port := 993; s_sock := None;
     s_proxy_addr := Some "10.0.0.1"; s_proxy_port := Some 8080;
     s_rdns := true; s_username := Some "username";
     s_password := Some "password"; s_proxy_type := socks.HTTP |}.

Definition refused (n : nat) : exn := ProxyError "Connection refused".

Definition timed_out : exn := ProxyError "Connection timed out".

(** The state after [MailKit(user, password, proxy)]. *)
Definition constructed (env : Env) (user password : string)
    (proxy : option loc) (h : gmap loc ProxyConfig) : State :=
  snd (MailKit_init env user password proxy (start h)).

End Mock.

Definition missing_criteria : exn :=
  ValueError "At least one of 'scrapsub', 'sender', 'keyword' must be provided.".

(** A logged-in client, built against the mock session without a proxy. *)
Definition logged_in : State :=
  Mock.constructed Mock.session "user@gmail.com" "secret" None ∅.

(** The proxy protocol named by a [socks.create_connection] call. *)
Definition uses_proxy_type (code : Z) (e : Event) : Prop :=
  match e with
  | EvCreateConnection c => cc_proxy_type c = code
  | _ => True
  end.

(** The timeout named by a [socks.create_connection] call. *)
Definition uses_timeout (secs : Z) (e : Event) : Prop :=
  match e with
  | EvCreateConnection c => cc_timeout c = secs
  | _ => True
  end.

(** The [socks.create_connection] calls of a trace. *)
Definition connections (t : list Event) : list ConnectCall :=
  flat_map (fun e => match e with EvCreateConnection c => [c] | _ => [] end) t.

(** Searches and fetches that set the seen flag. *)
Definition marks_seen (e : Event) : Prop :=
  match e with
  | EvFetch _ _ mark_seen => mark_seen = true
  | EvFetchMsg _ _ mark_seen => mark_seen = true
  | _ => True
  end.

(** [fails_adding k w f op]: from every state, [op] makes [k] connection
    attempts, sleeps [w] seconds in total and raises [f n], where [n] is the
    number of connection attempts made before it started. *)
Definition fails_adding {A} (k : nat) (w : Z) (f : nat -> exn) (op : M A) : Prop :=
  forall st, exists st',
    op st = (Raises (f (connect_attempts (trace st))), st')
    /\ connect_attempts (trace st') = (connect_attempts (trace st) + k)%nat
    /\ clock st' = clock st + w.

(** The arguments with which [SocksIMAP4._create_socket] calls
    [socks.create_connection]. *)
Definition call_of (self : SocksIMAP4) : ConnectCall :=
  {| cc_host := s_host self; cc_port := s_port self;
     cc_proxy_type := s_proxy_type self; cc_proxy_addr := s_proxy_addr self;
     cc_proxy_port := s_proxy_port self; cc_proxy_rdns := s_rdns self;
     cc_proxy_username := s_username self;
     cc_proxy_password := s_password self; cc_timeout := 10 |}.

(** [n] applications of the [RetryError] wrapper. *)
Fixpoint wrapped (n : nat) (e : exn) : exn :=
  match n with
  | O => e
  | S k => RetryError (wrapped k e)
  end.

(** The object that [IMAP4.open] leaves behind. *)
Definition opened (self : SocksIMAP4) (host : string) (port : Z)
    (sock : Socket) : SocksIMAP4 :=
  {| s_host := host; s_port := port; s_sock := Some sock;
     s_proxy_addr := s_proxy_addr self; s_proxy_port := s_proxy_port self;
     s_rdns := s_rdns self; s_username := s_username self;
     s_password := s_password self; s_proxy_type := s_proxy_type self |}.

(** The state after a stretch of the scan: soups appended, events logged. *)
Definition advanced (new_soups : list Soup) (events : list Event) (st : State)
    : State :=
  {| heap := heap st; self := self st; soups := soups st ++ new_soups;
     clock := clock st; trace := trace st ++ events |}.

(** The dict [search_criteria] that [scrap] builds. *)
Definition search_criteria_of (scrapsub sender : option string)
    (seen : option bool) : Criteria :=
  {| c_seen := seen;
     c_subject := if PyStr.truthy scrapsub then scrapsub else None;
     c_from := if PyStr.truthy sender then sender else None |}.

Definition fetch_events (folder : string) (msgs : list Message) : list Event :=
  map (fun m => EvFetchMsg folder (uid m) true) msgs.

(** The query that [scrap] builds has at least one parameter. *)
Definition has_params (criteria : Criteria) : bool :=
  is_some (c_seen criteria) || is_some (c_subject criteria)
  || is_some (c_from criteria).

(** The time-window test raises at [msg]: [time_diff] is truthy ([None] and
    a zero [timedelta] are falsy) and [msg.date] is aware. *)
Definition breaks (time_diff : option Z) (msg : Message) : bool :=
  match time_diff with
  | Some d => negb (d =? 0) && is_some (tzinfo (date msg))
  | None => false
  end.

(** The messages of a folder that the loop body gets through: those before
    the first one at which it raises. *)
Fixpoint scanned (time_diff : option Z) (msgs : list Message) : list Message :=
  match msgs with
  | [] => []
  | m :: ms => if breaks time_diff m then [] else m :: scanned time_diff ms
  end.

(** The messages of a folder that are fetched: those, and the one at which
    the loop body raises. *)
Fixpoint fetched (time_diff : option Z) (msgs : list Message) : list Message :=
  match msgs with
  | [] => []
  | m :: ms => if breaks time_diff m then [m] else m :: fetched time_diff ms
  end.

(** The soups of the messages that pass the three filters. *)
Definition kept_soups (time_diff specific_date : option Z)
    (keyword : option string) (now : Z) (msgs : list Message) : list Soup :=
  map soup_of (List.filter (message_kept time_diff specific_date keyword now) msgs).

(** What one folder adds to the trace. *)
Definition folder_events (env : Env) (criteria : Criteria)
    (time_diff : option Z) (i : string) : list Event :=
  EvSelect i ::
  match folder_set env i with
  | SetReturns _ =>
      if has_params criteria then
        EvFetch i criteria true
        :: fetch_events i (fetched time_diff (fst (fetch env i criteria)))
      else []
  | SetRaises _ => []
  end.

(** What one folder adds to [soups]: nothing when selecting it raises or the
    query is empty, otherwise the kept messages among those that the loop
    gets through. *)
Definition folder_soups (env : Env) (criteria : Criteria)
    (time_diff specific_date : option Z) (keyword : option string) (now : Z)
    (i : string) : list Soup :=
  match folder_set env i with
  | SetReturns _ =>
      if has_params criteria then
        kept_soups time_diff specific_date keyword now
          (scanned time_diff (fst (fetch env i criteria)))
      else []
  | SetRaises _ => []
  end.

(** [soups if soups else None] *)
Definition result_of (l : list Soup) : ScrapResult :=
  match l with
  | [] => ResultNone
  | _ :: _ => ResultSoups l
  end.

Definition hit_message (scrapsub sender keyword : option string) : string :=
  String.concat ""
    [ "Got a hit on an email from "; fmt sender; " with keyword "; fmt keyword;
      " and subject "; fmt scrapsub ].

(** More mock sessions, each with one thing going wrong. *)
Module Scenario.

(** The server rejects the credentials. *)
Definition login_rejected : Env :=
  {| create_connection := fun _ _ => None;
     wrap_socket := fun _ _ => None;
     HAS_SNI := true;
     imap_greeting := fun _ => None;
     direct_connect := fun _ => None;
     imap_login := fun _ _ =>
       Some (MailboxLoginError "[AUTHENTICATIONFAILED] Invalid credentials");
     folder_set := fun _ => SetReturns true;
     fetch := fun _ _ => ([], None) |}.

(** The IMAP server cannot be reached directly. *)
Definition server_down : Env :=
  {| create_connection := fun _ _ => None;
     wrap_socket := fun _ _ => None;
     HAS_SNI := true;
     imap_greeting := fun _ => None;
     direct_connect := fun _ => Some (ImapError "Connection refused");
     imap_login := fun _ _ => None;
     folder_set := fun _ => SetReturns true;
     fetch := fun _ _ => ([], None) |}.

Definition bad_handshake (n : nat) : exn :=
  ProxyError "SSL: WRONG_VERSION_NUMBER".

(** The proxy connects, but every TLS handshake fails. *)
Definition handshake_fails : Env :=
  {| create_connection := fun _ _ => None;
     wrap_socket := fun n _ => Some (bad_handshake n);
     HAS_SNI := true;
     imap_greeting := fun _ => None;
     direct_connect := fun _ => None;
     imap_login := fun _ _ => None;
     folder_set := fun _ => SetReturns true;
     fetch := fun _ _ => ([], None) |}.

(** The user presses Ctrl-C while the proxy connection is being opened. *)
Definition interrupted : Env :=
  {| create_connection := fun _ _ => Some KeyboardInterrupt;
     wrap_socket := fun _ _ => None;
     HAS_SNI := true;
     imap_greeting := fun _ => None;
     direct_connect := fun _ => None;
     imap_login := fun _ _ => None;
     folder_set := fun _ => SetReturns true;
     fetch := fun _ _ => ([], None) |}.

(** A gmail client without a proxy that has not connected yet. *)
Definition direct_client : State :=
  Mock.unconnected "user@gmail.com" "secret" None ∅.

(** A client that logged in earlier ([login_status] is [True]). *)
Definition was_logged_in : State :=
  Mock.constructed Mock.reachable "user@gmail.com" "secret" None ∅.

(** A message whose text part does not mention the invoice that its HTML
    part shows. *)
Definition two_part : Message :=
  {| uid := 9; date := {| wall := 500; tzinfo := None |};
     text := "see attachment"; html := "<p>invoice#4471</p>" |}.

(** Two messages whose [Date] header names a time zone. *)
Definition zoned_invoice : Message :=
  {| uid := 11; date := {| wall := 1000; tzinfo := Some 0 |};
     text := "Invoice 4471"; html := "" |}.

Definition zoned_reminder : Message :=
  {| uid := 12; date := {| wall := 1200; tzinfo := Some 7200 |};
     text := "Invoice 4471 is due"; html := "" |}.

(** A session whose INBOX holds these two messages. *)
Definition zoned : Env :=
  {| create_connection := fun _ _ => None;
     wrap_socket := fun _ _ => None;
     HAS_SNI := true;
     imap_greeting := fun _ => None;
     direct_connect := fun _ => None;
     imap_login := fun _ _ => None;
     folder_set := fun _ => SetReturns true;
     fetch := fun name _ =>
       if String.eqb name "INBOX" then ([zoned_invoice; zoned_reminder], None)
       else ([], None) |}.

(** A configuration whose proxy type is neither ['HTTP'] nor ['SOCKS5']. *)
Definition odd_config : ProxyConfig :=
  {| proxy_type := PTStr "socks4"; proxy_addr := "10.0.0.1";
     proxy_port := 1080; proxy_username := Some "username";
     proxy_password := Some "password"; timeout := Some 30 |}.

Definition odd_client : State :=
  Mock.unconnected "user@gmail.com" "secret" (Some 0%nat)
    {[ 0%nat := odd_config ]}.

(** [python main.py -e user@gmail.com -p secret]: no option but the
    credentials. *)
Definition login_only : Args :=
  {| args_e := "user@gmail.com"; args_p := "secret"; args_scrap := None;
     args_sender := None; args_keyword := None; args_proxy_type := None;
     args_proxy_addr := None; args_proxy_port := None;
     args_proxy_username := None; args_proxy_password := None;
     args_timeout := None |}.

(** A search for a subject through a proxy given with
    [--proxy_addr 10.0.0.1 --proxy_port port --proxy_type socks5]. *)
Definition through_port (port : Z) : Args :=
  {| args_e := "user@gmail.com"; args_p := "secret";
     args_scrap := Some "Invoice"; args_sender := None; args_keyword := None;
     args_proxy_type := Some "socks5"; args_proxy_addr := Some "10.0.0.1";
     args_proxy_port := Some port; args_proxy_username := None;
     args_proxy_password := None; args_timeout := None |}.

(** The proxy and the TLS layer work, but the server sends no greeting. *)
Definition no_greeting : Env :=
  {| create_connection := fun _ _ => None;
     wrap_socket := fun _ _ => None;
     HAS_SNI := true;
     imap_greeting := fun _ => Some (ImapError "no greeting");
     direct_connect := fun _ => None;
     imap_login := fun _ _ => None;
     folder_set := fun _ => SetReturns true;
     fetch := fun _ _ => ([], None) |}.

(** A [MailBoxProxy] given a TLS context of its own and a certificate file. *)
Definition own_context : MailBoxProxy :=
  {| _host := "imap.gmail.com"; _port := 993; _keyfile := None;
     _certfile := Some "client.pem"; _ssl_context := Some tt;
     _p_timeout := None; _p_proxy_type := "http";
     _p_proxy_addr := Some "10.0.0.1"; _p_proxy_port := Some 8080;
     _p_proxy_rdns := true; _p_proxy_username := None;
     _p_proxy_password := None |}.

End Scenario.

(** The same state with the clock reading [now]. *)
Definition at_time (now : Z) (st : State) : State :=
  {| heap := heap st; self := self st; soups := soups st; clock := now;
     trace := trace st |}.

(** The arguments of the [socks.create_connection] call that a
    [MailBoxProxy] for [host] ends up making. *)
Definition proxy_call (host : string) (code : Z) (p_proxy_addr : option string)
    (p_proxy_port : option Z) (p_proxy_username p_proxy_password : option string)
    : ConnectCall :=
  {| cc_host := host; cc_port := 993; cc_proxy_type := code;
     cc_proxy_addr := p_proxy_addr; cc_proxy_port := p_proxy_port;
     cc_proxy_rdns := true; cc_proxy_username := p_proxy_username;
     cc_proxy_password := p_proxy_password; cc_timeout := 10 |}.

(** The state after a [MailBoxProxy] has been built at the first try. *)
Definition after_proxy_connect (call : ConnectCall)
    (server_hostname : option string) (host : string) (st : State) : State :=
  logged (EvGreeting host)
    (logged (EvWrapSocket server_hostname)
       (logged (EvCreateConnection call)
          (logged (EvAttempt "SocksIMAP4._create_socket")
             (logged (EvAttempt "SocksIMAP4SSL._create_socket")
                (logged (EvAttempt "SocksIMAP4SSL.open")
                   (logged (EvAttempt "MailBoxProxy._get_mailbox_client")
                      st)))))).

(** The same state with the heap [h]. *)
Definition with_heap (h : gmap loc ProxyConfig) (st : State) : State :=
  {| heap := h; self := self st; soups := soups st; clock := clock st;
     trace := trace st |}.

(** The retry-wrapped functions below [connect_and_login]. *)
Definition stack_functions : list string :=
  [ "MailBoxProxy._get_mailbox_client"; "SocksIMAP4SSL.open";
    "SocksIMAP4SSL._create_socket"; "SocksIMAP4._create_socket" ].

(** The events of connecting and logging in: anything but a search, a fetch,
    or an attempt of a function outside the proxy stack. *)
Definition login_event (e : Event) : Prop :=
  match e with
  | EvFetch _ _ _ | EvFetchMsg _ _ _ => False
  | EvAttempt fn => In fn stack_functions
  | _ => True
  end.

(** The events of one successful login on a direct connection. *)
Definition direct_login_events (user password provider : string) : list Event :=
  [ EvAttempt "connect_and_login"; EvDirectConnect provider;
    EvLogin user password; EvSelect "INBOX";
    EvLog (LogInfo (String.append "Successful login on " user)) ].

(** The same command line with every proxy option left out. *)
Definition without_proxy (args : Args) : Args :=
  {| args_e := args_e args; args_p := args_p args;
     args_scrap := args_scrap args; args_sender := args_sender args;
     args_keyword := args_keyword args; args_proxy_type := None;
     args_proxy_addr := None; args_proxy_port := None;
     args_proxy_username := None; args_proxy_password := None;
     args_timeout := None |}.

(* ===================================================================== *)
(** ** Facts about the string functions *)
(* ===================================================================== *)

Lemma append_String (c : ascii) (s t : string) :
  String.append (String c s) t = String c (String.append s t).
Proof. reflexivity. Qed.

Lemma append_empty (t : string) : String.append "" t = t.
Proof. reflexivity. Qed.

Lemma prefix_iff (k b : string) :
  String.prefix k b = true <-> exists post, b = String.append k post.
Proof.
  revert b. induction k as [|c k IH]; intros b.
  - split; [intros _; exists b; reflexivity | intros _; destruct b; reflexivity].
  - destruct b as [|d b]; simpl.
    + split; [discriminate | intros [post H]; discriminate].
    + destruct (Ascii.ascii_dec c d) as [->|Hne].
      * rewrite IH. split; intros [post H]; exists post.
        -- rewrite append_String. congruence.
        -- rewrite append_String in H. congruence.
      * split; [discriminate|].
        intros [post H]. rewrite append_String in H. congruence.
Qed.

Lemma contains_nil (k : string) :
  PyStr.contains k "" = String.prefix k "" || false.
Proof. reflexivity. Qed.

Lemma contains_String (k : string) (d : ascii) (b : string) :
  PyStr.contains k (String d b)
  = String.prefix k (String d b) || PyStr.contains k b.
Proof. reflexivity. Qed.

Lemma contains_iff (k b : string) :
  PyStr.contains k b = true <-> PyStr.occurs_in k b.
Proof.
  unfold PyStr.occurs_in. induction b as [|d b IH].
  - rewrite contains_nil, orb_false_r, prefix_iff. split.
    + intros [post H]. exists "", post. exact H.
    + intros [pre [post H]]. destruct pre as [|c pre].
      * exists post. exact H.
      * rewrite append_String in H. discriminate.
  - rewrite contains_String, orb_true_iff, prefix_iff, IH. split.
    + intros [[post H]|[pre [post H]]].
      * exists "", post. exact H.
      * exists (String d pre), post. rewrite append_String. congruence.
    + intros [pre [post H]]. destruct pre as [|c pre].
      * left. exists post. exact H.
      * right. exists pre, post. rewrite append_String in H. congruence.
Qed.

(** No special character starts with an ASCII byte. *)
Lemma special_case_ascii (c : ascii) (s : string) :
  (nat_of_ascii c <? 128)%nat = true ->
  PyStr.special_case PyStr.upper_special (String c s) = None
  /\ PyStr.special_case PyStr.lower_special (String c s) = None.
Proof.
  destruct c as [b0 b1 b2 b3 b4 b5 b6 b7].
  destruct b7; [|destruct b0, b1, b2, b3, b4, b5, b6; split; reflexivity].
  destruct b0, b1, b2, b3, b4, b5, b6; vm_compute; discriminate.
Qed.

Lemma map_case_isascii f table (s : string) :
  (forall c t, (nat_of_ascii c <? 128)%nat = true ->
               PyStr.special_case table (String c t) = None) ->
  PyStr.isascii s = true ->
  PyStr.map_case f table 0 s = PyStr.bytewise f s.
Proof.
  intros Htable. induction s as [|c s IH]; [reflexivity|].
  cbn [PyStr.isascii]. intros H. apply andb_true_iff in H as [Hc Hs].
  cbn [PyStr.map_case PyStr.bytewise]. rewrite (Htable c s Hc), (IH Hs).
  reflexivity.
Qed.

(** On an ASCII string, [upper] and [lower] map the letters byte by byte. *)
Lemma upper_isascii (s : string) :
  PyStr.isascii s = true -> PyStr.upper s = PyStr.bytewise PyStr.upper_ascii s.
Proof.
  apply map_case_isascii. intros c t Hc. apply (special_case_ascii c t Hc).
Qed.

Lemma lower_isascii (s : string) :
  PyStr.isascii s = true -> PyStr.lower s = PyStr.bytewise PyStr.lower_ascii s.
Proof.
  apply map_case_isascii. intros c t Hc. apply (special_case_ascii c t Hc).
Qed.

(** Beyond ASCII: the long s upper-cases to ['S'] and the Kelvin sign
    lower-cases to ['k'], so that these spellings name SOCKS5 as well. *)
Example upper_long_s :
  PyStr.upper (String.append (PyStr.utf8 [197; 191]) "ocks5") = "SOCKS5".
Proof. reflexivity. Qed.

Example lower_kelvin_sign :
  PyStr.lower
    (String.append "SOC" (String.append (PyStr.utf8 [226; 132; 170]) "S5"))
  = "socks5".
Proof. reflexivity. Qed.

Example upper_sharp_s : PyStr.upper (PyStr.utf8 [195; 159]) = "SS".
Proof. reflexivity. Qed.

Lemma split_no_sep (sep : ascii) (s : string) :
  PyStr.has_char sep s = false -> PyStr.split sep s = [s].
Proof.
  induction s as [|c s IH]; simpl; [reflexivity|].
  intros H. apply orb_false_elim in H as [Hc Hs].
  rewrite Hc, (IH Hs). reflexivity.
Qed.

Lemma split_with_sep (sep : ascii) (s : string) :
  PyStr.has_char sep s = true -> (1 < length (PyStr.split sep s))%nat.
Proof.
  assert (Hpos : forall t, (0 < length (PyStr.split sep t))%nat).
  { induction t as [|c t IH]; simpl; [lia|].
    destruct (Ascii.eqb c sep); simpl; [lia|].
    destruct (PyStr.split sep t); simpl in *; lia. }
  induction s as [|c s IH]; simpl; [discriminate|].
  destruct (Ascii.eqb c sep) eqn:Hc; simpl.
  - intros _. specialize (Hpos s). lia.
  - intros H. specialize (IH H).
    destruct (PyStr.split sep s); simpl in *; lia.
Qed.

(* ===================================================================== *)
(** ** Reasoning about computations *)
(* ===================================================================== *)

Lemma bind_run {A B} (m : M A) (f : A -> M B) (st : State) :
  (m ≫= f) st =
  match m st with
  | (Returns a, st') => f a st'
  | (Raises e, st') => (Raises e, st')
  end.
Proof. reflexivity. Qed.

Lemma bind_returns {A B} (m : M A) (f : A -> M B) st a st' :
  m st = (Returns a, st') -> (m ≫= f) st = f a st'.
Proof. intros H. rewrite bind_run, H. reflexivity. Qed.

Lemma bind_raises {A B} (m : M A) (f : A -> M B) st e st' :
  m st = (Raises e, st') -> (m ≫= f) st = (Raises e, st').
Proof. intros H. rewrite bind_run, H. reflexivity. Qed.

Lemma retrying_run {A} fn more wait (op : M A) :
  retrying fn more wait op =
  (emit (EvAttempt fn);;
   try_except op (fun e =>
     if is_Exception e then
       Some (match more with
             | O => mthrow (RetryError e)
             | S k => sleep wait;; retrying fn k wait op
             end)
     else None)).
Proof. destruct more; reflexivity. Qed.

(** An attempt that returns ends the retry loop. *)
Lemma retrying_returns {A} fn more wait (op : M A) st a st' :
  op (logged (EvAttempt fn) st) = (Returns a, st') ->
  retrying fn more wait op st = (Returns a, st').
Proof.
  intros H. rewrite retrying_run.
  unfold mbind, M_bind, emit, try_except. fold (logged (EvAttempt fn) st).
  rewrite H. reflexivity.
Qed.

(** An attempt that raises an [Exception] is followed by a sleep and the next
    attempt, as long as attempts remain. *)
Lemma retrying_again {A} fn more wait (op : M A) st e st' :
  op (logged (EvAttempt fn) st) = (Raises e, st') ->
  is_Exception e = true ->
  retrying fn (S more) wait op st = retrying fn more wait op (slept wait st').
Proof.
  intros H He. rewrite (retrying_run fn (S more)).
  unfold mbind at 1. unfold M_bind, emit, try_except.
  fold (logged (EvAttempt fn) st). rewrite H, He. reflexivity.
Qed.

(** The last allowed attempt raising an [Exception] ends in a [RetryError]. *)
Lemma retrying_exhausted {A} fn wait (op : M A) st e st' :
  op (logged (EvAttempt fn) st) = (Raises e, st') ->
  is_Exception e = true ->
  retrying fn 0 wait op st = (Raises (RetryError e), st').
Proof.
  intros H He. rewrite retrying_run.
  unfold mbind, M_bind, emit, try_except. fold (logged (EvAttempt fn) st).
  rewrite H, He. reflexivity.
Qed.

Lemma steps_refl P st : steps P st st.
Proof. split; [reflexivity|]. exists []. rewrite app_nil_r. auto. Qed.

Lemma steps_trans P a b c : steps P a b -> steps P b c -> steps P a c.
Proof.
  intros [Hh1 [t1 [Ht1 HP1]]] [Hh2 [t2 [Ht2 HP2]]]. split; [congruence|].
  exists (t1 ++ t2). split.
  - rewrite Ht2, Ht1, app_assoc. reflexivity.
  - apply Forall_app; auto.
Qed.

Lemma steps_logged P e st : P e -> steps P st (logged e st).
Proof.
  intros He. split; [reflexivity|]. exists [e]. split; [reflexivity|].
  constructor; [exact He | constructor].
Qed.

Section Respects.
Context (P : Event -> Prop).

Lemma respects_ret {A} (a : A) : respects P (mret a).
Proof. intros st. apply steps_refl. Qed.

Lemma respects_throw {A} (e : exn) : respects P (@mthrow exn M _ A e).
Proof. intros st. apply steps_refl. Qed.

Lemma respects_get_state : respects P get_state.
Proof. intros st. apply steps_refl. Qed.

Lemma respects_emit e : P e -> respects P (emit e).
Proof. intros He st. apply (steps_logged P e st He). Qed.

Lemma respects_sleep w : P (EvSleep w) -> respects P (sleep w).
Proof.
  intros He st. split; [reflexivity|]. exists [EvSleep w].
  split; [reflexivity|]. constructor; [exact He | constructor].
Qed.

Lemma respects_set_self k : respects P (set_self k).
Proof. intros st. split; [reflexivity|]. exists []. simpl. rewrite app_nil_r. auto. Qed.

Lemma respects_set_soups l : respects P (set_soups l).
Proof. intros st. split; [reflexivity|]. exists []. simpl. rewrite app_nil_r. auto. Qed.

Lemma respects_deref l : respects P (deref l).
Proof. intros st. unfold deref. destruct (heap st !! l); apply steps_refl. Qed.

Lemma respects_bind {A B} (m : M A) (f : A -> M B) :
  respects P m -> (forall a, respects P (f a)) -> respects P (m ≫= f).
Proof.
  intros Hm Hf st. rewrite bind_run. specialize (Hm st).
  destruct (m st) as [[a|e] st1]; simpl in Hm.
  - eapply steps_trans; [exact Hm | apply Hf].
  - exact Hm.
Qed.

Lemma respects_try_except {A} (body : M A) handler :
  respects P body ->
  (forall e h, handler e = Some h -> respects P h) ->
  respects P (try_except body handler).
Proof.
  intros Hb Hh st. unfold try_except. specialize (Hb st).
  destruct (body st) as [[a|e] st1]; simpl in Hb; [exact Hb|].
  destruct (handler e) as [h|] eqn:He; [|exact Hb].
  eapply steps_trans; [exact Hb | apply (Hh e h He)].
Qed.

Lemma respects_retrying {A} fn more wait (op : M A) :
  P (EvAttempt fn) -> P (EvSleep wait) -> respects P op ->
  respects P (retrying fn more wait op).
Proof.
  intros Ha Hs Hop. induction more as [|k IH]; rewrite retrying_run.
  - apply respects_bind; [apply respects_emit, Ha | intros _].
    apply respects_try_except; [exact Hop|].
    intros e h. destruct (is_Exception e); [|discriminate].
    intros [= <-]. apply respects_throw.
  - apply respects_bind; [apply respects_emit, Ha | intros _].
    apply respects_try_except; [exact Hop|].
    intros e h. destruct (is_Exception e); [|discriminate].
    intros [= <-]. apply respects_bind; [apply respects_sleep, Hs | intros _].
    exact IH.
Qed.

Lemma respects_retry {A} fn n wait (op : M A) :
  P (EvAttempt fn) -> P (EvSleep wait) -> respects P op ->
  respects P (retry fn n wait op).
Proof. apply respects_retrying. Qed.

Lemma respects_for_each {A} (l : list A) body :
  (forall x, respects P (body x)) -> respects P (for_each l body).
Proof.
  intros Hb. induction l as [|x l IH]; simpl.
  - apply respects_ret.
  - apply respects_bind; [apply Hb | intros _; exact IH].
Qed.

End Respects.

(* ===================================================================== *)
(** ** What the proxy stack puts on the wire *)
(* ===================================================================== *)

Ltac respects_step :=
  lazymatch goal with
  | |- respects _ (mret _) => apply respects_ret
  | |- respects _ (mthrow _) => apply respects_throw
  | |- respects _ get_state => apply respects_get_state
  | |- respects _ (set_self _) => apply respects_set_self
  | |- respects _ (set_soups _) => apply respects_set_soups
  | |- respects _ (deref _) => apply respects_deref
  | |- respects _ (emit _) => apply respects_emit; simpl; auto
  | |- respects _ (sleep _) => apply respects_sleep; simpl; auto
  | |- respects _ (retry _ _ _ _) =>
      apply respects_retry; [simpl; auto | simpl; auto |]
  | |- respects _ (mbind _ _) => apply respects_bind; [|intros ?]
  end.

Section ProxyStackFacts.
Context (env : Env).

Lemma respects_socks_create_connection P c :
  P (EvCreateConnection c) -> respects P (socks_create_connection env c).
Proof.
  intros Hc. unfold socks_create_connection.
  apply respects_bind; [respects_step | intros st0].
  apply respects_bind; [apply respects_emit, Hc | intros _].
  destruct (create_connection env _ c); respects_step.
Qed.

Lemma respects_ssl_wrap_socket P sock h :
  P (EvWrapSocket h) -> respects P (ssl_wrap_socket env sock h).
Proof.
  intros Hw. unfold ssl_wrap_socket.
  apply respects_bind; [respects_step | intros st0].
  apply respects_bind; [apply respects_emit, Hw | intros _].
  destruct (wrap_socket env _ h); respects_step.
Qed.

Lemma SocksIMAP4_create_socket_tunnels self timeout :
  respects (tunnels_with (s_proxy_type self) 10)
    (SocksIMAP4_create_socket env self timeout).
Proof.
  unfold SocksIMAP4_create_socket. respects_step.
  apply respects_socks_create_connection. simpl. auto.
Qed.

Lemma SocksIMAP4SSL_create_socket_tunnels self timeout :
  respects (tunnels_with (s_proxy_type self) 10)
    (SocksIMAP4SSL_create_socket env self timeout).
Proof.
  unfold SocksIMAP4SSL_create_socket. respects_step. respects_step.
  - apply SocksIMAP4_create_socket_tunnels.
  - apply respects_ssl_wrap_socket. exact I.
Qed.

Lemma IMAP4_open_tunnels self host port timeout :
  respects (tunnels_with (s_proxy_type self) 10)
    (IMAP4_open env self host port timeout).
Proof.
  unfold IMAP4_open. respects_step; [|respects_step].
  apply (SocksIMAP4SSL_create_socket_tunnels
           {| s_host := host; s_port := port; s_sock := s_sock self;
              s_proxy_addr := s_proxy_addr self;
              s_proxy_port := s_proxy_port self; s_rdns := s_rdns self;
              s_username := s_username self; s_password := s_password self;
              s_proxy_type := s_proxy_type self |}).
Qed.

Lemma IMAP4_init_tunnels self host port timeout :
  respects (tunnels_with (s_proxy_type self) 10)
    (IMAP4_init env self host port timeout).
Proof.
  unfold IMAP4_init, SocksIMAP4SSL_open. respects_step.
  - respects_step. apply IMAP4_open_tunnels.
  - respects_step; [respects_step|].
    destruct (imap_greeting env host); respects_step.
Qed.

(** Whatever [SocksIMAP4SSL.__init__] is given as [proxy_type], the
    connections it opens name the code that [PROXY_TYPES] holds for it. *)
Lemma SocksIMAP4SSL_init_tunnels host port keyfile certfile ssl_context
    proxy_addr proxy_port rdns username password proxy_type timeout code :
  PROXY_TYPES !! PyStr.lower proxy_type = Some code ->
  respects (tunnels_with code 10)
    (SocksIMAP4SSL_init env host port keyfile certfile ssl_context proxy_addr
       proxy_port rdns username password proxy_type timeout).
Proof.
  intros Hcode. unfold SocksIMAP4SSL_init, SocksIMAP4_init.
  destruct (is_some ssl_context && is_some keyfile); [respects_step|].
  destruct (is_some ssl_context && is_some certfile); [respects_step|].
  rewrite Hcode.
  apply (IMAP4_init_tunnels
           {| s_host := ""; s_port := 0; s_sock := None;
              s_proxy_addr := proxy_addr; s_proxy_port := proxy_port;
              s_rdns := rdns; s_username := username; s_password := password;
              s_proxy_type := code |}).
Qed.

Lemma MailBoxProxy_init_tunnels host p_proxy_type p_proxy_addr p_proxy_port
    p_proxy_username p_proxy_password p_timeout code :
  PROXY_TYPES !! PyStr.lower p_proxy_type = Some code ->
  respects (tunnels_with code 10)
    (MailBoxProxy_init env host p_proxy_type p_proxy_addr p_proxy_port
       p_proxy_username p_proxy_password p_timeout).
Proof.
  intros Hcode. unfold MailBoxProxy_init, MailBoxProxy_get_mailbox_client.
  respects_step; [|respects_step]. respects_step.
  apply SocksIMAP4SSL_init_tunnels. exact Hcode.
Qed.

End ProxyStackFacts.

(* ===================================================================== *)
(** ** Facts about [connect_and_login] *)
(* ===================================================================== *)

Lemma steps_to_steps P h st st1 st2 :
  steps_to P h st st1 -> steps P st1 st2 -> steps_to P h st st2.
Proof.
  intros [Hh1 [t1 [Ht1 HP1]]] [Hh2 [t2 [Ht2 HP2]]]. split; [congruence|].
  exists (t1 ++ t2). split.
  - rewrite Ht2, Ht1, app_assoc. reflexivity.
  - apply Forall_app; auto.
Qed.

Lemma steps_to_same P st st' : steps P st st' -> steps_to P (heap st) st st'.
Proof. intros [Hh Ht]. split; assumption. Qed.

Lemma steps_to_bind {A B} P h (m : M A) (f : A -> M B) st :
  steps_to P h st (snd (m st)) -> (forall a, respects P (f a)) ->
  steps_to P h st (snd ((m ≫= f) st)).
Proof.
  intros Hm Hf. rewrite bind_run.
  destruct (m st) as [[a|e] st1]; simpl in Hm; [|exact Hm].
  eapply steps_to_steps; [exact Hm | apply Hf].
Qed.

Lemma steps_to_try_except {A} P h (body : M A) handler st :
  steps_to P h st (snd (body st)) ->
  (forall e k, handler e = Some k -> respects P k) ->
  steps_to P h st (snd (try_except body handler st)).
Proof.
  intros Hb Hh. unfold try_except.
  destruct (body st) as [[a|e] st1]; simpl in Hb; [exact Hb|].
  destruct (handler e) as [k|] eqn:He; [|exact Hb].
  eapply steps_to_steps; [exact Hb | apply (Hh e k He)].
Qed.

Lemma set_proxy_type_same c : set_proxy_type (proxy_type c) c = c.
Proof. destruct c; reflexivity. Qed.

Lemma respects_assign_mailbox P mb : respects P (assign_mailbox mb).
Proof. unfold assign_mailbox. respects_step; respects_step. Qed.

Lemma respects_assign_login_status P b : respects P (assign_login_status b).
Proof. unfold assign_login_status. respects_step; respects_step. Qed.

Section ConnectFacts.
Context (env : Env).

(** An attempt that cannot raise an [Exception] is never repeated. *)
Lemma retrying_once {A} fn more wait (op : M A) st :
  (forall e st', op (logged (EvAttempt fn) st) = (Raises e, st') ->
                 is_Exception e = false) ->
  retrying fn more wait op st = op (logged (EvAttempt fn) st).
Proof.
  intros Hop. rewrite retrying_run.
  unfold mbind, M_bind, emit, try_except. fold (logged (EvAttempt fn) st).
  destruct (op (logged (EvAttempt fn) st)) as [[a|e] st1] eqn:Hrun;
    [reflexivity|].
  rewrite (Hop e st1 eq_refl). reflexivity.
Qed.

(** The head of the proxy branch: the only place that writes to the heap. *)
Lemma translate_proxy_type_steps P l c st :
  heap st !! l = Some c ->
  steps_to P (<[l := set_proxy_type (translated_type (proxy_type c)) c]> (heap st))
    st (snd (translate_proxy_type l st)).
Proof.
  intros Hl.
  assert (Hid : steps_to P
            (<[l := set_proxy_type (proxy_type c) c]> (heap st)) st st).
  { rewrite set_proxy_type_same, (insert_id _ _ _ Hl).
    apply steps_to_same, steps_refl. }
  assert (Hset : forall v,
    steps_to P (<[l := set_proxy_type v c]> (heap st)) st
      (snd (assign_proxy_type l v st))).
  { intros v. unfold assign_proxy_type, deref, mbind, M_bind, get_state, set_heap.
    rewrite Hl. simpl. split; [reflexivity|].
    exists []. rewrite app_nil_r. auto. }
  unfold translate_proxy_type. rewrite bind_run. unfold deref at 1.
  rewrite Hl. destruct (proxy_type c) as [s|code] eqn:Hty; simpl translated_type.
  - destruct (String.eqb (PyStr.upper s) "HTTP"); [apply Hset|].
    destruct (String.eqb (PyStr.upper s) "SOCKS5"); [apply Hset|].
    exact Hid.
  - destruct ((code =? socks.HTTP) || (code =? socks.SOCKS5)); exact Hid.
Qed.

Lemma respects_mailbox_login P user password :
  P (EvLogin user password) -> respects P (mailbox_login env user password).
Proof.
  intros HP. unfold mailbox_login. respects_step; [respects_step|].
  destruct (imap_login env user password); respects_step.
Qed.

Lemma respects_mailbox_folder_set P name :
  P (EvSelect name) -> respects P (mailbox_folder_set env name).
Proof.
  intros HP. unfold mailbox_folder_set. respects_step; [respects_step|].
  destruct (folder_set env name); respects_step.
Qed.

Lemma respects_MailBox_init P host :
  P (EvDirectConnect host) -> respects P (MailBox_init env host).
Proof.
  intros HP. unfold MailBox_init. respects_step; [respects_step|].
  destruct (direct_connect env host); respects_step.
Qed.

End ConnectFacts.

Section ConnectAndLogin.
Context (env : Env).

Lemma PROXY_TYPES_HTTP : PROXY_TYPES !! PyStr.lower "HTTP" = Some socks.HTTP.
Proof. vm_compute. reflexivity. Qed.

(** One run of the body: the heap becomes [heap_after_login], and every
    connection it opens is an HTTP CONNECT tunnel with a 10 second timeout. *)
Lemma connect_and_login_body_steps st :
  steps_to (tunnels_with socks.HTTP 10) (heap_after_login st) st
    (snd (connect_and_login_body env st)).
Proof.
  unfold connect_and_login_body. rewrite bind_run. unfold get_state at 1.
  unfold heap_after_login, provider_of.
  destruct (1 <? length (PyStr.split "@" (u (self st))))%nat eqn:Hat.
  2: { apply steps_to_same, steps_refl. }
  apply steps_to_try_except.
  - destruct (providers !! nth 1 (PyStr.split "@" (u (self st))) "")
      as [provider|] eqn:Hprov.
    + apply steps_to_bind.
      * destruct (proxy (self st)) as [l|].
        -- destruct (heap st !! l) as [c|] eqn:Hl.
           ++ apply steps_to_bind;
                [apply translate_proxy_type_steps; exact Hl | intros _].
              respects_step; [respects_step|].
              respects_step; [|apply respects_assign_mailbox].
              apply MailBoxProxy_init_tunnels, PROXY_TYPES_HTTP.
           ++ rewrite bind_run. unfold translate_proxy_type.
              rewrite bind_run. unfold deref at 1. rewrite Hl.
              apply steps_to_same, steps_refl.
        -- apply steps_to_same.
           apply respects_bind; [|intros ?; apply respects_assign_mailbox].
           apply respects_MailBox_init. exact I.
      * intros _. respects_step; [apply respects_mailbox_login; exact I|].
        apply respects_bind;
          [apply respects_mailbox_folder_set; exact I | intros ok].
        destruct ok.
        -- respects_step; [unfold logger_info; respects_step|].
           respects_step; [apply respects_assign_login_status|respects_step].
        -- respects_step; [unfold logger_error; respects_step|].
           respects_step; [apply respects_assign_login_status|respects_step].
    + apply steps_to_same.
      apply respects_bind; [unfold logger_error; respects_step | intros _].
      respects_step; [apply respects_assign_login_status|respects_step].
  - intros e k. destruct (is_MailboxLoginError e).
    + intros [= <-].
      respects_step; [unfold logger_error_exn; respects_step|].
      respects_step; [apply respects_assign_login_status|respects_step].
    + destruct (is_Exception e); [|discriminate]. intros [= <-].
      respects_step; [unfold logger_error_exn; respects_step|respects_step].
Qed.

(** Every [Exception] is caught inside the body, so the retry decorator of
    [connect_and_login] never sees one. *)
Lemma connect_and_login_body_catches st e st' :
  connect_and_login_body env st = (Raises e, st') -> is_Exception e = false.
Proof.
  unfold connect_and_login_body. rewrite bind_run. unfold get_state at 1.
  destruct (1 <? length (PyStr.split "@" (u (self st))))%nat;
    [|discriminate].
  unfold try_except.
  match goal with |- context [match ?b st with _ => _ end] =>
    destruct (b st) as [[a|e0] st1] end; [discriminate|].
  destruct (is_MailboxLoginError e0); [discriminate|].
  destruct (is_Exception e0) eqn:He0; [discriminate|].
  intros [= <- _]. exact He0.
Qed.

Lemma connect_and_login_once st :
  connect_and_login env st =
  connect_and_login_body env (logged (EvAttempt "connect_and_login") st).
Proof.
  unfold connect_and_login, retry. apply retrying_once.
  intros e st'. apply connect_and_login_body_catches.
Qed.

Lemma connect_and_login_steps st :
  steps_to (tunnels_with socks.HTTP 10) (heap_after_login st) st
    (snd (connect_and_login env st)).
Proof.
  rewrite connect_and_login_once.
  pose proof (connect_and_login_body_steps
                (logged (EvAttempt "connect_and_login") st))
    as [Hh [t [Ht HP]]].
  split; [exact Hh|].
  exists (EvAttempt "connect_and_login" :: t). split.
  - rewrite Ht. simpl. rewrite <- app_assoc. reflexivity.
  - constructor; [exact I | exact HP].
Qed.

End ConnectAndLogin.

(* ===================================================================== *)
(** ** The unauthenticated path of [scrap] *)
(* ===================================================================== *)

Lemma network_calls_app t1 t2 :
  network_calls (t1 ++ t2) = (network_calls t1 + network_calls t2)%nat.
Proof. unfold network_calls. rewrite List.filter_app, length_app. reflexivity. Qed.

Lemma connect_attempts_app t1 t2 :
  connect_attempts (t1 ++ t2) = (connect_attempts t1 + connect_attempts t2)%nat.
Proof. unfold connect_attempts. rewrite List.filter_app, length_app. reflexivity. Qed.

Lemma attempts_of_app fn t1 t2 :
  attempts_of fn (t1 ++ t2) = (attempts_of fn t1 + attempts_of fn t2)%nat.
Proof. unfold attempts_of. rewrite List.filter_app, length_app. reflexivity. Qed.

(** C10: on an instance whose [mailbox] is [None], [scrap] returns [None]
    without raising, whatever the arguments (also when [scrapsub], [sender]
    and [keyword] are all missing): the criteria check is not reached, nothing
    is retried and nothing goes over the network. *)
Theorem scrap_unauthenticated_returns_None
    env st scrapsub sender keyword seen time_diff specific_date :
  mailbox (self st) = None ->
  exists st',
    scrap env scrapsub sender keyword seen time_diff specific_date st
      = (Returns ResultNone, st')
    /\ trace st' = trace st ++
         [ EvAttempt "scrap";
           EvLog (LogError (String.append "Authentication Failed on " (u (self st)))) ]
    /\ clock st' = clock st
    /\ network_calls (trace st') = network_calls (trace st).
Proof.
  intros Hmb. eexists. split; [|split; [|split]].
  - unfold scrap, retry. apply retrying_returns.
    unfold scrap_body. rewrite bind_run. unfold set_soups at 1.
    rewrite bind_run. unfold get_state at 1. cbn [self logged].
    rewrite Hmb. reflexivity.
  - cbn. rewrite <- app_assoc. reflexivity.
  - reflexivity.
  - cbn [trace logged]. rewrite !network_calls_app. cbn. lia.
Qed.

Lemma scrap_unauthenticated_returns_None_witness :
  exists st',
    scrap Mock.reachable None None None None None None
      (Mock.constructed Mock.reachable "someone" "secret" None ∅)
      = (Returns ResultNone, st')
    /\ trace st' =
         trace (Mock.constructed Mock.reachable "someone" "secret" None ∅) ++
         [ EvAttempt "scrap";
           EvLog (LogError (String.append "Authentication Failed on "
                    (u (self (Mock.constructed Mock.reachable "someone" "secret" None ∅))))) ]
    /\ clock st' = clock (Mock.constructed Mock.reachable "someone" "secret" None ∅)
    /\ network_calls (trace st')
       = network_calls (trace (Mock.constructed Mock.reachable "someone" "secret" None ∅)).
Proof.
  apply (scrap_unauthenticated_returns_None Mock.reachable
           (Mock.constructed Mock.reachable "someone" "secret" None ∅)).
  reflexivity.
Defined.

(* ===================================================================== *)
(** ** Validation failures *)
(* ===================================================================== *)

(** One attempt of [scrap] on an authenticated client without criteria. *)
Lemma scrap_body_missing_criteria
    env st mb scrapsub sender keyword seen time_diff specific_date :
  mailbox (self st) = Some mb ->
  PyStr.truthy scrapsub = false ->
  PyStr.truthy sender = false ->
  PyStr.truthy keyword = false ->
  scrap_body env scrapsub sender keyword seen time_diff specific_date st
  = (Raises missing_criteria,
     {| heap := heap st; self := self st; soups := []; clock := clock st;
        trace := trace st |}).
Proof.
  intros Hmb H1 H2 H3. unfold scrap_body.
  rewrite bind_run. unfold set_soups at 1.
  rewrite bind_run. unfold get_state at 1. cbn [self].
  rewrite Hmb, H1, H2, H3. reflexivity.
Qed.

(** C4 (as the code has it): on an authenticated client, [scrap] without
    [scrapsub], [sender] and [keyword] performs no network call, but the
    [ValueError] is retried like any other exception: the check runs three
    times, with two waits of three seconds, and the caller receives a
    [RetryError] that wraps the [ValueError]. *)
Theorem scrap_missing_criteria_is_retried
    env st mb scrapsub sender keyword seen time_diff specific_date :
  mailbox (self st) = Some mb ->
  PyStr.truthy scrapsub = false ->
  PyStr.truthy sender = false ->
  PyStr.truthy keyword = false ->
  exists st',
    scrap env scrapsub sender keyword seen time_diff specific_date st
      = (Raises (RetryError missing_criteria), st')
    /\ trace st' = trace st ++
         [ EvAttempt "scrap"; EvSleep 3; EvAttempt "scrap"; EvSleep 3;
           EvAttempt "scrap" ]
    /\ clock st' = clock st + 6
    /\ network_calls (trace st') = network_calls (trace st).
Proof.
  intros Hmb H1 H2 H3. eexists. split; [|split; [|split]].
  - unfold scrap, retry. cbn [Nat.sub].
    erewrite retrying_again;
      [| apply (scrap_body_missing_criteria env _ mb); assumption | reflexivity].
    erewrite retrying_again;
      [| apply (scrap_body_missing_criteria env _ mb); assumption | reflexivity].
    eapply retrying_exhausted;
      [apply (scrap_body_missing_criteria env _ mb); assumption | reflexivity].
  - cbn [trace logged slept]. rewrite <- !app_assoc. reflexivity.
  - cbn [clock logged slept]. lia.
  - cbn [trace logged slept]. rewrite !network_calls_app. cbn. lia.
Qed.

Lemma scrap_missing_criteria_is_retried_witness :
  exists st',
    scrap Mock.session None None None None None None logged_in
      = (Raises (RetryError missing_criteria), st')
    /\ trace st' = trace logged_in ++
         [ EvAttempt "scrap"; EvSleep 3; EvAttempt "scrap"; EvSleep 3;
           EvAttempt "scrap" ]
    /\ clock st' = clock logged_in + 6
    /\ network_calls (trace st') = network_calls (trace logged_in).
Proof.
  apply (scrap_missing_criteria_is_retried Mock.session logged_in
           (MailBox "imap.gmail.com")); reflexivity.
Defined.

(** C4 as stated fails: on a logged-in client the criteria check of
    [scrap(None, None, None)] is attempted three times, not once, and six
    seconds are spent waiting between the attempts. *)
Lemma scrap_missing_criteria_not_checked_once :
  let st' := snd (scrap Mock.session None None None None None None logged_in) in
  attempts_of "scrap" (trace st') = 3%nat
  /\ sleeps (trace st') = 2%nat
  /\ clock st' = clock logged_in + 6
  /\ fst (scrap Mock.session None None None None None None logged_in)
     <> Raises missing_criteria.
Proof.
  vm_compute. repeat split; discriminate.
Qed.

(** C5 (as the code has it): for an address without ['@'],
    [connect_and_login] falls through: on every instance with that address it
    returns [None] after a single attempt and does nothing else.  The
    constructor therefore returns normally: no error is raised, [mailbox]
    stays [None], [login_status] stays [False], and no network call is
    made. *)
Theorem MailKit_init_without_at_returns env st user password proxy :
  PyStr.has_char "@" user = false ->
  (forall l, proxy = Some l -> is_Some (heap st !! l)) ->
  exists st',
    MailKit_init env user password proxy st = (Returns tt, st')
    /\ mailbox (self st') = None
    /\ login_status (self st') = false
    /\ network_calls (trace st') = network_calls (trace st)
    /\ attempts_of "connect_and_login" (trace st')
       = S (attempts_of "connect_and_login" (trace st))
    /\ clock st' = clock st
    /\ heap st' = heap st
    /\ (forall s, u (self s) = user ->
          connect_and_login env s
          = (Returns None, logged (EvAttempt "connect_and_login") s)).
Proof.
  intros Hat Hproxy.
  assert (Hbody : forall s, u (self s) = user ->
            connect_and_login env s
            = (Returns None, logged (EvAttempt "connect_and_login") s)).
  { intros s Hu. rewrite connect_and_login_once.
    unfold connect_and_login_body. rewrite bind_run. unfold get_state at 1.
    cbn [self logged]. rewrite Hu, (split_no_sep _ _ Hat). reflexivity. }
  unfold MailKit_init.
  destruct proxy as [l|].
  - destruct (Hproxy l eq_refl) as [c Hc].
    eexists. repeat apply conj.
    + unfold mbind, M_bind, mret, M_ret, logger_info, emit, set_self, deref.
      cbn [heap self soups clock trace]. rewrite Hc.
      cbn [heap self soups clock trace].
      rewrite Hbody; [reflexivity | reflexivity].
    + reflexivity.
    + reflexivity.
    + cbn [trace logged]. rewrite !network_calls_app. cbn. lia.
    + cbn [trace logged]. rewrite !attempts_of_app. cbn. lia.
    + reflexivity.
    + reflexivity.
    + exact Hbody.
  - eexists. repeat apply conj.
    + unfold mbind, M_bind, mret, M_ret, logger_info, emit, set_self.
      cbn [heap self soups clock trace].
      rewrite Hbody; [reflexivity | reflexivity].
    + reflexivity.
    + reflexivity.
    + cbn [trace logged]. rewrite !network_calls_app. cbn. lia.
    + cbn [trace logged]. rewrite !attempts_of_app. cbn. lia.
    + reflexivity.
    + reflexivity.
    + exact Hbody.
Qed.

Lemma MailKit_init_without_at_returns_witness :
  exists st',
    MailKit_init Mock.reachable "user.gmail.com" "secret" (Some 0%nat)
      (Mock.start {[ 0%nat := Mock.http_config ]}) = (Returns tt, st')
    /\ mailbox (self st') = None
    /\ login_status (self st') = false
    /\ network_calls (trace st')
       = network_calls (trace (Mock.start {[ 0%nat := Mock.http_config ]}))
    /\ attempts_of "connect_and_login" (trace st')
       = S (attempts_of "connect_and_login"
              (trace (Mock.start {[ 0%nat := Mock.http_config ]})))
    /\ clock st' = clock (Mock.start {[ 0%nat := Mock.http_config ]})
    /\ heap st' = heap (Mock.start {[ 0%nat := Mock.http_config ]})
    /\ (forall s, u (self s) = "user.gmail.com" ->
          connect_and_login Mock.reachable s
          = (Returns None, logged (EvAttempt "connect_and_login") s)).
Proof.
  apply (MailKit_init_without_at_returns Mock.reachable
           (Mock.start {[ 0%nat := Mock.http_config ]})
           "user.gmail.com" "secret" (Some 0%nat)).
  - reflexivity.
  - intros l [= <-]. exists Mock.http_config. reflexivity.
Defined.

(** C5 as stated fails: building a [MailKit] for the address
    ["user.gmail.com"], which has no ['@'], raises nothing; the
    [connect_and_login] of the new instance returns [None]. *)
Lemma MailKit_init_without_at_does_not_fail :
  PyStr.has_char "@" "user.gmail.com" = false
  /\ fst (MailKit_init Mock.reachable "user.gmail.com" "secret" None
            (Mock.start ∅)) = Returns tt
  /\ fst (connect_and_login Mock.reachable
            (Mock.constructed Mock.reachable "user.gmail.com" "secret" None ∅))
     = Returns None.
Proof. repeat split; reflexivity. Qed.

(* ===================================================================== *)
(** ** The tunnel that [connect_and_login] negotiates *)
(* ===================================================================== *)

Lemma tunnels_with_proxy_type code secs e :
  tunnels_with code secs e -> uses_proxy_type code e.
Proof. destruct e; simpl; tauto. Qed.

Lemma tunnels_with_timeout code secs e :
  tunnels_with code secs e -> uses_timeout secs e.
Proof. destruct e; simpl; tauto. Qed.

(** C1 (the code departs from it): [connect_and_login] hands the literal
    ['HTTP'] to [MailBoxProxy], so every connection it opens, for every
    [ProxyConfig] and every environment, is negotiated as an HTTP CONNECT
    tunnel; with [proxy_type='SOCKS5'] the one connection made still carries
    [socks.HTTP] and not [socks.SOCKS5]. *)
Theorem connect_and_login_always_tunnels_http :
  (forall env st,
     exists t, trace (snd (connect_and_login env st)) = trace st ++ t
               /\ Forall (uses_proxy_type socks.HTTP) t)
  /\ proxy_type Mock.socks5_config = PTStr "SOCKS5"
  /\ map cc_proxy_type
       (connections
          (trace (Mock.constructed Mock.reachable "user@gmail.com" "secret"
                    (Some 0%nat) {[ 0%nat := Mock.socks5_config ]})))
     = [socks.HTTP]
  /\ socks.HTTP <> socks.SOCKS5.
Proof.
  split; [|split; [reflexivity | split; [vm_compute; reflexivity | discriminate]]].
  intros env st.
  destruct (connect_and_login_steps env st) as [_ [t [Ht HP]]].
  exists t. split; [exact Ht|].
  eapply Forall_impl; [exact HP|]. intros e. apply tunnels_with_proxy_type.
Qed.

(** C6 (the code departs from it): [SocksIMAP4._create_socket] ignores its
    [timeout] argument and passes the literal [timeout=10], so every
    connection opened by [connect_and_login] uses 10 seconds; a [ProxyConfig]
    with [timeout=30] is connected with a timeout of 10. *)
Theorem connect_timeout_is_always_10 :
  (forall env st,
     exists t, trace (snd (connect_and_login env st)) = trace st ++ t
               /\ Forall (uses_timeout 10) t)
  /\ timeout Mock.socks5_config = Some 30
  /\ map cc_timeout
       (connections
          (trace (Mock.constructed Mock.reachable "user@gmail.com" "secret"
                    (Some 0%nat) {[ 0%nat := Mock.socks5_config ]})))
     = [10].
Proof.
  split; [|split; [reflexivity | vm_compute; reflexivity]].
  intros env st.
  destruct (connect_and_login_steps env st) as [_ [t [Ht HP]]].
  exists t. split; [exact Ht|].
  eapply Forall_impl; [exact HP|]. intros e. apply tunnels_with_timeout.
Qed.

(* ===================================================================== *)
(** ** What [scrap] may touch *)
(* ===================================================================== *)

Section ScrapFrame.
Context (env : Env).

Lemma respects_iterate P folder mark_seen msgs final body :
  (forall m, P (EvFetchMsg folder (uid m) mark_seen)) ->
  (forall m, respects P (body m)) ->
  respects P (iterate folder mark_seen msgs final body).
Proof.
  intros HP Hbody. induction msgs as [|m ms IH]; simpl.
  - destruct final; respects_step.
  - apply respects_bind; [apply respects_emit, HP | intros _].
    apply respects_bind; [apply Hbody | intros _; exact IH].
Qed.

Lemma respects_scan_message P time_diff specific_date keyword msg :
  respects P (scan_message time_diff specific_date keyword msg).
Proof.
  unfold scan_message. apply respects_bind; [respects_step | intros st0].
  apply respects_bind.
  - destruct time_diff as [d|]; [|respects_step].
    destruct (d =? 0); [respects_step|].
    apply respects_bind; [|intros age; respects_step].
    unfold now_minus. apply respects_bind; [respects_step | intros st1].
    destruct (tzinfo (date msg)); respects_step.
  - intros old. destruct old; [respects_step|].
    destruct (other_day _ _); [respects_step|].
    destruct (lacks_keyword _ _); respects_step.
Qed.

Lemma respects_scan_folder criteria time_diff specific_date keyword i :
  respects marks_seen
    (scan_folder env criteria time_diff specific_date keyword i).
Proof.
  unfold scan_folder. apply respects_try_except.
  - apply respects_bind;
      [apply respects_mailbox_folder_set; exact I | intros _].
    apply respects_bind.
    { unfold AND. destruct (_ || _); respects_step. }
    intros q. unfold for_each_fetched.
    apply respects_bind; [apply respects_emit; reflexivity | intros _].
    apply respects_iterate; [reflexivity|].
    intros m. apply respects_scan_message.
  - intros e k [= <-]. respects_step.
Qed.

Lemma respects_scrap_body scrapsub sender keyword seen time_diff specific_date :
  respects marks_seen
    (scrap_body env scrapsub sender keyword seen time_diff specific_date).
Proof.
  unfold scrap_body.
  apply respects_bind; [respects_step | intros _].
  apply respects_bind; [respects_step | intros st0].
  destruct (mailbox (self st0)).
  - destruct (negb _); [respects_step|].
    apply respects_bind.
    + apply respects_try_except.
      * apply respects_bind; [|intros _; respects_step].
        apply respects_for_each. intros i. apply respects_scan_folder.
      * intros e k. destruct (is_Exception e); [|discriminate].
        intros [= <-].
        apply respects_bind; [|intros _; respects_step].
        unfold logger_error_exn. respects_step.
    + intros [r|]; [respects_step|].
      apply respects_bind; [unfold logger_info; respects_step | intros _].
      apply respects_bind; [respects_step | intros st1]. respects_step.
  - apply respects_bind; [unfold logger_error; respects_step | intros _].
    respects_step.
Qed.

(** [scrap] leaves every [ProxyConfig] alone, and all its searches and
    fetches ask for the seen flag to be set. *)
Lemma scrap_steps scrapsub sender keyword seen time_diff specific_date st :
  steps marks_seen st
    (snd (scrap env scrapsub sender keyword seen time_diff specific_date st)).
Proof.
  apply (respects_retry marks_seen "scrap" 3 3); [exact I | exact I|].
  apply respects_scrap_body.
Qed.

End ScrapFrame.

(* ===================================================================== *)
(** ** The caller's [ProxyConfig] *)
(* ===================================================================== *)

(** C2 (as the code has it): [connect_and_login] writes to the [proxy_type]
    of the [ProxyConfig] that the caller passed in.  When the address
    resolves to a provider, a string that upper-cases to ['HTTP'] or
    ['SOCKS5'] is replaced by the PySocks integer [socks.HTTP] or
    [socks.SOCKS5], and any other value is left as it is; when the address
    does not resolve, nothing is written.  No other field and no other
    [ProxyConfig] changes, and [scrap] changes none at all. *)
Theorem proxy_type_after_operations env st l c :
  proxy (self st) = Some l ->
  heap st !! l = Some c ->
  heap (snd (connect_and_login env st)) !! l
    = Some (match provider_of (u (self st)) with
            | Some _ => set_proxy_type (translated_type (proxy_type c)) c
            | None => c
            end)
  /\ (forall l', l' <> l ->
        heap (snd (connect_and_login env st)) !! l' = heap st !! l')
  /\ (forall scrapsub sender keyword seen time_diff specific_date,
        heap (snd (scrap env scrapsub sender keyword seen time_diff
                     specific_date st)) = heap st).
Proof.
  intros Hproxy Hl.
  destruct (connect_and_login_steps env st) as [Hheap _].
  unfold heap_after_login in Hheap. rewrite Hproxy, Hl in Hheap.
  split; [|split].
  - rewrite Hheap. destruct (provider_of (u (self st))).
    + apply lookup_insert_eq.
    + exact Hl.
  - intros l' Hne. rewrite Hheap. destruct (provider_of (u (self st))).
    + apply lookup_insert_ne. congruence.
    + reflexivity.
  - intros. apply scrap_steps.
Qed.

Lemma proxy_type_after_operations_witness :
  heap (snd (connect_and_login Mock.reachable Mock.socks5_client)) !! 0%nat
    = Some (match provider_of (u (self Mock.socks5_client)) with
            | Some _ =>
                set_proxy_type
                  (translated_type (proxy_type Mock.socks5_config))
                  Mock.socks5_config
            | None => Mock.socks5_config
            end)
  /\ (forall l', l' <> 0%nat ->
        heap (snd (connect_and_login Mock.reachable Mock.socks5_client)) !! l'
        = heap Mock.socks5_client !! l')
  /\ (forall scrapsub sender keyword seen time_diff specific_date,
        heap (snd (scrap Mock.reachable scrapsub sender keyword seen time_diff
                     specific_date Mock.socks5_client))
        = heap Mock.socks5_client).
Proof.
  apply (proxy_type_after_operations Mock.reachable Mock.socks5_client
           0%nat Mock.socks5_config); reflexivity.
Defined.

(** C2 as stated fails: a validated [ProxyConfig] built with
    [proxy_type='HTTP'] no longer holds that string once the [MailKit] that
    received it has been constructed; it holds the integer [socks.HTTP]. *)
Lemma proxy_type_is_overwritten :
  ProxyConfig_validates Mock.http_config = true
  /\ proxy_type Mock.http_config = PTStr "HTTP"
  /\ proxy_type <$>
       (heap (Mock.constructed Mock.reachable "user@gmail.com" "secret"
                (Some 0%nat) {[ 0%nat := Mock.http_config ]}) !! 0%nat)
     = Some (PTInt socks.HTTP)
  /\ PTInt socks.HTTP <> PTStr "HTTP".
Proof.
  split; [reflexivity | split; [reflexivity | split]].
  - vm_compute. reflexivity.
  - discriminate.
Qed.

(* ===================================================================== *)
(** ** Stacked retries *)
(* ===================================================================== *)

Lemma connect_attempts_logged e st :
  is_connect e = false ->
  connect_attempts (trace (logged e st)) = connect_attempts (trace st).
Proof.
  intros He. cbn [trace logged]. rewrite connect_attempts_app.
  unfold connect_attempts at 2. simpl. rewrite He. simpl. lia.
Qed.

Lemma connect_attempts_slept w st :
  connect_attempts (trace (slept w st)) = connect_attempts (trace st).
Proof.
  cbn [trace slept]. rewrite connect_attempts_app. cbn. lia.
Qed.

Section Retries.
Context (env : Env).

Lemma socks_create_connection_run c st :
  socks_create_connection env c st =
  (match create_connection env (connect_attempts (trace st)) c with
   | None => Returns (ProxiedSocket c)
   | Some e => Raises e
   end, logged (EvCreateConnection c) st).
Proof.
  unfold socks_create_connection. rewrite bind_run. unfold get_state at 1.
  rewrite bind_run. unfold emit at 1. fold (logged (EvCreateConnection c) st).
  destruct (create_connection env _ c); reflexivity.
Qed.

Lemma ssl_wrap_socket_run sock h st :
  ssl_wrap_socket env sock h st =
  (match wrap_socket env (connect_attempts (trace st) - 1) h with
   | None => Returns (TlsSocket sock h)
   | Some e => Raises e
   end, logged (EvWrapSocket h) st).
Proof.
  unfold ssl_wrap_socket. rewrite bind_run. unfold get_state at 1.
  rewrite bind_run. unfold emit at 1. fold (logged (EvWrapSocket h) st).
  destruct (wrap_socket env _ h); reflexivity.
Qed.

Lemma fails_bind {A B} k w f (m : M A) (g : A -> M B) :
  fails_adding k w f m -> fails_adding k w f (m ≫= g).
Proof.
  intros Hm st. destruct (Hm st) as [st' [Hrun Hrest]].
  exists st'. split; [|exact Hrest]. apply bind_raises, Hrun.
Qed.

(** Three failing attempts: three times the connections, three times the
    waiting plus two sleeps, and one more [RetryError] around the error of
    the last attempt. *)
Lemma fails_retry {A} fn k w f (op : M A) :
  (forall n, is_Exception (f n) = true) ->
  fails_adding k w f op ->
  fails_adding (3 * k) (3 * w + 6)
    (fun n => RetryError (f (n + 2 * k)%nat)) (retry fn 3 3 op).
Proof.
  intros Hexn Hop st.
  destruct (Hop (logged (EvAttempt fn) st)) as [st1 [H1 [N1 C1]]].
  destruct (Hop (logged (EvAttempt fn) (slept 3 st1))) as [st2 [H2 [N2 C2]]].
  destruct (Hop (logged (EvAttempt fn) (slept 3 st2))) as [st3 [H3 [N3 C3]]].
  assert (E1 : connect_attempts (trace (logged (EvAttempt fn) st))
               = connect_attempts (trace st))
    by (apply connect_attempts_logged; reflexivity).
  assert (E2 : forall s, connect_attempts
                           (trace (logged (EvAttempt fn) (slept 3 s)))
                         = connect_attempts (trace s)).
  { intros s. rewrite connect_attempts_logged by reflexivity.
    apply connect_attempts_slept. }
  rewrite E1 in H1, N1. rewrite E2 in H2, N2, H3, N3.
  exists st3. split; [|split].
  - unfold retry. cbn [Nat.sub].
    rewrite (retrying_again _ _ _ _ _ _ _ H1 (Hexn _)).
    rewrite (retrying_again _ _ _ _ _ _ _ H2 (Hexn _)).
    rewrite (retrying_exhausted _ _ _ _ _ _ H3 (Hexn _)).
    replace (connect_attempts (trace st) + 2 * k)%nat
      with (connect_attempts (trace st2)) by lia.
    reflexivity.
  - lia.
  - cbn [clock logged slept] in *. lia.
Qed.

Section ProxyDown.
Context (err : nat -> exn).
Hypothesis refused : forall n c, create_connection env n c = Some (err n).
Hypothesis err_Exception : forall n, is_Exception (err n) = true.

Lemma socks_create_connection_fails c :
  fails_adding 1 0 err (socks_create_connection env c).
Proof.
  intros st. exists (logged (EvCreateConnection c) st).
  rewrite socks_create_connection_run, refused. split; [reflexivity|].
  split; [|cbn; lia].
  cbn [trace logged]. rewrite connect_attempts_app. cbn. lia.
Qed.

Lemma SocksIMAP4_create_socket_fails self timeout :
  fails_adding 3 6 (fun n => wrapped 1 (err (n + 2)%nat))
    (SocksIMAP4_create_socket env self timeout).
Proof.
  apply (fails_retry _ 1 0 err); [exact err_Exception|].
  apply socks_create_connection_fails.
Qed.

Lemma SocksIMAP4SSL_create_socket_fails self timeout :
  fails_adding 9 24 (fun n => wrapped 2 (err (n + 8)%nat))
    (SocksIMAP4SSL_create_socket env self timeout).
Proof.
  intros st.
  destruct (fails_retry "SocksIMAP4SSL._create_socket" 3 6
              (fun n => wrapped 1 (err (n + 2)%nat))
              (sock ← SocksIMAP4_create_socket env self timeout;
               ssl_wrap_socket env sock
                 (if HAS_SNI env then Some (s_host self) else None))
              (fun n => eq_refl)
              (fails_bind _ _ _ _ _
                 (SocksIMAP4_create_socket_fails self timeout)) st)
    as [st' [Hrun Hrest]].
  exists st'. split; [|exact Hrest].
  unfold SocksIMAP4SSL_create_socket. rewrite Hrun. cbn beta.
  replace (connect_attempts (trace st) + 2 * 3 + 2)%nat
    with (connect_attempts (trace st) + 8)%nat by lia.
  reflexivity.
Qed.

Lemma SocksIMAP4SSL_open_fails self host port timeout :
  fails_adding 27 78 (fun n => wrapped 3 (err (n + 26)%nat))
    (SocksIMAP4SSL_open env self host port timeout).
Proof.
  intros st.
  destruct (fails_retry "SocksIMAP4SSL.open" 9 24
              (fun n => wrapped 2 (err (n + 8)%nat))
              (IMAP4_open env self host port timeout)
              (fun n => eq_refl)
              (fails_bind _ _ _ _ _
                 (SocksIMAP4SSL_create_socket_fails _ timeout)) st)
    as [st' [Hrun Hrest]].
  exists st'. split; [|exact Hrest].
  unfold SocksIMAP4SSL_open. rewrite Hrun. cbn beta.
  replace (connect_attempts (trace st) + 2 * 9 + 8)%nat
    with (connect_attempts (trace st) + 26)%nat by lia.
  reflexivity.
Qed.

Lemma MailBoxProxy_get_mailbox_client_fails self code :
  _ssl_context self = None ->
  PROXY_TYPES !! PyStr.lower (_p_proxy_type self) = Some code ->
  fails_adding 81 240 (fun n => wrapped 4 (err (n + 80)%nat))
    (MailBoxProxy_get_mailbox_client env self).
Proof.
  intros Hctx Hcode st.
  destruct (fails_retry "MailBoxProxy._get_mailbox_client" 27 78
              (fun n => wrapped 3 (err (n + 26)%nat))
              (SocksIMAP4SSL_init env (_host self) (_port self)
                 (_keyfile self) (_certfile self) (_ssl_context self)
                 (_p_proxy_addr self) (_p_proxy_port self)
                 (_p_proxy_rdns self) (_p_proxy_username self)
                 (_p_proxy_password self) (_p_proxy_type self)
                 (_p_timeout self))
              (fun n => eq_refl)) with (st := st)
    as [st' [Hrun Hrest]].
  { unfold SocksIMAP4SSL_init, SocksIMAP4_init. rewrite Hctx, Hcode.
    cbn [is_some andb]. unfold IMAP4_init.
    apply fails_bind, SocksIMAP4SSL_open_fails. }
  exists st'. split; [|exact Hrest].
  unfold MailBoxProxy_get_mailbox_client. rewrite Hrun. cbn beta.
  replace (connect_attempts (trace st) + 2 * 27 + 26)%nat
    with (connect_attempts (trace st) + 80)%nat by lia.
  reflexivity.
Qed.

End ProxyDown.

End Retries.

Lemma connect_attempts_connected c st :
  connect_attempts (trace (logged (EvCreateConnection c) st))
  = S (connect_attempts (trace st)).
Proof. cbn [trace logged]. rewrite connect_attempts_app. cbn. lia. Qed.

Ltac count_connects :=
  repeat first
    [ rewrite connect_attempts_connected
    | rewrite connect_attempts_slept
    | rewrite connect_attempts_logged by reflexivity ].

Section ThirdTimeLucky.
Context (env : Env) (n : nat) (e1 e2 : exn).
Hypothesis first_fails : forall c, create_connection env n c = Some e1.
Hypothesis second_fails : forall c, create_connection env (S n) c = Some e2.
Hypothesis third_connects : forall c, create_connection env (S (S n)) c = None.
Hypothesis e1_Exception : is_Exception e1 = true.
Hypothesis e2_Exception : is_Exception e2 = true.
Hypothesis handshake : forall h, wrap_socket env (S (S n)) h = None.
Hypothesis greeting : forall host, imap_greeting env host = None.

Lemma SocksIMAP4_create_socket_third_time self timeout st :
  connect_attempts (trace st) = n ->
  exists st',
    SocksIMAP4_create_socket env self timeout st
      = (Returns (ProxiedSocket (call_of self)), st')
    /\ connect_attempts (trace st') = (n + 3)%nat
    /\ clock st' = clock st + 6.
Proof.
  intros Hn. unfold SocksIMAP4_create_socket, retry. cbn [Nat.sub].
  fold (call_of self).
  eexists. split; [|split].
  - erewrite retrying_again; [| |exact e1_Exception].
    2: { rewrite socks_create_connection_run. count_connects.
         rewrite Hn, first_fails. reflexivity. }
    erewrite retrying_again; [| |exact e2_Exception].
    2: { rewrite socks_create_connection_run. count_connects.
         rewrite Hn, second_fails. reflexivity. }
    apply retrying_returns.
    rewrite socks_create_connection_run. count_connects.
    rewrite Hn, third_connects. reflexivity.
  - count_connects. lia.
  - cbn [clock logged slept]. lia.
Qed.

Lemma SocksIMAP4SSL_create_socket_third_time self timeout st :
  connect_attempts (trace st) = n ->
  exists st',
    SocksIMAP4SSL_create_socket env self timeout st
      = (Returns (TlsSocket (ProxiedSocket (call_of self))
                    (if HAS_SNI env then Some (s_host self) else None)), st')
    /\ connect_attempts (trace st') = (n + 3)%nat
    /\ clock st' = clock st + 6.
Proof.
  intros Hn.
  destruct (SocksIMAP4_create_socket_third_time self timeout
              (logged (EvAttempt "SocksIMAP4SSL._create_socket") st))
    as [st1 [Hrun [N1 C1]]].
  { count_connects. exact Hn. }
  eexists. split; [|split].
  - unfold SocksIMAP4SSL_create_socket, retry. apply retrying_returns.
    rewrite (bind_returns _ _ _ _ _ Hrun), ssl_wrap_socket_run, N1.
    replace (n + 3 - 1)%nat with (S (S n)) by lia.
    rewrite handshake. reflexivity.
  - count_connects. exact N1.
  - cbn [clock logged] in *. lia.
Qed.

Lemma IMAP4_init_third_time self host port timeout st :
  connect_attempts (trace st) = n ->
  exists sock st',
    IMAP4_init env self host port timeout st
      = (Returns (opened self host port sock), st')
    /\ connect_attempts (trace st') = (n + 3)%nat
    /\ clock st' = clock st + 6.
Proof.
  intros Hn.
  destruct (SocksIMAP4SSL_create_socket_third_time
              {| s_host := host; s_port := port; s_sock := s_sock self;
                 s_proxy_addr := s_proxy_addr self;
                 s_proxy_port := s_proxy_port self; s_rdns := s_rdns self;
                 s_username := s_username self;
                 s_password := s_password self;
                 s_proxy_type := s_proxy_type self |}
              timeout (logged (EvAttempt "SocksIMAP4SSL.open") st))
    as [st1 [Hrun [N1 C1]]].
  { count_connects. exact Hn. }
  eexists. eexists. split; [|split].
  - unfold IMAP4_init. erewrite bind_returns.
    2: { unfold SocksIMAP4SSL_open, retry. apply retrying_returns.
         unfold IMAP4_open. rewrite (bind_returns _ _ _ _ _ Hrun).
         reflexivity. }
    rewrite bind_run. unfold emit at 1. rewrite greeting. reflexivity.
  - cbn [trace]. rewrite connect_attempts_app, N1. cbn. lia.
  - cbn [clock logged] in *. lia.
Qed.

Lemma MailBoxProxy_init_third_time host p_proxy_type p_proxy_addr
    p_proxy_port p_proxy_username p_proxy_password p_timeout code st :
  PROXY_TYPES !! PyStr.lower p_proxy_type = Some code ->
  connect_attempts (trace st) = n ->
  exists mb client st',
    MailBoxProxy_init env host p_proxy_type p_proxy_addr p_proxy_port
      p_proxy_username p_proxy_password p_timeout st
      = (Returns (ProxiedMailBox mb client), st')
    /\ is_some (s_sock client) = true
    /\ connect_attempts (trace st') = (n + 3)%nat
    /\ clock st' = clock st + 6.
Proof.
  intros Hcode Hn.
  destruct (IMAP4_init_third_time
              {| s_host := ""; s_port := 0; s_sock := None;
                 s_proxy_addr := p_proxy_addr; s_proxy_port := p_proxy_port;
                 s_rdns := true; s_username := p_proxy_username;
                 s_password := p_proxy_password; s_proxy_type := code |}
              host 993 p_timeout
              (logged (EvAttempt "MailBoxProxy._get_mailbox_client") st))
    as [sock [st1 [Hrun [N1 C1]]]].
  { count_connects. exact Hn. }
  eexists. eexists. eexists. split; [|split; [|split]].
  - unfold MailBoxProxy_init. erewrite bind_returns; [reflexivity|].
    unfold MailBoxProxy_get_mailbox_client, retry. apply retrying_returns.
    unfold SocksIMAP4SSL_init, SocksIMAP4_init.
    cbn [is_some andb _ssl_context _keyfile _certfile _p_proxy_type _host
         _port _p_proxy_addr _p_proxy_port _p_proxy_rdns _p_proxy_username
         _p_proxy_password _p_timeout].
    rewrite Hcode. exact Hrun.
  - reflexivity.
  - exact N1.
  - cbn [clock logged] in *. lia.
Qed.

End ThirdTimeLucky.

(** C3 (as the code has it): every layer of the proxy stack carries its own
    [@retry(stop_after_attempt(3), wait_fixed(3))] and repeats its whole unit.
    On a proxy that refuses every connection, [SocksIMAP4._create_socket]
    makes exactly 3 connection attempts and raises a [RetryError] around the
    last error; [SocksIMAP4SSL._create_socket] therefore makes 9, and building
    a [MailBoxProxy] (through [SocksIMAP4SSL.open] and [_get_mailbox_client])
    makes 81 attempts and sleeps 240 seconds before a four times wrapped
    [RetryError] comes out.  On a proxy that refuses twice and then accepts,
    exactly 3 attempts are made and the client is connected. *)
Theorem stacked_retries_on_proxy_failure
    (down flaky : Env) (err : nat -> exn) (e1 e2 : exn)
    (self : SocksIMAP4) (timeout : option Z)
    (host p_proxy_type : string) (p_proxy_addr : option string)
    (p_proxy_port : option Z) (p_proxy_username p_proxy_password : option string)
    (p_timeout : option Z) (code : Z) (st : State) :
  (forall n c, create_connection down n c = Some (err n)) ->
  (forall n, is_Exception (err n) = true) ->
  (forall c, create_connection flaky (connect_attempts (trace st)) c = Some e1) ->
  (forall c, create_connection flaky (S (connect_attempts (trace st))) c = Some e2) ->
  (forall c, create_connection flaky (S (S (connect_attempts (trace st)))) c = None) ->
  is_Exception e1 = true ->
  is_Exception e2 = true ->
  (forall h, wrap_socket flaky (S (S (connect_attempts (trace st)))) h = None) ->
  (forall h, imap_greeting flaky h = None) ->
  PROXY_TYPES !! PyStr.lower p_proxy_type = Some code ->
  (exists st',
     SocksIMAP4_create_socket down self timeout st
       = (Raises (RetryError (err (connect_attempts (trace st) + 2)%nat)), st')
     /\ connect_attempts (trace st') = (connect_attempts (trace st) + 3)%nat
     /\ clock st' = clock st + 6)
  /\ (exists st',
        SocksIMAP4SSL_create_socket down self timeout st
          = (Raises (wrapped 2 (err (connect_attempts (trace st) + 8)%nat)), st')
        /\ connect_attempts (trace st') = (connect_attempts (trace st) + 9)%nat
        /\ clock st' = clock st + 24)
  /\ (exists st',
        MailBoxProxy_init down host p_proxy_type p_proxy_addr p_proxy_port
          p_proxy_username p_proxy_password p_timeout st
          = (Raises (wrapped 4 (err (connect_attempts (trace st) + 80)%nat)), st')
        /\ connect_attempts (trace st') = (connect_attempts (trace st) + 81)%nat
        /\ clock st' = clock st + 240)
  /\ (exists mb client st',
        MailBoxProxy_init flaky host p_proxy_type p_proxy_addr p_proxy_port
          p_proxy_username p_proxy_password p_timeout st
          = (Returns (ProxiedMailBox mb client), st')
        /\ is_some (s_sock client) = true
        /\ connect_attempts (trace st') = (connect_attempts (trace st) + 3)%nat
        /\ clock st' = clock st + 6).
Proof.
  intros Hdown Herr H1 H2 H3 He1 He2 Hwrap Hgreet Hcode.
  split; [|split; [|split]].
  - apply (SocksIMAP4_create_socket_fails down err Hdown Herr self timeout st).
  - apply (SocksIMAP4SSL_create_socket_fails down err Hdown Herr self timeout st).
  - unfold MailBoxProxy_init.
    apply (fails_bind 81 240
             (fun n => wrapped 4 (err (n + 80)%nat))).
    apply (MailBoxProxy_get_mailbox_client_fails down err Hdown Herr _ code);
      [reflexivity | exact Hcode].
  - apply (MailBoxProxy_init_third_time flaky (connect_attempts (trace st))
             e1 e2 H1 H2 H3 He1 He2 Hwrap Hgreet host p_proxy_type p_proxy_addr
             p_proxy_port p_proxy_username p_proxy_password p_timeout code st
             Hcode eq_refl).
Qed.

Lemma stacked_retries_on_proxy_failure_witness :
  (exists st',
     SocksIMAP4_create_socket Mock.proxy_down Mock.client (Some 10) (Mock.start ∅)
       = (Raises (RetryError
                    (Mock.refused (connect_attempts (trace (Mock.start ∅)) + 2)%nat)),
          st')
     /\ connect_attempts (trace st')
        = (connect_attempts (trace (Mock.start ∅)) + 3)%nat
     /\ clock st' = clock (Mock.start ∅) + 6)
  /\ (exists st',
        SocksIMAP4SSL_create_socket Mock.proxy_down Mock.client (Some 10)
          (Mock.start ∅)
          = (Raises (wrapped 2
                       (Mock.refused (connect_attempts (trace (Mock.start ∅)) + 8)%nat)),
             st')
        /\ connect_attempts (trace st')
           = (connect_attempts (trace (Mock.start ∅)) + 9)%nat
        /\ clock st' = clock (Mock.start ∅) + 24)
  /\ (exists st',
        MailBoxProxy_init Mock.proxy_down "imap.gmail.com" "HTTP"
          (Some "10.0.0.1") (Some 8080) (Some "username") (Some "password")
          (Some 10) (Mock.start ∅)
          = (Raises (wrapped 4
                       (Mock.refused (connect_attempts (trace (Mock.start ∅)) + 80)%nat)),
             st')
        /\ connect_attempts (trace st')
           = (connect_attempts (trace (Mock.start ∅)) + 81)%nat
        /\ clock st' = clock (Mock.start ∅) + 240)
  /\ (exists mb client st',
        MailBoxProxy_init Mock.proxy_flaky "imap.gmail.com" "HTTP"
          (Some "10.0.0.1") (Some 8080) (Some "username") (Some "password")
          (Some 10) (Mock.start ∅)
          = (Returns (ProxiedMailBox mb client), st')
        /\ is_some (s_sock client) = true
        /\ connect_attempts (trace st')
           = (connect_attempts (trace (Mock.start ∅)) + 3)%nat
        /\ clock st' = clock (Mock.start ∅) + 6).
Proof.
  apply (stacked_retries_on_proxy_failure Mock.proxy_down Mock.proxy_flaky
           Mock.refused Mock.timed_out Mock.timed_out Mock.client (Some 10)
           "imap.gmail.com" "HTTP" (Some "10.0.0.1") (Some 8080)
           (Some "username") (Some "password") (Some 10) socks.HTTP
           (Mock.start ∅)).
  - intros n c. reflexivity.
  - intros n. reflexivity.
  - intros c. reflexivity.
  - intros c. reflexivity.
  - intros c. reflexivity.
  - reflexivity.
  - reflexivity.
  - intros h. reflexivity.
  - intros h. reflexivity.
  - vm_compute. reflexivity.
Defined.

(** C3 as stated fails: against a proxy that refuses every connection,
    building the [MailBoxProxy] makes 81 connection attempts, not 3, and what
    is raised is not the last connection error but a [RetryError] nested four
    deep; [SocksIMAP4SSL._create_socket] alone makes 9 attempts; and
    [MailKit(...)] itself returns normally after the 81 attempts. *)
Lemma proxy_failure_is_not_three_attempts :
  connect_attempts
    (trace (snd (MailBoxProxy_init Mock.proxy_down "imap.gmail.com" "HTTP"
                   (Some "10.0.0.1") (Some 8080) (Some "username")
                   (Some "password") (Some 10) (Mock.start ∅)))) = 81%nat
  /\ fst (MailBoxProxy_init Mock.proxy_down "imap.gmail.com" "HTTP"
            (Some "10.0.0.1") (Some 8080) (Some "username")
            (Some "password") (Some 10) (Mock.start ∅))
     = (Raises (wrapped 4 (ProxyError "Connection refused"))
          : outcome MailBoxObj)
  /\ wrapped 4 (ProxyError "Connection refused")
     <> ProxyError "Connection refused"
  /\ connect_attempts
       (trace (snd (SocksIMAP4SSL_create_socket Mock.proxy_down Mock.client
                      (Some 10) (Mock.start ∅)))) = 9%nat
  /\ fst (MailKit_init Mock.proxy_down "user@gmail.com" "secret" (Some 0%nat)
            (Mock.start {[ 0%nat := Mock.http_config ]})) = Returns tt
  /\ connect_attempts
       (trace (Mock.constructed Mock.proxy_down "user@gmail.com" "secret"
                 (Some 0%nat) {[ 0%nat := Mock.http_config ]})) = 81%nat.
Proof.
  repeat apply conj; try (vm_compute; reflexivity). discriminate.
Qed.

(* ===================================================================== *)
(** ** The folder scan of [scrap] *)
(* ===================================================================== *)

Lemma advanced_nil st : advanced [] [] st = st.
Proof. destruct st. unfold advanced. simpl. rewrite !app_nil_r. reflexivity. Qed.

Lemma advanced_advanced s1 e1 s2 e2 st :
  advanced s2 e2 (advanced s1 e1 st) = advanced (s1 ++ s2) (e1 ++ e2) st.
Proof. unfold advanced. simpl. rewrite !app_assoc. reflexivity. Qed.

Lemma logged_advanced e st : logged e st = advanced [] [e] st.
Proof. unfold logged, advanced. rewrite app_nil_r. reflexivity. Qed.

Section FolderScan.
Context (env : Env).
Context (time_diff specific_date : option Z) (keyword : option string).

(** One message: the time-window test raises at it, or the message is kept
    or skipped. *)
Lemma scan_message_run msg st :
  scan_message time_diff specific_date keyword msg st
  = if breaks time_diff msg
    then (Raises (TypeError
                    "can't subtract offset-naive and offset-aware datetimes"),
          st)
    else (Returns tt,
          advanced (kept_soups time_diff specific_date keyword (clock st) [msg])
            [] st).
Proof.
  unfold scan_message, kept_soups, breaks. rewrite bind_run.
  unfold get_state at 1. unfold message_kept. simpl List.filter.
  destruct time_diff as [d|]; cbn [too_old].
  - destruct (d =? 0); cbn [negb andb].
    + rewrite bind_run. unfold mret at 1. unfold M_ret at 1.
      destruct (other_day specific_date msg);
        [simpl; rewrite advanced_nil; reflexivity|].
      destruct (lacks_keyword keyword msg);
        [simpl; rewrite advanced_nil; reflexivity|].
      simpl. unfold set_soups, advanced. rewrite app_nil_r. reflexivity.
    + rewrite !bind_run. unfold now_minus. rewrite bind_run.
      unfold get_state at 1.
      destruct (tzinfo (date msg)) as [z|]; cbn [is_some]; [reflexivity|].
      unfold mret at 1. unfold M_ret at 1. unfold mret at 1. unfold M_ret at 1.
      destruct (d <? clock st - wall (date msg));
        [simpl; rewrite advanced_nil; reflexivity|].
      destruct (other_day specific_date msg);
        [simpl; rewrite advanced_nil; reflexivity|].
      destruct (lacks_keyword keyword msg);
        [simpl; rewrite advanced_nil; reflexivity|].
      simpl. unfold set_soups, advanced. rewrite app_nil_r. reflexivity.
  - rewrite bind_run. unfold mret at 1. unfold M_ret at 1.
    destruct (other_day specific_date msg);
      [simpl; rewrite advanced_nil; reflexivity|].
    destruct (lacks_keyword keyword msg);
      [simpl; rewrite advanced_nil; reflexivity|].
    simpl. unfold set_soups, advanced. rewrite app_nil_r. reflexivity.
Qed.

Lemma kept_soups_cons now m ms :
  kept_soups time_diff specific_date keyword now (m :: ms)
  = kept_soups time_diff specific_date keyword now [m]
    ++ kept_soups time_diff specific_date keyword now ms.
Proof.
  unfold kept_soups. simpl.
  destruct (message_kept time_diff specific_date keyword now m); reflexivity.
Qed.

(** The loop over a folder's messages stops at the first message at which
    the body raises; the messages after it are not fetched. *)
Lemma iterate_run folder msgs final st :
  snd (iterate folder true msgs final
         (scan_message time_diff specific_date keyword) st)
  = advanced
      (kept_soups time_diff specific_date keyword (clock st)
         (scanned time_diff msgs))
      (fetch_events folder (fetched time_diff msgs)) st.
Proof.
  revert st. induction msgs as [|m ms IH]; intros st.
  - simpl. unfold kept_soups. simpl. rewrite advanced_nil.
    destruct final; reflexivity.
  - cbn [iterate scanned fetched]. rewrite bind_run. unfold emit at 1.
    fold (logged (EvFetchMsg folder (uid m) true) st).
    rewrite bind_run, scan_message_run.
    destruct (breaks time_diff m).
    + cbn [snd]. unfold kept_soups. cbn [List.filter map fetch_events].
      rewrite logged_advanced. reflexivity.
    + rewrite IH. rewrite logged_advanced, !advanced_advanced.
      cbn [clock advanced].
      rewrite (kept_soups_cons (clock st) m (scanned time_diff ms)).
      reflexivity.
Qed.

Lemma scan_folder_run criteria i st :
  scan_folder env criteria time_diff specific_date keyword i st
  = (Returns tt,
     advanced
       (folder_soups env criteria time_diff specific_date keyword (clock st) i)
       (folder_events env criteria time_diff i) st).
Proof.
  unfold scan_folder, try_except, folder_soups, folder_events.
  rewrite bind_run. unfold mailbox_folder_set. rewrite bind_run.
  unfold emit at 1. fold (logged (EvSelect i) st).
  destruct (folder_set env i) as [b|e].
  - unfold mret at 1. unfold M_ret at 1. rewrite bind_run.
    unfold AND. fold (has_params criteria).
    destruct (has_params criteria).
    + unfold mret at 1. unfold M_ret at 1. unfold for_each_fetched.
      rewrite bind_run. unfold emit at 1.
      fold (logged (EvFetch i criteria true) (logged (EvSelect i) st)).
      pose proof (iterate_run i (fst (fetch env i criteria))
                    (snd (fetch env i criteria))
                    (logged (EvFetch i criteria true) (logged (EvSelect i) st)))
        as Hrun.
      destruct (iterate i true _ _ _ _) as [[[]|e] s1]; cbn [snd] in Hrun;
        rewrite Hrun, !logged_advanced, !advanced_advanced; reflexivity.
    + unfold mthrow at 1. unfold M_throw at 1.
      rewrite logged_advanced. reflexivity.
  - unfold mthrow at 1. unfold M_throw at 1.
    rewrite logged_advanced. reflexivity.
Qed.

Lemma for_each_folders_run criteria fs st :
  for_each fs (scan_folder env criteria time_diff specific_date keyword) st
  = (Returns tt,
     advanced
       (flat_map (folder_soups env criteria time_diff specific_date keyword
                    (clock st)) fs)
       (flat_map (folder_events env criteria time_diff) fs) st).
Proof.
  revert st. induction fs as [|i fs IH]; intros st.
  - simpl. rewrite advanced_nil. reflexivity.
  - cbn [for_each]. rewrite bind_run, scan_folder_run, IH.
    rewrite advanced_advanced. reflexivity.
Qed.

(** On an authenticated client with criteria, [scrap] returns after one
    attempt; its result and its trace are those of the folder scan. *)
Lemma scrap_run scrapsub sender seen mb st :
  mailbox (self st) = Some mb ->
  PyStr.truthy scrapsub || PyStr.truthy sender || PyStr.truthy keyword = true ->
  scrap env scrapsub sender keyword seen time_diff specific_date st
  = (Returns
       (result_of
          (flat_map
             (folder_soups env (search_criteria_of scrapsub sender seen)
                time_diff specific_date keyword (clock st)) folders)),
     {| heap := heap st; self := self st;
        soups :=
          flat_map
            (folder_soups env (search_criteria_of scrapsub sender seen)
               time_diff specific_date keyword (clock st)) folders;
        clock := clock st;
        trace :=
          trace st ++
          EvAttempt "scrap" ::
          flat_map
            (folder_events env (search_criteria_of scrapsub sender seen)
               time_diff)
            folders
          ++ [EvLog (LogInfo (hit_message scrapsub sender keyword))] |}).
Proof.
  intros Hmb Hcrit. unfold scrap, retry. apply retrying_returns.
  unfold scrap_body. rewrite bind_run. unfold set_soups at 1.
  rewrite bind_run. unfold get_state at 1. cbn [self logged].
  rewrite Hmb, Hcrit. cbn [negb].
  fold (search_criteria_of scrapsub sender seen).
  rewrite bind_run. unfold try_except.
  rewrite bind_run, for_each_folders_run.
  unfold mret at 1. unfold M_ret at 1.
  rewrite bind_run. unfold logger_info at 1. unfold emit at 1.
  rewrite bind_run. unfold get_state at 1.
  fold (hit_message scrapsub sender keyword).
  unfold mret, M_ret, advanced, result_of, logged.
  cbn [heap self soups clock trace].
  rewrite app_nil_l, <- !app_assoc. cbn [app].
  destruct (flat_map (folder_soups _ _ _ _ _ _) folders); reflexivity.
Qed.

End FolderScan.

(* ===================================================================== *)
(** ** Folder resilience, the keyword filter and the seen flag *)
(* ===================================================================== *)

Lemma EvSelect_in_folder_events env criteria time_diff fs g :
  In g fs ->
  In (EvSelect g) (flat_map (folder_events env criteria time_diff) fs).
Proof.
  intros Hg. apply List.in_flat_map. exists g. split; [exact Hg|].
  unfold folder_events. left. reflexivity.
Qed.


Lemma fetched_all time_diff msgs :
  (forall m, In m msgs -> breaks time_diff m = false) ->
  fetched time_diff msgs = msgs.
Proof.
  induction msgs as [|m ms IH]; intros H; [reflexivity|].
  cbn [fetched]. rewrite (H m (or_introl eq_refl)), IH; [reflexivity|].
  intros m' Hm'. apply H. right. exact Hm'.
Qed.

(** When the loop stops at [m], nothing after [m] is fetched. *)
Lemma fetched_until time_diff ms m ms' :
  (forall x, In x ms -> breaks time_diff x = false) ->
  breaks time_diff m = true ->
  fetched time_diff (ms ++ m :: ms') = ms ++ [m].
Proof.
  intros Hms Hm. induction ms as [|x ms IH]; cbn [fetched app].
  - rewrite Hm. reflexivity.
  - rewrite (Hms x (or_introl eq_refl)), IH; [reflexivity|].
    intros y Hy. apply Hms. right. exact Hy.
Qed.




Lemma NoDup_folders : NoDup folders.
Proof. apply (bool_decide_unpack _). vm_compute. exact I. Qed.

Lemma fetches_in_other env criteria time_diff g i :
  i <> g ->
  List.filter (fetches_in g) (folder_events env criteria time_diff i) = [].
Proof.
  intros Hne. unfold folder_events. cbn [List.filter fetches_in].
  destruct (folder_set env i); [|reflexivity].
  destruct (has_params criteria); [|reflexivity].
  cbn [List.filter fetches_in]. unfold fetch_events.
  induction (fetched time_diff (fst (fetch env i criteria))) as [|m ms IH];
    [reflexivity|].
  cbn [map List.filter fetches_in].
  destruct (String.eqb_spec i g); [contradiction | exact IH].
Qed.

Lemma fetches_in_folder env criteria time_diff g b :
  folder_set env g = SetReturns b ->
  has_params criteria = true ->
  List.filter (fetches_in g) (folder_events env criteria time_diff g)
  = fetch_events g (fetched time_diff (fst (fetch env g criteria))).
Proof.
  intros Hset Hq. unfold folder_events. rewrite Hset, Hq.
  cbn [List.filter fetches_in]. unfold fetch_events.
  induction (fetched time_diff (fst (fetch env g criteria))) as [|m ms IH];
    [reflexivity|].
  cbn [map List.filter fetches_in]. rewrite String.eqb_refl, IH. reflexivity.
Qed.

Lemma fetches_in_folders env criteria time_diff g b fs :
  NoDup fs -> In g fs ->
  folder_set env g = SetReturns b ->
  has_params criteria = true ->
  List.filter (fetches_in g)
    (flat_map (folder_events env criteria time_diff) fs)
  = fetch_events g (fetched time_diff (fst (fetch env g criteria))).
Proof.
  intros Hnd Hg Hset Hq.
  assert (Hnone : forall l, ~ In g l ->
            List.filter (fetches_in g)
              (flat_map (folder_events env criteria time_diff) l) = []).
  { induction l as [|i l IH]; intros Hnot; [reflexivity|].
    cbn [flat_map]. rewrite List.filter_app, fetches_in_other, IH.
    - reflexivity.
    - intros H. apply Hnot. right. exact H.
    - intros ->. apply Hnot. left. reflexivity. }
  induction Hnd as [|i fs Hnot Hnd IH]; [destruct Hg|].
  cbn [flat_map]. rewrite List.filter_app.
  destruct (String.eqb_spec i g) as [->|Hne].
  - rewrite (fetches_in_folder _ _ _ _ b Hset Hq), (Hnone fs).
    + apply app_nil_r.
    + intros H. apply Hnot. apply list_elem_of_In. exact H.
  - rewrite (fetches_in_other _ _ _ _ _ Hne). cbn [app]. apply IH.
    destruct Hg as [Hg|Hg]; [contradiction | exact Hg].
Qed.

(** C9 (the code departs from it): in a folder that [scrap] selects, the
    search is issued with [mark_seen=True] and the messages it matches are
    fetched with [mark_seen=True] one by one, before the filters look at them;
    no search or fetch is made without the flag.  When no message makes the
    time-window test raise, every matched message is fetched, kept or not.
    But a truthy [time_diff] and a message with an aware date stop the loop
    of the folder at that message: the matched messages after it are never
    fetched, and so never flagged. *)
Theorem scrap_marks_seen_before_filtering
    env st mb scrapsub sender keyword seen time_diff specific_date g b :
  mailbox (self st) = Some mb ->
  PyStr.truthy scrapsub || PyStr.truthy sender || PyStr.truthy keyword = true ->
  has_params (search_criteria_of scrapsub sender seen) = true ->
  In g folders ->
  folder_set env g = SetReturns b ->
  exists t,
    trace (snd (scrap env scrapsub sender keyword seen time_diff
                  specific_date st)) = trace st ++ t
    /\ Forall marks_seen t
    /\ In (EvFetch g (search_criteria_of scrapsub sender seen) true) t
    /\ ((forall m,
           In m (fst (fetch env g (search_criteria_of scrapsub sender seen))) ->
           breaks time_diff m = false) ->
        List.filter (fetches_in g) t
        = fetch_events g
            (fst (fetch env g (search_criteria_of scrapsub sender seen))))
    /\ (forall ms m ms',
          fst (fetch env g (search_criteria_of scrapsub sender seen))
          = ms ++ m :: ms' ->
          (forall x, In x ms -> breaks time_diff x = false) ->
          breaks time_diff m = true ->
          List.filter (fetches_in g) t = fetch_events g (ms ++ [m])).
Proof.
  intros Hmb Hcrit Hq Hg Hset.
  pose proof (scrap_steps env scrapsub sender keyword seen time_diff
                specific_date st) as [_ [t0 [Ht0 Hmarks]]].
  pose proof (scrap_run env time_diff specific_date keyword scrapsub sender seen
                mb st Hmb Hcrit) as Hrun.
  rewrite Hrun in Ht0. cbn [snd trace] in Ht0.
  apply app_inv_head in Ht0. subst t0.
  eexists. split; [rewrite Hrun; reflexivity|].
  assert (Hfilter :
    List.filter (fetches_in g)
      (EvAttempt "scrap" ::
       flat_map
         (folder_events env (search_criteria_of scrapsub sender seen) time_diff)
         folders ++ [EvLog (LogInfo (hit_message scrapsub sender keyword))])
    = fetch_events g
        (fetched time_diff
           (fst (fetch env g (search_criteria_of scrapsub sender seen))))).
  { cbn [List.filter fetches_in]. rewrite List.filter_app.
    rewrite (fetches_in_folders _ _ _ g b folders NoDup_folders Hg Hset Hq).
    cbn [List.filter fetches_in]. apply app_nil_r. }
  split; [exact Hmarks|]. split; [|split].
  - right. apply in_or_app. left.
    apply List.in_flat_map. exists g. split; [exact Hg|].
    unfold folder_events. rewrite Hset, Hq. right. left. reflexivity.
  - intros Hok. rewrite Hfilter, (fetched_all _ _ Hok). reflexivity.
  - intros ms m ms' Hsplit Hms Hm.
    rewrite Hfilter, Hsplit, (fetched_until _ _ _ _ Hms Hm). reflexivity.
Qed.

(** C8: the keyword filter reads [msg.text or msg.html], the text part
    when it is not empty and the HTML part otherwise.  For a fetched message
    that the time window and the date let through, a given keyword excludes
    the message exactly when it is absent from that body: if the keyword
    occurs there, the soup of the body is appended; if it does not, the
    message is skipped and nothing changes.  The keyword is not consulted
    when an earlier test has already decided. *)
Theorem keyword_filter_on_body time_diff specific_date k msg st :
  (breaks time_diff msg = false ->
   too_old time_diff (clock st) msg = false ->
   other_day specific_date msg = false ->
   (PyStr.occurs_in k (if String.eqb (text msg) "" then html msg else text msg) ->
    scan_message time_diff specific_date (Some k) msg st
    = (Returns tt,
       advanced
         [BeautifulSoup
            (if String.eqb (text msg) "" then html msg else text msg) "lxml"]
         [] st))
   /\ (~ PyStr.occurs_in k
           (if String.eqb (text msg) "" then html msg else text msg) ->
       scan_message time_diff specific_date (Some k) msg st = (Returns tt, st)))
  /\ (breaks time_diff msg = true \/ too_old time_diff (clock st) msg = true
      \/ other_day specific_date msg = true ->
      scan_message time_diff specific_date (Some k) msg st
      = scan_message time_diff specific_date None msg st
      /\ soups (snd (scan_message time_diff specific_date (Some k) msg st))
         = soups st).
Proof.
  rewrite !scan_message_run. unfold kept_soups, message_kept, soup_of.
  cbn [List.filter lacks_keyword]. unfold body_of, PyStr.or_else.
  set (body := if String.eqb (text msg) "" then html msg else text msg).
  split.
  - intros Hb Hold Hday. rewrite Hb, Hold, Hday. cbn [negb andb]. split.
    + intros Hocc. apply contains_iff in Hocc. rewrite Hocc.
      rewrite andb_false_r. reflexivity.
    + intros Hno. destruct (String.eqb_spec k "") as [->|Hk].
      * exfalso. apply Hno. exists "", body. reflexivity.
      * destruct (PyStr.contains k body) eqn:Hc.
        -- exfalso. apply Hno, contains_iff, Hc.
        -- cbn [negb andb map]. rewrite advanced_nil. reflexivity.
  - intros [Hb|[Hold|Hday]].
    + rewrite Hb. split; reflexivity.
    + destruct (breaks time_diff msg); [split; reflexivity|].
      rewrite Hold. cbn [negb andb map]. rewrite advanced_nil.
      split; reflexivity.
    + destruct (breaks time_diff msg); [split; reflexivity|].
      rewrite Hday, andb_false_r. cbn [negb andb map]. rewrite advanced_nil.
      split; reflexivity.
Qed.


Lemma scrap_marks_seen_before_filtering_witness :
  exists t,
    trace (snd (scrap Scenario.zoned (Some "Invoice") None None None
                  (Some 300) None logged_in))
    = trace logged_in ++ t
    /\ fst (fetch Scenario.zoned "INBOX"
              (search_criteria_of (Some "Invoice") None None))
       = [Scenario.zoned_invoice; Scenario.zoned_reminder]
    /\ List.filter (fetches_in "INBOX") t
       = [EvFetchMsg "INBOX" (uid Scenario.zoned_invoice) true].
Proof.
  destruct (scrap_marks_seen_before_filtering Scenario.zoned logged_in
              (MailBox "imap.gmail.com") (Some "Invoice") None None None
              (Some 300) None "INBOX" true)
    as [t [Ht [_ [_ [_ Hstop]]]]].
  - reflexivity.
  - reflexivity.
  - reflexivity.
  - simpl. tauto.
  - reflexivity.
  - exists t. split; [exact Ht|]. split; [reflexivity|].
    apply (Hstop [] Scenario.zoned_invoice [Scenario.zoned_reminder]).
    + reflexivity.
    + intros x [].
    + reflexivity.
Defined.

Lemma keyword_filter_on_body_witness :
  scan_message None None (Some "invoice") Mock.invoice logged_in
  = (Returns tt, advanced [BeautifulSoup "invoice#4471" "lxml"] [] logged_in)
  /\ scan_message None None (Some "refund") Mock.invoice logged_in
     = (Returns tt, logged_in)
  /\ scan_message None None (Some "news") Mock.newsletter logged_in
     = (Returns tt,
        advanced [BeautifulSoup "<p>weekly news</p>" "lxml"] [] logged_in).
Proof.
  split; [|split].
  - apply (proj1 (keyword_filter_on_body None None "invoice" Mock.invoice
                    logged_in) eq_refl eq_refl eq_refl).
    apply contains_iff. reflexivity.
  - apply (proj1 (keyword_filter_on_body None None "refund" Mock.invoice
                    logged_in) eq_refl eq_refl eq_refl).
    intros H. apply contains_iff in H. discriminate.
  - apply (proj1 (keyword_filter_on_body None None "news" Mock.newsletter
                    logged_in) eq_refl eq_refl eq_refl).
    apply contains_iff. reflexivity.
Defined.

(** The spec's example: a body ["invoice#4471"] is returned for the keyword
    ["invoice"] and dropped for ["refund"]; the newsletter in the same folder
    is fetched, and so flagged as seen, in both runs. *)
Example scrap_keyword_invoice :
  fst (scrap Mock.session None (Some "billing@example.com") (Some "invoice")
         None None None logged_in)
  = Returns (ResultSoups [ BeautifulSoup "invoice#4471" "lxml";
                           BeautifulSoup "your invoice is paid" "lxml" ]).
Proof. vm_compute. reflexivity. Qed.

Example scrap_keyword_refund :
  fst (scrap Mock.session None (Some "billing@example.com") (Some "refund")
         None None None logged_in)
  = Returns ResultNone.
Proof. vm_compute. reflexivity. Qed.

Example invoice_occurs : PyStr.occurs_in "invoice" "invoice#4471".
Proof. apply contains_iff. reflexivity. Qed.

Example refund_does_not_occur : ~ PyStr.occurs_in "refund" "invoice#4471".
Proof. intros H. apply contains_iff in H. discriminate. Qed.


(* ===================================================================== *)
(** ** Further properties: resolving the provider *)
(* ===================================================================== *)

Ltac unfold_prims :=
  unfold try_except, MailBox_init, mailbox_login, mailbox_folder_set,
    assign_mailbox, assign_login_status, logger_info, logger_error,
    logger_error_exn, emit, set_self, set_soups, set_heap, get_state, deref,
    mbind, M_bind, mret, M_ret, mthrow, M_throw.

Ltac simp_state :=
  cbn [heap self soups clock trace u pw mailbox login_status proxy logged
       slept fst snd].

Lemma has_char_append (sep : ascii) (a b : string) :
  PyStr.has_char sep (String.append a b)
  = PyStr.has_char sep a || PyStr.has_char sep b.
Proof.
  induction a as [|c a IH]; [reflexivity|].
  rewrite append_String. simpl. rewrite IH. apply orb_assoc.
Qed.

Lemma split_at_first_sep (sep : ascii) (a b : string) :
  PyStr.has_char sep a = false ->
  PyStr.split sep (String.append a (String sep b)) = a :: PyStr.split sep b.
Proof.
  induction a as [|c a IH]; intros Ha.
  - rewrite append_empty. simpl. rewrite Ascii.eqb_refl. reflexivity.
  - simpl in Ha. apply orb_false_elim in Ha as [Hc Ha].
    rewrite append_String. simpl. rewrite Hc, (IH Ha). reflexivity.
Qed.

Lemma provider_of_Some user p :
  provider_of user = Some p ->
  (1 <? length (PyStr.split "@" user))%nat = true
  /\ providers !! nth 1 (PyStr.split "@" user) "" = Some p.
Proof.
  unfold provider_of.
  destruct (1 <? length (PyStr.split "@" user))%nat; [auto | discriminate].
Qed.

(** X1: only the text between the first and the second ['@'] of the address
    selects the provider: whatever follows a second ['@'] is ignored, so
    ["local@domain@tail"] resolves exactly like ["local@domain"]. *)
Theorem provider_ignores_text_after_second_at (local domain tail : string) :
  PyStr.has_char "@" local = false ->
  PyStr.has_char "@" domain = false ->
  provider_of
    (String.append local (String "@" (String.append domain (String "@" tail))))
  = providers !! domain
  /\ provider_of (String.append local (String "@" domain)) = providers !! domain.
Proof.
  intros Hl Hd. unfold provider_of.
  rewrite !(split_at_first_sep _ _ _ Hl), (split_at_first_sep _ _ _ Hd),
    (split_no_sep _ _ Hd).
  split; reflexivity.
Qed.

Lemma provider_ignores_text_after_second_at_witness :
  provider_of
    (String.append "user" (String "@" (String.append "gmail.com" (String "@" "example.org"))))
  = providers !! "gmail.com"
  /\ provider_of (String.append "user" (String "@" "gmail.com"))
     = providers !! "gmail.com".
Proof.
  apply (provider_ignores_text_after_second_at "user" "gmail.com" "example.org");
    reflexivity.
Defined.

(** X2: for an address with an ['@'] whose domain is not in [providers],
    [connect_and_login] returns [False] after one attempt without touching
    the network: it logs the error, sets [login_status] to [False] and leaves
    [mailbox] and every [ProxyConfig] as they were. *)
Theorem connect_and_login_unsupported_domain env st :
  PyStr.has_char "@" (u (self st)) = true ->
  provider_of (u (self st)) = None ->
  exists st',
    connect_and_login env st = (Returns (Some false), st')
    /\ login_status (self st') = false
    /\ mailbox (self st') = mailbox (self st)
    /\ heap st' = heap st
    /\ trace st' = trace st ++
         [ EvAttempt "connect_and_login";
           EvLog (LogError
             "Please enter an email that is supported in the provider dict.") ].
Proof.
  intros Hat Hnone. apply split_with_sep in Hat.
  apply Nat.ltb_lt in Hat. unfold provider_of in Hnone. rewrite Hat in Hnone.
  eexists. repeat apply conj.
  - rewrite connect_and_login_once. unfold connect_and_login_body.
    unfold_prims. simp_state. rewrite Hat, Hnone. reflexivity.
  - reflexivity.
  - reflexivity.
  - reflexivity.
  - simp_state. rewrite <- app_assoc. reflexivity.
Qed.

Lemma connect_and_login_unsupported_domain_witness :
  exists st',
    connect_and_login Mock.reachable
      (Mock.unconnected "user@example.org" "secret" None ∅)
    = (Returns (Some false), st')
    /\ login_status (self st') = false
    /\ mailbox (self st')
       = mailbox (self (Mock.unconnected "user@example.org" "secret" None ∅))
    /\ heap st' = heap (Mock.unconnected "user@example.org" "secret" None ∅)
    /\ trace st' =
         trace (Mock.unconnected "user@example.org" "secret" None ∅) ++
         [ EvAttempt "connect_and_login";
           EvLog (LogError
             "Please enter an email that is supported in the provider dict.") ].
Proof.
  apply (connect_and_login_unsupported_domain Mock.reachable
           (Mock.unconnected "user@example.org" "secret" None ∅));
    vm_compute; reflexivity.
Defined.

(* ===================================================================== *)
(** ** Further properties: what a login attempt leaves behind *)
(* ===================================================================== *)

Lemma bind_returns_inv {A B} (m : M A) (f : A -> M B) st b st' :
  (m ≫= f) st = (Returns b, st') ->
  exists a s1, m st = (Returns a, s1) /\ f a s1 = (Returns b, st').
Proof.
  rewrite bind_run. destruct (m st) as [[a|e] s1]; [|discriminate].
  intros H. exists a, s1. auto.
Qed.

Lemma assign_mailbox_run mb st :
  assign_mailbox mb st
  = (Returns tt,
     {| heap := heap st;
        self := {| u := u (self st); pw := pw (self st); mailbox := Some mb;
                   login_status := login_status (self st);
                   proxy := proxy (self st) |};
        soups := soups st; clock := clock st; trace := trace st |}).
Proof. reflexivity. Qed.

(** X3: when the server rejects the login ([MailboxLoginError]) on a direct
    connection, [connect_and_login] returns [False] with [login_status]
    [False], but [self.mailbox] keeps the connected [MailBox].  A later
    [scrap] therefore does not take its "Authentication Failed" path: it runs
    the whole folder scan on the unauthenticated connection. *)
Theorem rejected_login_keeps_mailbox
    env st p e scrapsub sender keyword seen time_diff specific_date :
  proxy (self st) = None ->
  provider_of (u (self st)) = Some p ->
  direct_connect env p = None ->
  imap_login env (u (self st)) (pw (self st)) = Some e ->
  is_MailboxLoginError e = true ->
  PyStr.truthy scrapsub || PyStr.truthy sender || PyStr.truthy keyword = true ->
  exists st',
    connect_and_login env st = (Returns (Some false), st')
    /\ login_status (self st') = false
    /\ mailbox (self st') = Some (MailBox p)
    /\ network_calls (trace st') = (network_calls (trace st) + 2)%nat
    /\ (exists l,
          fst (scrap env scrapsub sender keyword seen time_diff specific_date st')
          = Returns (result_of l))
    /\ (forall g, In g folders ->
          In (EvSelect g)
             (trace (snd (scrap env scrapsub sender keyword seen time_diff
                            specific_date st')))).
Proof.
  intros Hproxy Hprov Hdc Hlogin Hmle Hcrit.
  destruct (provider_of_Some _ _ Hprov) as [Hat Hp].
  eexists. split; [|split; [|split; [|split; [|split]]]].
  - rewrite connect_and_login_once. unfold connect_and_login_body.
    unfold_prims. simp_state. rewrite Hat, Hp, Hproxy, Hdc.
    simp_state. rewrite Hlogin, Hmle. reflexivity.
  - reflexivity.
  - reflexivity.
  - simp_state. rewrite !network_calls_app. cbn. lia.
  - eexists. erewrite scrap_run; [reflexivity | reflexivity | exact Hcrit].
  - intros g Hg. erewrite scrap_run; [| reflexivity | exact Hcrit].
    cbn [snd trace]. apply in_or_app. right. right. apply in_or_app. left.
    apply EvSelect_in_folder_events, Hg.
Qed.

(** X4: when connecting raises an [Exception] other than [MailboxLoginError],
    [connect_and_login] returns [False] and leaves the whole [MailKit]
    instance as it was: [login_status] is not reset, so a [True] from an
    earlier successful login survives the failed reconnect, as does the old
    [mailbox]. *)
Theorem failed_connect_keeps_stale_status env st p e :
  proxy (self st) = None ->
  provider_of (u (self st)) = Some p ->
  direct_connect env p = Some e ->
  is_Exception e = true ->
  is_MailboxLoginError e = false ->
  exists st',
    connect_and_login env st = (Returns (Some false), st')
    /\ self st' = self st
    /\ heap st' = heap st
    /\ trace st' = trace st ++
         [ EvAttempt "connect_and_login"; EvDirectConnect p;
           EvLog (LogErrorExn "" e) ].
Proof.
  intros Hproxy Hprov Hdc Hexn Hmle.
  destruct (provider_of_Some _ _ Hprov) as [Hat Hp].
  eexists. split; [|split; [|split]].
  - rewrite connect_and_login_once. unfold connect_and_login_body.
    unfold_prims. simp_state. rewrite Hat, Hp, Hproxy, Hdc.
    simp_state. rewrite Hmle, Hexn. reflexivity.
  - reflexivity.
  - reflexivity.
  - simp_state. rewrite <- !app_assoc. reflexivity.
Qed.

(** X5: whenever [connect_and_login] returns [True], in any environment and
    from any state, [login_status] is [True] and [self.mailbox] holds a
    mailbox; and it returns [None] only for an address without ['@']. *)
Theorem connect_and_login_True_means_logged_in env st st' :
  (connect_and_login env st = (Returns (Some true), st') ->
   login_status (self st') = true /\ is_some (mailbox (self st')) = true)
  /\ (connect_and_login env st = (Returns None, st') ->
      PyStr.has_char "@" (u (self st)) = false).
Proof.
  set (s0 := logged (EvAttempt "connect_and_login") st).
  assert (Hrun : connect_and_login env st =
            (if (1 <? length (PyStr.split "@" (u (self st))))%nat
             then connect_and_login_body env s0
             else (Returns None, s0))).
  { rewrite connect_and_login_once. fold s0.
    destruct (1 <? length (PyStr.split "@" (u (self st))))%nat eqn:Hat;
      [reflexivity|].
    unfold connect_and_login_body. rewrite bind_run. unfold get_state at 1.
    subst s0. cbn [self logged]. rewrite Hat. reflexivity. }
  rewrite Hrun. clear Hrun.
  destruct (1 <? length (PyStr.split "@" (u (self st))))%nat eqn:Hat.
  - assert (Hinv : forall r, connect_and_login_body env s0 = (Returns r, st') ->
              r <> None
              /\ (r = Some true ->
                  login_status (self st') = true
                  /\ is_some (mailbox (self st')) = true)).
    { intros r. unfold connect_and_login_body. rewrite bind_run.
      unfold get_state at 1. subst s0. cbn [self logged]. rewrite Hat.
      set (s0 := logged (EvAttempt "connect_and_login") st).
      unfold try_except.
      match goal with |- context [match ?b s0 with _ => _ end] =>
        destruct (b s0) as [[r0|e] s1] eqn:Hbody end.
      - intros [= -> ->].
        destruct (providers !! nth 1 (PyStr.split "@" (u (self st))) "")
          as [p|].
        + apply bind_returns_inv in Hbody as [[] [sa [Hconn Hrest]]].
          assert (Hmb : is_some (mailbox (self sa)) = true).
          { destruct (proxy (self st)) as [l|].
            - apply bind_returns_inv in Hconn as [[] [sb [_ Hconn]]].
              apply bind_returns_inv in Hconn as [c [sc [_ Hconn]]].
              apply bind_returns_inv in Hconn as [mb [sd [_ Hconn]]].
              rewrite assign_mailbox_run in Hconn.
              injection Hconn as <-. reflexivity.
            - apply bind_returns_inv in Hconn as [mb [sd [_ Hconn]]].
              rewrite assign_mailbox_run in Hconn.
              injection Hconn as <-. reflexivity. }
          revert Hrest. unfold_prims. simp_state.
          destruct (imap_login env (u (self st)) (pw (self st)));
            [discriminate|].
          destruct (folder_set env "INBOX") as [[|]|]; try discriminate.
          * simp_state. intros [= <- <-]. simp_state.
            split; [discriminate | auto].
          * simp_state. intros [= <- <-]. split; discriminate.
        + revert Hbody. unfold_prims. simp_state. intros [= <- <-].
          split; discriminate.
      - destruct (is_MailboxLoginError e).
        + unfold_prims. simp_state. intros [= <- <-]. split; discriminate.
        + destruct (is_Exception e); [|discriminate].
          unfold_prims. simp_state. intros [= <- <-]. split; discriminate. }
    split.
    + intros H. apply (Hinv _ H). reflexivity.
    + intros H. exfalso. apply (Hinv _ H). reflexivity.
  - split; [discriminate|]. intros _.
    destruct (PyStr.has_char "@" (u (self st))) eqn:Hc; [|reflexivity].
    apply split_with_sep in Hc. apply Nat.ltb_lt in Hc. congruence.
Qed.

Lemma rejected_login_keeps_mailbox_witness :
  exists st',
    connect_and_login Scenario.login_rejected Scenario.direct_client
    = (Returns (Some false), st')
    /\ login_status (self st') = false
    /\ mailbox (self st') = Some (MailBox "imap.gmail.com")
    /\ network_calls (trace st')
       = (network_calls (trace Scenario.direct_client) + 2)%nat
    /\ (exists l,
          fst (scrap Scenario.login_rejected (Some "Invoice") None None None
                 None None st')
          = Returns (result_of l))
    /\ (forall g, In g folders ->
          In (EvSelect g)
             (trace (snd (scrap Scenario.login_rejected (Some "Invoice") None
                            None None None None st')))).
Proof.
  apply (rejected_login_keeps_mailbox Scenario.login_rejected
           Scenario.direct_client "imap.gmail.com"
           (MailboxLoginError "[AUTHENTICATIONFAILED] Invalid credentials")
           (Some "Invoice") None None None None None);
    reflexivity.
Defined.

Lemma failed_connect_keeps_stale_status_witness :
  login_status (self Scenario.was_logged_in) = true
  /\ exists st',
       connect_and_login Scenario.server_down Scenario.was_logged_in
       = (Returns (Some false), st')
       /\ self st' = self Scenario.was_logged_in
       /\ heap st' = heap Scenario.was_logged_in
       /\ trace st' = trace Scenario.was_logged_in ++
            [ EvAttempt "connect_and_login"; EvDirectConnect "imap.gmail.com";
              EvLog (LogErrorExn "" (ImapError "Connection refused")) ].
Proof.
  split; [reflexivity|].
  apply (failed_connect_keeps_stale_status Scenario.server_down
           Scenario.was_logged_in "imap.gmail.com"
           (ImapError "Connection refused"));
    reflexivity.
Defined.

Lemma connect_and_login_True_means_logged_in_witness :
  login_status
    (self (snd (connect_and_login Mock.reachable Scenario.direct_client))) = true
  /\ is_some
       (mailbox
          (self (snd (connect_and_login Mock.reachable Scenario.direct_client))))
     = true.
Proof.
  apply (connect_and_login_True_means_logged_in Mock.reachable
           Scenario.direct_client
           (snd (connect_and_login Mock.reachable Scenario.direct_client))).
  vm_compute. reflexivity.
Defined.

(* ===================================================================== *)
(** ** Further properties: [scrap] *)
(* ===================================================================== *)

Lemma scrap_unauthenticated_run
    env st scrapsub sender keyword seen time_diff specific_date :
  mailbox (self st) = None ->
  fst (scrap env scrapsub sender keyword seen time_diff specific_date st)
  = Returns ResultNone.
Proof.
  intros Hmb. unfold scrap, retry. erewrite retrying_returns; [reflexivity|].
  unfold scrap_body. unfold_prims. simp_state. rewrite Hmb. reflexivity.
Qed.

Lemma scrap_missing_criteria_run
    env st mb scrapsub sender keyword seen time_diff specific_date :
  mailbox (self st) = Some mb ->
  PyStr.truthy scrapsub || PyStr.truthy sender || PyStr.truthy keyword = false ->
  fst (scrap env scrapsub sender keyword seen time_diff specific_date st)
  = Raises (RetryError missing_criteria).
Proof.
  intros Hmb Hcrit.
  apply orb_false_elim in Hcrit as [Hcrit H3].
  apply orb_false_elim in Hcrit as [H1 H2].
  unfold scrap, retry. cbn [Nat.sub].
  erewrite retrying_again;
    [| apply (scrap_body_missing_criteria env _ mb); assumption | reflexivity].
  erewrite retrying_again;
    [| apply (scrap_body_missing_criteria env _ mb); assumption | reflexivity].
  erewrite retrying_exhausted;
    [reflexivity
    | apply (scrap_body_missing_criteria env _ mb); assumption
    | reflexivity].
Qed.

Lemma result_of_cases l :
  match result_of l with
  | ResultNone => l = []
  | ResultSoups l' => l' = l /\ l <> []
  | ResultExn _ => False
  end.
Proof. destruct l; simpl; [reflexivity | split; [reflexivity | discriminate]]. Qed.

(** X6: the outcomes of [scrap], for every environment, state and argument
    list: it returns [None] or a non-empty list of soups (never an empty
    list, and never the exception object of its outer handler), or it raises
    the [RetryError] around the missing-criteria [ValueError]; a list is only
    returned, and the error only raised, when [self.mailbox] is set. *)
Theorem scrap_outcomes
    env st scrapsub sender keyword seen time_diff specific_date :
  match fst (scrap env scrapsub sender keyword seen time_diff specific_date st)
  with
  | Returns ResultNone => True
  | Returns (ResultSoups l) => l <> [] /\ is_some (mailbox (self st)) = true
  | Returns (ResultExn _) => False
  | Raises e =>
      e = RetryError missing_criteria
      /\ is_some (mailbox (self st)) = true
      /\ PyStr.truthy scrapsub || PyStr.truthy sender || PyStr.truthy keyword
         = false
  end.
Proof.
  destruct (mailbox (self st)) as [mb|] eqn:Hmb.
  - destruct (PyStr.truthy scrapsub || PyStr.truthy sender
              || PyStr.truthy keyword) eqn:Hcrit.
    + rewrite (scrap_run env time_diff specific_date keyword scrapsub sender
                 seen mb st Hmb Hcrit).
      cbn [fst].
      match goal with |- context [result_of ?l] =>
        pose proof (result_of_cases l) as Hc; destruct (result_of l) end.
      * destruct Hc as [-> Hne]. auto.
      * exact I.
      * exact Hc.
    + rewrite (scrap_missing_criteria_run env st mb _ _ _ _ _ _ Hmb Hcrit).
      auto.
  - rewrite (scrap_unauthenticated_run env st _ _ _ _ _ _ Hmb). exact I.
Qed.

Lemma naive_never_breaks time_diff m :
  tzinfo (date m) = None -> breaks time_diff m = false.
Proof.
  intros Hm. unfold breaks. rewrite Hm.
  destruct time_diff; [apply andb_false_r | reflexivity].
Qed.

(** X7: the keyword and the date never reach the server.  On an
    authenticated client searched by subject or sender, the network exchange
    of [scrap] (which folders are selected, which searches run, which messages
    are fetched and flagged) is the same for every choice of [keyword] and
    [specific_date]; it is also the same for every [time_diff] when the
    dates of the matched messages are naive (with an aware date a truthy
    [time_diff] cuts the fetches of the folder short).  The instance and the
    clock are left as they were. *)
Theorem scrap_filters_are_local
    env st mb scrapsub sender seen keyword time_diff specific_date
    keyword' time_diff' specific_date' :
  mailbox (self st) = Some mb ->
  PyStr.truthy scrapsub || PyStr.truthy sender = true ->
  List.filter is_network
    (trace (snd (scrap env scrapsub sender keyword seen time_diff
                   specific_date st)))
  = List.filter is_network
      (trace (snd (scrap env scrapsub sender keyword' seen time_diff
                     specific_date' st)))
  /\ ((forall g m,
         In g folders ->
         In m (fst (fetch env g (search_criteria_of scrapsub sender seen))) ->
         tzinfo (date m) = None) ->
      List.filter is_network
        (trace (snd (scrap env scrapsub sender keyword seen time_diff
                       specific_date st)))
      = List.filter is_network
          (trace (snd (scrap env scrapsub sender keyword' seen time_diff'
                         specific_date' st))))
  /\ self (snd (scrap env scrapsub sender keyword seen time_diff
                  specific_date st)) = self st
  /\ clock (snd (scrap env scrapsub sender keyword seen time_diff
                   specific_date st)) = clock st.
Proof.
  intros Hmb Hcrit.
  assert (Hc : forall k, PyStr.truthy scrapsub || PyStr.truthy sender
                         || PyStr.truthy k = true)
    by (intros k; rewrite Hcrit; reflexivity).
  rewrite (scrap_run env time_diff specific_date keyword scrapsub sender
             seen mb st Hmb (Hc _)).
  rewrite (scrap_run env time_diff specific_date' keyword' scrapsub sender
             seen mb st Hmb (Hc _)).
  rewrite (scrap_run env time_diff' specific_date' keyword' scrapsub sender
             seen mb st Hmb (Hc _)).
  cbn [snd trace self clock]. split; [|split; [|split; reflexivity]].
  - rewrite !List.filter_app. cbn [List.filter is_network].
    rewrite !List.filter_app. reflexivity.
  - intros Hnaive.
    assert (Hsame : forall td fs, (forall g, In g fs -> In g folders) ->
              flat_map
                (folder_events env (search_criteria_of scrapsub sender seen) td)
                fs
              = flat_map
                  (folder_events env (search_criteria_of scrapsub sender seen)
                     None) fs).
    { intros td fs. induction fs as [|g fs IH]; intros Hsub; [reflexivity|].
      cbn [flat_map]. rewrite IH by (intros g' Hg'; apply Hsub; right; exact Hg').
      f_equal. unfold folder_events.
      rewrite !fetched_all; [reflexivity | |].
      - intros m Hm. reflexivity.
      - intros m Hm. apply naive_never_breaks.
        apply (Hnaive g m); [apply Hsub; left; reflexivity | exact Hm]. }
    rewrite (Hsame time_diff folders), (Hsame time_diff' folders) by auto.
    rewrite !List.filter_app. cbn [List.filter is_network].
    rewrite !List.filter_app. reflexivity.
Qed.

(** X8: what an earlier [scrap] found does not leak into a later one: the
    list [soups] starts empty on every call, so the result of a [scrap] that
    follows another [scrap] (with whatever arguments) is the result it would
    have given on its own.  The later call is one that does not search on the
    seen flag ([seen] is [None]): the flags that the fetches of the earlier
    call set on the server are then without effect on what it is given. *)
Theorem scrap_results_do_not_accumulate
    env st mb scrapsub sender keyword seen time_diff specific_date
    scrapsub' sender' keyword' time_diff' specific_date' :
  mailbox (self st) = Some mb ->
  PyStr.truthy scrapsub || PyStr.truthy sender || PyStr.truthy keyword = true ->
  PyStr.truthy scrapsub' || PyStr.truthy sender' || PyStr.truthy keyword' = true ->
  fst (scrap env scrapsub' sender' keyword' None time_diff' specific_date'
         (snd (scrap env scrapsub sender keyword seen time_diff
                 specific_date st)))
  = fst (scrap env scrapsub' sender' keyword' None time_diff' specific_date'
           st).
Proof.
  intros Hmb Hcrit Hcrit'.
  rewrite (scrap_run env time_diff specific_date keyword scrapsub sender
             seen mb st Hmb Hcrit).
  cbn [snd].
  erewrite (scrap_run env time_diff' specific_date' keyword' scrapsub' sender'
              None mb); [| exact Hmb | exact Hcrit'].
  rewrite (scrap_run env time_diff' specific_date' keyword' scrapsub' sender'
             None mb st Hmb Hcrit').
  reflexivity.
Qed.

(** X9: the time window.  For a message with a naive date, [time_diff]
    keeps it exactly when its age [now - msg.date] does not exceed the window
    (an age equal to the window is kept); a zero [time_diff] is falsy and
    switches the window off, for every message.  For a message with an aware
    date, a non-zero [time_diff] neither keeps nor skips it: the subtraction
    raises a [TypeError], whatever the other filters are, and nothing has
    changed when it does. *)
Theorem time_window_filter d msg st :
  (d = 0 \/ (tzinfo (date msg) = None /\ clock st - wall (date msg) <= d) ->
   scan_message (Some d) None None msg st
   = scan_message None None None msg st)
  /\ (tzinfo (date msg) = None -> d <> 0 -> d < clock st - wall (date msg) ->
      scan_message (Some d) None None msg st = (Returns tt, st))
  /\ (is_some (tzinfo (date msg)) = true -> d <> 0 ->
      forall specific_date keyword,
        scan_message (Some d) specific_date keyword msg st
        = (Raises (TypeError
                     "can't subtract offset-naive and offset-aware datetimes"),
           st))
  /\ soups (snd (scan_message None None None msg st))
     = soups st ++ [soup_of msg].
Proof.
  split; [|split; [|split]].
  - rewrite !scan_message_run. unfold kept_soups, message_kept, breaks.
    cbn [List.filter too_old other_day lacks_keyword negb andb map].
    intros [->|[Hnaive Hle]]; [reflexivity|].
    rewrite Hnaive. cbn [is_some]. rewrite andb_false_r.
    destruct (Z.ltb_spec d (clock st - wall (date msg))); [lia|].
    rewrite andb_false_r. reflexivity.
  - rewrite !scan_message_run. unfold kept_soups, message_kept, breaks.
    cbn [List.filter too_old other_day lacks_keyword negb andb map].
    intros Hnaive Hne Hlt. rewrite Hnaive. cbn [is_some].
    rewrite andb_false_r.
    destruct (Z.eqb_spec d 0); [contradiction|].
    destruct (Z.ltb_spec d (clock st - wall (date msg))); [|lia].
    cbn [negb andb map]. rewrite advanced_nil. reflexivity.
  - intros Haware Hne specific_date keyword.
    rewrite scan_message_run. unfold breaks. rewrite Haware.
    destruct (Z.eqb_spec d 0); [contradiction | reflexivity].
  - rewrite scan_message_run. reflexivity.
Qed.

(** X10: the HTML part is consulted only when the text part is empty.  For a
    message with a non-empty [msg.text] at which the time-window test does
    not raise, a keyword that does not occur in the text excludes the message
    even if it occurs in [msg.html], and a kept message is parsed from its
    text. *)
Theorem text_part_hides_html time_diff specific_date k msg st :
  text msg <> "" ->
  breaks time_diff msg = false ->
  (~ PyStr.occurs_in k (text msg) ->
   scan_message time_diff specific_date (Some k) msg st = (Returns tt, st))
  /\ (PyStr.occurs_in k (text msg) ->
      too_old time_diff (clock st) msg = false ->
      other_day specific_date msg = false ->
      soups (snd (scan_message time_diff specific_date (Some k) msg st))
      = soups st ++ [BeautifulSoup (text msg) "lxml"]).
Proof.
  intros Htext Hb.
  assert (Hbody : body_of msg = text msg).
  { unfold body_of, PyStr.or_else.
    destruct (String.eqb_spec (text msg) ""); [contradiction | reflexivity]. }
  rewrite !scan_message_run, Hb. unfold kept_soups, message_kept, soup_of.
  cbn [List.filter lacks_keyword]. rewrite Hbody.
  split.
  - intros Hno. destruct (String.eqb_spec k "") as [->|Hk].
    + exfalso. apply Hno. exists "", (text msg). reflexivity.
    + destruct (PyStr.contains k (text msg)) eqn:Hc.
      * exfalso. apply Hno, contains_iff, Hc.
      * cbn [negb andb]. rewrite andb_false_r. cbn [map].
        rewrite advanced_nil. reflexivity.
  - intros Hocc Hold Hday. rewrite Hold, Hday.
    apply contains_iff in Hocc. rewrite Hocc.
    rewrite andb_false_r. cbn [negb andb map snd soups advanced].
    rewrite Hbody. reflexivity.
Qed.

Lemma scrap_filters_are_local_witness :
  List.filter is_network
    (trace (snd (scrap Mock.session (Some "Invoice") None (Some "refund") None
                   (Some 300) None logged_in)))
  = List.filter is_network
      (trace (snd (scrap Mock.session (Some "Invoice") None None None None
                     (Some 86400) logged_in))).
Proof.
  apply (scrap_filters_are_local Mock.session logged_in
           (MailBox "imap.gmail.com") (Some "Invoice") None None
           (Some "refund") (Some 300) None None None (Some 86400));
    [reflexivity | reflexivity |].
  intros g m _. unfold Mock.session. cbn [fetch].
  destruct (String.eqb g "INBOX").
  { intros [<-|[<-|[]]]; reflexivity. }
  destruct (String.eqb g "Archive"). { intros [<-|[]]; reflexivity. }
  destruct (String.eqb g "JUNK"); intros [].
Defined.

Lemma scrap_results_do_not_accumulate_witness :
  fst (scrap Mock.session None (Some "billing@example.com") (Some "refund")
         None None None
         (snd (scrap Mock.session (Some "Invoice") None None None None None
                 logged_in)))
  = fst (scrap Mock.session None (Some "billing@example.com") (Some "refund")
           None None None logged_in).
Proof.
  apply (scrap_results_do_not_accumulate Mock.session logged_in
           (MailBox "imap.gmail.com") (Some "Invoice") None None None None None
           None (Some "billing@example.com") (Some "refund") None None);
    reflexivity.
Defined.

Lemma time_window_filter_witness :
  scan_message (Some 300) None None Mock.invoice
    (at_time 1300 logged_in)
  = scan_message None None None Mock.invoice (at_time 1300 logged_in)
  /\ scan_message (Some 300) None None Mock.invoice
       (at_time 1301 logged_in)
     = (Returns tt, at_time 1301 logged_in)
  /\ scan_message (Some 300) None None Scenario.zoned_invoice
       (at_time 1300 logged_in)
     = (Raises (TypeError
                  "can't subtract offset-naive and offset-aware datetimes"),
        at_time 1300 logged_in).
Proof.
  split; [|split].
  - apply (time_window_filter 300 Mock.invoice (at_time 1300 logged_in)).
    right. split; [reflexivity|]. vm_compute. discriminate.
  - apply (time_window_filter 300 Mock.invoice (at_time 1301 logged_in)).
    + reflexivity.
    + discriminate.
    + reflexivity.
  - apply (time_window_filter 300 Scenario.zoned_invoice
             (at_time 1300 logged_in)).
    + reflexivity.
    + discriminate.
Defined.

Lemma text_part_hides_html_witness :
  PyStr.occurs_in "invoice" (html Scenario.two_part)
  /\ scan_message None None (Some "invoice") Scenario.two_part logged_in
     = (Returns tt, logged_in).
Proof.
  split.
  - apply contains_iff. reflexivity.
  - apply (text_part_hides_html None None "invoice" Scenario.two_part logged_in).
    + discriminate.
    + reflexivity.
    + intros H. apply contains_iff in H. discriminate.
Defined.

(* ===================================================================== *)
(** ** Further properties: the proxy stack *)
(* ===================================================================== *)

(** A non-[Exception] ends the retry loop at once, unwrapped. *)
Lemma retrying_passes {A} fn more wait (op : M A) st e st' :
  op (logged (EvAttempt fn) st) = (Raises e, st') ->
  is_Exception e = false ->
  retrying fn more wait op st = (Raises e, st').
Proof.
  intros H He. rewrite retrying_run.
  unfold mbind, M_bind, emit, try_except. fold (logged (EvAttempt fn) st).
  rewrite H, He. reflexivity.
Qed.

(** The run of the [MailBoxProxy] constructor through a healthy proxy. *)
Lemma MailBoxProxy_init_healthy_run
    env host p_proxy_type p_proxy_addr p_proxy_port p_proxy_username
    p_proxy_password p_timeout code st :
  PROXY_TYPES !! PyStr.lower p_proxy_type = Some code ->
  (forall c, create_connection env (connect_attempts (trace st)) c = None) ->
  (forall h, wrap_socket env (connect_attempts (trace st)) h = None) ->
  imap_greeting env host = None ->
  exists mb client,
    MailBoxProxy_init env host p_proxy_type p_proxy_addr p_proxy_port
      p_proxy_username p_proxy_password p_timeout st
    = (Returns (ProxiedMailBox mb client),
       after_proxy_connect
         (proxy_call host code p_proxy_addr p_proxy_port p_proxy_username
            p_proxy_password)
         (if HAS_SNI env then Some host else None) host st)
    /\ s_sock client
       = Some (TlsSocket
                 (ProxiedSocket
                    (proxy_call host code p_proxy_addr p_proxy_port
                       p_proxy_username p_proxy_password))
                 (if HAS_SNI env then Some host else None)).
Proof.
  intros Hcode Hconn Hwrap Hgreet.
  eexists. eexists. split.
  - unfold MailBoxProxy_init. erewrite bind_returns; [reflexivity|].
    unfold MailBoxProxy_get_mailbox_client, retry. apply retrying_returns.
    unfold SocksIMAP4SSL_init, SocksIMAP4_init.
    cbn [is_some andb _ssl_context _keyfile _certfile _p_proxy_type _host
         _port _p_proxy_addr _p_proxy_port _p_proxy_rdns _p_proxy_username
         _p_proxy_password _p_timeout].
    rewrite Hcode. unfold IMAP4_init. erewrite bind_returns.
    2: { unfold SocksIMAP4SSL_open, retry. apply retrying_returns.
         unfold IMAP4_open. erewrite bind_returns; [reflexivity|].
         unfold SocksIMAP4SSL_create_socket, retry. apply retrying_returns.
         erewrite bind_returns.
         2: { unfold SocksIMAP4_create_socket, retry. apply retrying_returns.
              rewrite socks_create_connection_run. count_connects.
              rewrite Hconn. reflexivity. }
         rewrite ssl_wrap_socket_run. count_connects.
         cbn [Nat.sub]. rewrite Nat.sub_0_r, Hwrap. reflexivity. }
    rewrite bind_run. unfold emit at 1. rewrite Hgreet. reflexivity.
  - reflexivity.
Qed.

(** X11: building a [MailBoxProxy] through a healthy proxy makes exactly one
    connection, one TLS handshake and one greeting exchange, with no sleep.
    The connection goes to [host] on port 993 through the given proxy address,
    port and credentials, with remote DNS and the code that [PROXY_TYPES]
    holds for [p_proxy_type] (in any letter case); its timeout is 10 whatever
    [p_timeout] is.  The handshake names [host] as server name when the TLS
    library has SNI and no name otherwise. *)
Theorem MailBoxProxy_init_healthy
    env host p_proxy_type p_proxy_addr p_proxy_port p_proxy_username
    p_proxy_password p_timeout code st :
  PROXY_TYPES !! PyStr.lower p_proxy_type = Some code ->
  (forall c, create_connection env (connect_attempts (trace st)) c = None) ->
  (forall h, wrap_socket env (connect_attempts (trace st)) h = None) ->
  imap_greeting env host = None ->
  exists mb client st',
    MailBoxProxy_init env host p_proxy_type p_proxy_addr p_proxy_port
      p_proxy_username p_proxy_password p_timeout st
    = (Returns (ProxiedMailBox mb client), st')
    /\ s_sock client
       = Some (TlsSocket
                 (ProxiedSocket
                    {| cc_host := host; cc_port := 993; cc_proxy_type := code;
                       cc_proxy_addr := p_proxy_addr;
                       cc_proxy_port := p_proxy_port; cc_proxy_rdns := true;
                       cc_proxy_username := p_proxy_username;
                       cc_proxy_password := p_proxy_password;
                       cc_timeout := 10 |})
                 (if HAS_SNI env then Some host else None))
    /\ trace st' = trace st ++
         [ EvAttempt "MailBoxProxy._get_mailbox_client";
           EvAttempt "SocksIMAP4SSL.open";
           EvAttempt "SocksIMAP4SSL._create_socket";
           EvAttempt "SocksIMAP4._create_socket";
           EvCreateConnection
             {| cc_host := host; cc_port := 993; cc_proxy_type := code;
                cc_proxy_addr := p_proxy_addr;
                cc_proxy_port := p_proxy_port; cc_proxy_rdns := true;
                cc_proxy_username := p_proxy_username;
                cc_proxy_password := p_proxy_password; cc_timeout := 10 |};
           EvWrapSocket (if HAS_SNI env then Some host else None);
           EvGreeting host ]
    /\ clock st' = clock st.
Proof.
  intros Hcode Hconn Hwrap Hgreet.
  destruct (MailBoxProxy_init_healthy_run env host p_proxy_type p_proxy_addr
              p_proxy_port p_proxy_username p_proxy_password p_timeout code st
              Hcode Hconn Hwrap Hgreet) as [mb [client [Hrun Hsock]]].
  exists mb, client. eexists. split; [exact Hrun|].
  split; [exact Hsock|]. split; [|reflexivity].
  unfold after_proxy_connect. cbn [trace logged]. rewrite <- !app_assoc.
  reflexivity.
Qed.

Lemma MailBoxProxy_init_healthy_witness :
  exists mb client st',
    MailBoxProxy_init Mock.reachable "imap.rambler.ru" "Socks5"
      (Some "10.0.0.1") (Some 12323) (Some "useruh") (Some "passruh")
      (Some 30) (Mock.start ∅)
    = (Returns (ProxiedMailBox mb client), st')
    /\ s_sock client
       = Some (TlsSocket
                 (ProxiedSocket
                    {| cc_host := "imap.rambler.ru"; cc_port := 993;
                       cc_proxy_type := socks.SOCKS5;
                       cc_proxy_addr := Some "10.0.0.1";
                       cc_proxy_port := Some 12323; cc_proxy_rdns := true;
                       cc_proxy_username := Some "useruh";
                       cc_proxy_password := Some "passruh";
                       cc_timeout := 10 |})
                 (if HAS_SNI Mock.reachable then Some "imap.rambler.ru"
                  else None))
    /\ trace st' = trace (Mock.start ∅) ++
         [ EvAttempt "MailBoxProxy._get_mailbox_client";
           EvAttempt "SocksIMAP4SSL.open";
           EvAttempt "SocksIMAP4SSL._create_socket";
           EvAttempt "SocksIMAP4._create_socket";
           EvCreateConnection
             {| cc_host := "imap.rambler.ru"; cc_port := 993;
                cc_proxy_type := socks.SOCKS5;
                cc_proxy_addr := Some "10.0.0.1";
                cc_proxy_port := Some 12323; cc_proxy_rdns := true;
                cc_proxy_username := Some "useruh";
                cc_proxy_password := Some "passruh"; cc_timeout := 10 |};
           EvWrapSocket (if HAS_SNI Mock.reachable then Some "imap.rambler.ru"
                         else None);
           EvGreeting "imap.rambler.ru" ]
    /\ clock st' = clock (Mock.start ∅).
Proof.
  apply (MailBoxProxy_init_healthy Mock.reachable "imap.rambler.ru" "Socks5"
           (Some "10.0.0.1") (Some 12323) (Some "useruh") (Some "passruh")
           (Some 30) socks.SOCKS5 (Mock.start ∅)).
  - vm_compute. reflexivity.
  - intros c. reflexivity.
  - intros h. reflexivity.
  - reflexivity.
Defined.

(** X12: a [p_proxy_type] whose lower case is not ['socks4'], ['socks5'] or
    ['http'] makes [SocksIMAP4.__init__] raise a [KeyError] before any network
    call (its key is the lower-cased type); [_get_mailbox_client] retries even
    that, so the [MailBoxProxy] constructor spends two waits of three seconds
    and raises a [RetryError] around the [KeyError]. *)
Theorem MailBoxProxy_init_unknown_proxy_type
    env host p_proxy_type p_proxy_addr p_proxy_port p_proxy_username
    p_proxy_password p_timeout st :
  PROXY_TYPES !! PyStr.lower p_proxy_type = None ->
  exists key st',
    MailBoxProxy_init env host p_proxy_type p_proxy_addr p_proxy_port
      p_proxy_username p_proxy_password p_timeout st
    = (Raises (RetryError (KeyError key)), st')
    /\ (PyStr.isascii p_proxy_type = true -> key = PyStr.lower p_proxy_type)
    /\ trace st' = trace st ++
         [ EvAttempt "MailBoxProxy._get_mailbox_client"; EvSleep 3;
           EvAttempt "MailBoxProxy._get_mailbox_client"; EvSleep 3;
           EvAttempt "MailBoxProxy._get_mailbox_client" ]
    /\ clock st' = clock st + 6
    /\ network_calls (trace st') = network_calls (trace st).
Proof.
  intros Hcode.
  assert (Hinit : forall s,
    SocksIMAP4SSL_init env host 993 None None None p_proxy_addr p_proxy_port
      true p_proxy_username p_proxy_password p_proxy_type p_timeout s
    = (Raises (KeyError (PyStr.lower p_proxy_type)), s)).
  { intros s. unfold SocksIMAP4SSL_init, SocksIMAP4_init. cbn [is_some andb].
    rewrite Hcode. reflexivity. }
  exists (PyStr.lower p_proxy_type).
  eexists. split; [|split; [|split; [|split]]].
  - unfold MailBoxProxy_init. apply bind_raises.
    unfold MailBoxProxy_get_mailbox_client, retry. cbn [Nat.sub].
    cbn [_ssl_context _keyfile _certfile _p_proxy_type _host _port
         _p_proxy_addr _p_proxy_port _p_proxy_rdns _p_proxy_username
         _p_proxy_password _p_timeout].
    erewrite retrying_again; [| apply Hinit | reflexivity].
    erewrite retrying_again; [| apply Hinit | reflexivity].
    eapply retrying_exhausted; [apply Hinit | reflexivity].
  - reflexivity.
  - cbn [trace logged slept]. rewrite <- !app_assoc. reflexivity.
  - cbn [clock logged slept]. lia.
  - cbn [trace logged slept]. rewrite !network_calls_app. cbn. lia.
Qed.

Lemma MailBoxProxy_init_unknown_proxy_type_witness :
  exists key st',
    MailBoxProxy_init Mock.reachable "imap.gmail.com" "https" (Some "10.0.0.1")
      (Some 8080) None None None (Mock.start ∅)
    = (Raises (RetryError (KeyError key)), st')
    /\ (PyStr.isascii "https" = true -> key = PyStr.lower "https")
    /\ trace st' = trace (Mock.start ∅) ++
         [ EvAttempt "MailBoxProxy._get_mailbox_client"; EvSleep 3;
           EvAttempt "MailBoxProxy._get_mailbox_client"; EvSleep 3;
           EvAttempt "MailBoxProxy._get_mailbox_client" ]
    /\ clock st' = clock (Mock.start ∅) + 6
    /\ network_calls (trace st') = network_calls (trace (Mock.start ∅)).
Proof.
  apply (MailBoxProxy_init_unknown_proxy_type Mock.reachable "imap.gmail.com"
           "https" (Some "10.0.0.1") (Some 8080) None None None (Mock.start ∅)).
  vm_compute. reflexivity.
Defined.

Section HandshakeFails.
Context (env : Env) (err : nat -> exn).
Hypothesis connects : forall n c, create_connection env n c = None.
Hypothesis handshake_fails : forall n h, wrap_socket env n h = Some (err n).
Hypothesis err_Exception : forall n, is_Exception (err n) = true.

(** One attempt of [SocksIMAP4SSL._create_socket]: a fresh connection, then
    the failing handshake. *)
Lemma ssl_attempt_fails self timeout :
  fails_adding 1 0 err
    (sock ← SocksIMAP4_create_socket env self timeout;
     ssl_wrap_socket env sock
       (if HAS_SNI env then Some (s_host self) else None)).
Proof.
  intros st. eexists. split; [|split].
  - erewrite bind_returns.
    2: { unfold SocksIMAP4_create_socket, retry. apply retrying_returns.
         rewrite socks_create_connection_run, connects. reflexivity. }
    rewrite ssl_wrap_socket_run, handshake_fails. count_connects.
    replace (S (connect_attempts (trace st)) - 1)%nat
      with (connect_attempts (trace st)) by lia.
    reflexivity.
  - count_connects. lia.
  - cbn [clock logged]. lia.
Qed.

Lemma SocksIMAP4SSL_create_socket_handshake_fails self timeout :
  fails_adding 3 6 (fun n => wrapped 1 (err (n + 2)%nat))
    (SocksIMAP4SSL_create_socket env self timeout).
Proof.
  apply (fails_retry _ 1 0 err); [exact err_Exception|].
  apply ssl_attempt_fails.
Qed.

Lemma MailBoxProxy_init_handshake_fails host p_proxy_type p_proxy_addr
    p_proxy_port p_proxy_username p_proxy_password p_timeout code :
  PROXY_TYPES !! PyStr.lower p_proxy_type = Some code ->
  fails_adding 27 78 (fun n => wrapped 3 (err (n + 26)%nat))
    (MailBoxProxy_init env host p_proxy_type p_proxy_addr p_proxy_port
       p_proxy_username p_proxy_password p_timeout).
Proof.
  intros Hcode.
  assert (Hopen : forall self h p t,
            fails_adding 9 24 (fun n => wrapped 2 (err (n + 8)%nat))
              (SocksIMAP4SSL_open env self h p t)).
  { intros self h p t st.
    destruct (fails_retry "SocksIMAP4SSL.open" 3 6
                (fun n => wrapped 1 (err (n + 2)%nat))
                (IMAP4_open env self h p t)
                (fun n => eq_refl)
                (fails_bind _ _ _ _ _
                   (SocksIMAP4SSL_create_socket_handshake_fails _ t)) st)
      as [st' [Hrun Hrest]].
    exists st'. split; [|exact Hrest].
    unfold SocksIMAP4SSL_open. rewrite Hrun. cbn beta.
    replace (connect_attempts (trace st) + 2 * 3 + 2)%nat
      with (connect_attempts (trace st) + 8)%nat by lia.
    reflexivity. }
  intros st. unfold MailBoxProxy_init.
  destruct (fails_retry "MailBoxProxy._get_mailbox_client" 9 24
              (fun n => wrapped 2 (err (n + 8)%nat))
              (SocksIMAP4SSL_init env host 993 None None None p_proxy_addr
                 p_proxy_port true p_proxy_username p_proxy_password
                 p_proxy_type p_timeout)
              (fun n => eq_refl)) with (st := st)
    as [st' [Hrun Hrest]].
  { unfold SocksIMAP4SSL_init, SocksIMAP4_init. rewrite Hcode.
    cbn [is_some andb]. unfold IMAP4_init.
    apply fails_bind, Hopen. }
  exists st'. split; [|exact Hrest].
  apply bind_raises. unfold MailBoxProxy_get_mailbox_client.
  cbn [_ssl_context _keyfile _certfile _p_proxy_type _host _port
       _p_proxy_addr _p_proxy_port _p_proxy_rdns _p_proxy_username
       _p_proxy_password _p_timeout].
  rewrite Hrun. cbn beta.
  replace (connect_attempts (trace st) + 2 * 9 + 8)%nat
    with (connect_attempts (trace st) + 26)%nat by lia.
  reflexivity.
Qed.

End HandshakeFails.

(** X13: a failing TLS handshake is retried together with the connection
    under it.  When the proxy accepts every connection and every handshake
    fails, [SocksIMAP4SSL._create_socket] opens 3 proxy connections (one per
    attempt, none of them reused) before raising a [RetryError] around the
    last handshake error, and building the [MailBoxProxy] opens 27 and sleeps
    78 seconds. *)
Theorem handshake_failure_reopens_connection
    env err self timeout host p_proxy_type p_proxy_addr p_proxy_port
    p_proxy_username p_proxy_password p_timeout code st :
  (forall n c, create_connection env n c = None) ->
  (forall n h, wrap_socket env n h = Some (err n)) ->
  (forall n, is_Exception (err n) = true) ->
  PROXY_TYPES !! PyStr.lower p_proxy_type = Some code ->
  (exists st',
     SocksIMAP4SSL_create_socket env self timeout st
     = (Raises (RetryError (err (connect_attempts (trace st) + 2)%nat)), st')
     /\ connect_attempts (trace st') = (connect_attempts (trace st) + 3)%nat
     /\ clock st' = clock st + 6)
  /\ (exists st',
        MailBoxProxy_init env host p_proxy_type p_proxy_addr p_proxy_port
          p_proxy_username p_proxy_password p_timeout st
        = (Raises (wrapped 3 (err (connect_attempts (trace st) + 26)%nat)), st')
        /\ connect_attempts (trace st') = (connect_attempts (trace st) + 27)%nat
        /\ clock st' = clock st + 78).
Proof.
  intros Hconn Hwrap Herr Hcode. split.
  - apply (SocksIMAP4SSL_create_socket_handshake_fails env err Hconn Hwrap
             Herr self timeout st).
  - apply (MailBoxProxy_init_handshake_fails env err Hconn Hwrap Herr host
             p_proxy_type p_proxy_addr p_proxy_port p_proxy_username
             p_proxy_password p_timeout code Hcode st).
Qed.

Lemma handshake_failure_reopens_connection_witness :
  (exists st',
     SocksIMAP4SSL_create_socket Scenario.handshake_fails Mock.client (Some 10)
       (Mock.start ∅)
     = (Raises (RetryError
                  (Scenario.bad_handshake
                     (connect_attempts (trace (Mock.start ∅)) + 2)%nat)), st')
     /\ connect_attempts (trace st')
        = (connect_attempts (trace (Mock.start ∅)) + 3)%nat
     /\ clock st' = clock (Mock.start ∅) + 6)
  /\ (exists st',
        MailBoxProxy_init Scenario.handshake_fails "imap.gmail.com" "HTTP"
          (Some "10.0.0.1") (Some 8080) None None (Some 10) (Mock.start ∅)
        = (Raises (wrapped 3
                     (Scenario.bad_handshake
                        (connect_attempts (trace (Mock.start ∅)) + 26)%nat)),
           st')
        /\ connect_attempts (trace st')
           = (connect_attempts (trace (Mock.start ∅)) + 27)%nat
        /\ clock st' = clock (Mock.start ∅) + 78).
Proof.
  apply (handshake_failure_reopens_connection Scenario.handshake_fails
           Scenario.bad_handshake Mock.client (Some 10) "imap.gmail.com" "HTTP"
           (Some "10.0.0.1") (Some 8080) None None (Some 10) socks.HTTP
           (Mock.start ∅)).
  - intros n c. reflexivity.
  - intros n h. reflexivity.
  - intros n. reflexivity.
  - vm_compute. reflexivity.
Defined.

(** X14: a [BaseException] that is not an [Exception] (a [KeyboardInterrupt])
    raised while the connection is opened is neither retried nor wrapped nor
    caught: through a proxy it leaves the [MailBoxProxy] constructor as it is
    after a single connection attempt and no sleep, and on a direct connection
    it leaves [connect_and_login] unchanged, the instance untouched. *)
Theorem interrupt_is_not_retried
    env e host p_proxy_type p_proxy_addr p_proxy_port p_proxy_username
    p_proxy_password p_timeout code st :
  is_Exception e = false ->
  PROXY_TYPES !! PyStr.lower p_proxy_type = Some code ->
  ((forall c, create_connection env (connect_attempts (trace st)) c = Some e) ->
   exists st',
     MailBoxProxy_init env host p_proxy_type p_proxy_addr p_proxy_port
       p_proxy_username p_proxy_password p_timeout st
     = (Raises e, st')
     /\ connect_attempts (trace st') = S (connect_attempts (trace st))
     /\ sleeps (trace st') = sleeps (trace st)
     /\ clock st' = clock st)
  /\ (forall p,
        proxy (self st) = None ->
        provider_of (u (self st)) = Some p ->
        direct_connect env p = Some e ->
        exists st',
          connect_and_login env st = (Raises e, st')
          /\ self st' = self st
          /\ trace st' = trace st ++
               [EvAttempt "connect_and_login"; EvDirectConnect p]).
Proof.
  intros He Hcode. split.
  - intros Hconn. eexists. split; [|split; [|split]].
    + unfold MailBoxProxy_init. apply bind_raises.
      unfold MailBoxProxy_get_mailbox_client, retry.
      apply retrying_passes; [|exact He].
      unfold SocksIMAP4SSL_init, SocksIMAP4_init.
      cbn [is_some andb _ssl_context _keyfile _certfile _p_proxy_type _host
           _port _p_proxy_addr _p_proxy_port _p_proxy_rdns _p_proxy_username
           _p_proxy_password _p_timeout].
      rewrite Hcode. unfold IMAP4_init. apply bind_raises.
      unfold SocksIMAP4SSL_open, retry. apply retrying_passes; [|exact He].
      unfold IMAP4_open. apply bind_raises.
      unfold SocksIMAP4SSL_create_socket, retry.
      apply retrying_passes; [|exact He]. apply bind_raises.
      unfold SocksIMAP4_create_socket, retry.
      apply retrying_passes; [|exact He].
      rewrite socks_create_connection_run. count_connects.
      rewrite Hconn. reflexivity.
    + count_connects. reflexivity.
    + cbn [trace logged]. unfold sleeps.
      rewrite !List.filter_app, !length_app. cbn. lia.
    + reflexivity.
  - intros p Hproxy Hprov Hdc.
    destruct (provider_of_Some _ _ Hprov) as [Hat Hp].
    assert (Hmle : is_MailboxLoginError e = false)
      by (destruct e; try discriminate; reflexivity).
    eexists. split; [|split].
    + rewrite connect_and_login_once. unfold connect_and_login_body.
      unfold_prims. simp_state. rewrite Hat, Hp, Hproxy, Hdc.
      simp_state. rewrite Hmle, He. reflexivity.
    + reflexivity.
    + simp_state. rewrite <- !app_assoc. reflexivity.
Qed.

Lemma interrupt_is_not_retried_witness :
  (exists st',
     MailBoxProxy_init Scenario.interrupted "imap.gmail.com" "HTTP"
       (Some "10.0.0.1") (Some 8080) None None (Some 10) (Mock.start ∅)
     = (Raises KeyboardInterrupt, st')
     /\ connect_attempts (trace st')
        = S (connect_attempts (trace (Mock.start ∅)))
     /\ sleeps (trace st') = sleeps (trace (Mock.start ∅))
     /\ clock st' = clock (Mock.start ∅)).
Proof.
  apply (interrupt_is_not_retried Scenario.interrupted KeyboardInterrupt
           "imap.gmail.com" "HTTP" (Some "10.0.0.1") (Some 8080) None None
           (Some 10) socks.HTTP (Mock.start ∅)).
  - reflexivity.
  - vm_compute. reflexivity.
  - intros c. reflexivity.
Defined.

(* ===================================================================== *)
(** ** Further properties: logging in through a proxy *)
(* ===================================================================== *)

Lemma translate_proxy_type_run_str l c s st :
  heap st !! l = Some c ->
  proxy_type c = PTStr s ->
  translate_proxy_type l st
  = (Returns tt,
     with_heap
       (<[l := set_proxy_type (translated_type (PTStr s)) c]> (heap st)) st).
Proof.
  intros Hl Hty. unfold translate_proxy_type. rewrite bind_run.
  unfold deref at 1. rewrite Hl, Hty. cbn [translated_type].
  destruct (String.eqb (PyStr.upper s) "HTTP").
  - unfold assign_proxy_type, deref, mbind, M_bind, get_state, set_heap.
    rewrite Hl. reflexivity.
  - destruct (String.eqb (PyStr.upper s) "SOCKS5").
    + unfold assign_proxy_type, deref, mbind, M_bind, get_state, set_heap.
      rewrite Hl. reflexivity.
    + rewrite <- Hty, set_proxy_type_same, (insert_id _ _ _ Hl).
      destruct st. reflexivity.
Qed.

(** X15: logging in through a healthy proxy.  Whatever string the
    [ProxyConfig] holds as [proxy_type] (it is not checked against ['HTTP'] and
    ['SOCKS5']: any other string is let through untranslated),
    [connect_and_login] makes one attempt and one proxy connection, to the
    provider's host on port 993, through the configured proxy address and
    port with the configured username and password, as an HTTP tunnel with a
    10 second timeout; it then logs in, selects INBOX, sets [login_status] and
    returns [True]. *)
Theorem connect_and_login_through_proxy env st l c s p :
  proxy (self st) = Some l ->
  heap st !! l = Some c ->
  proxy_type c = PTStr s ->
  provider_of (u (self st)) = Some p ->
  (forall call, create_connection env (connect_attempts (trace st)) call = None) ->
  (forall h, wrap_socket env (connect_attempts (trace st)) h = None) ->
  imap_greeting env p = None ->
  imap_login env (u (self st)) (pw (self st)) = None ->
  folder_set env "INBOX" = SetReturns true ->
  exists st',
    connect_and_login env st = (Returns (Some true), st')
    /\ login_status (self st') = true
    /\ is_some (mailbox (self st')) = true
    /\ heap st' = <[l := set_proxy_type (translated_type (PTStr s)) c]> (heap st)
    /\ clock st' = clock st
    /\ trace st' = trace st ++
         [ EvAttempt "connect_and_login";
           EvAttempt "MailBoxProxy._get_mailbox_client";
           EvAttempt "SocksIMAP4SSL.open";
           EvAttempt "SocksIMAP4SSL._create_socket";
           EvAttempt "SocksIMAP4._create_socket";
           EvCreateConnection
             (proxy_call p socks.HTTP (Some (proxy_addr c))
                (Some (proxy_port c)) (proxy_username c) (proxy_password c));
           EvWrapSocket (if HAS_SNI env then Some p else None);
           EvGreeting p;
           EvLogin (u (self st)) (pw (self st));
           EvSelect "INBOX";
           EvLog (LogInfo (String.append "Successful login on " (u (self st)))) ].
Proof.
  intros Hproxy Hl Hty Hprov Hconn Hwrap Hgreet Hlogin Hsel.
  destruct (provider_of_Some _ _ Hprov) as [Hat Hp].
  set (s0 := logged (EvAttempt "connect_and_login") st).
  set (c' := set_proxy_type (translated_type (PTStr s)) c).
  set (s1 := with_heap (<[l := c']> (heap st)) s0).
  assert (Htr : translate_proxy_type l s0 = (Returns tt, s1))
    by (apply (translate_proxy_type_run_str l c s s0 Hl Hty)).
  assert (Hde : deref l s1 = (Returns c', s1)).
  { unfold deref. subst s1. cbn [heap with_heap].
    rewrite lookup_insert_eq. reflexivity. }
  assert (Hn : connect_attempts (trace s1) = connect_attempts (trace st)).
  { subst s1 s0. cbn [trace with_heap]. count_connects. reflexivity. }
  destruct (MailBoxProxy_init_healthy_run env p "HTTP" (Some (proxy_addr c'))
              (Some (proxy_port c')) (proxy_username c') (proxy_password c')
              (timeout c') socks.HTTP s1 PROXY_TYPES_HTTP)
    as [mb [client [Hmb Hsock]]].
  { rewrite Hn. exact Hconn. }
  { rewrite Hn. exact Hwrap. }
  { exact Hgreet. }
  eexists. split; [|split; [|split; [|split; [|split]]]].
  - rewrite connect_and_login_once. fold s0. unfold connect_and_login_body.
    rewrite bind_run. unfold get_state at 1. subst s0. cbn [self logged].
    rewrite Hat, Hp, Hproxy.
    set (s0 := logged (EvAttempt "connect_and_login") st) in *.
    unfold try_except. erewrite bind_returns.
    2: { erewrite (bind_returns _ _ _ _ _ Htr).
         erewrite (bind_returns _ _ _ _ _ Hde).
         erewrite (bind_returns _ _ _ _ _ Hmb).
         apply assign_mailbox_run. }
    unfold_prims. simp_state. rewrite Hlogin, Hsel. reflexivity.
  - reflexivity.
  - reflexivity.
  - reflexivity.
  - reflexivity.
  - unfold after_proxy_connect. subst s1 s0 c'.
    cbn [trace logged with_heap after_proxy_connect proxy_addr proxy_port
         proxy_username proxy_password set_proxy_type].
    rewrite <- !app_assoc. reflexivity.
Qed.

Lemma connect_and_login_through_proxy_witness :
  exists st',
    connect_and_login Mock.reachable Scenario.odd_client
    = (Returns (Some true), st')
    /\ login_status (self st') = true
    /\ is_some (mailbox (self st')) = true
    /\ heap st'
       = <[0%nat := set_proxy_type (translated_type (PTStr "socks4"))
                      Scenario.odd_config]> (heap Scenario.odd_client)
    /\ clock st' = clock Scenario.odd_client
    /\ trace st' = trace Scenario.odd_client ++
         [ EvAttempt "connect_and_login";
           EvAttempt "MailBoxProxy._get_mailbox_client";
           EvAttempt "SocksIMAP4SSL.open";
           EvAttempt "SocksIMAP4SSL._create_socket";
           EvAttempt "SocksIMAP4._create_socket";
           EvCreateConnection
             (proxy_call "imap.gmail.com" socks.HTTP
                (Some (proxy_addr Scenario.odd_config))
                (Some (proxy_port Scenario.odd_config))
                (proxy_username Scenario.odd_config)
                (proxy_password Scenario.odd_config));
           EvWrapSocket (if HAS_SNI Mock.reachable then Some "imap.gmail.com"
                         else None);
           EvGreeting "imap.gmail.com";
           EvLogin (u (self Scenario.odd_client)) (pw (self Scenario.odd_client));
           EvSelect "INBOX";
           EvLog (LogInfo (String.append "Successful login on "
                             (u (self Scenario.odd_client)))) ].
Proof.
  apply (connect_and_login_through_proxy Mock.reachable Scenario.odd_client
           0%nat Scenario.odd_config "socks4" "imap.gmail.com");
    reflexivity.
Defined.

(* ===================================================================== *)
(** ** Further properties: one attempt per login *)
(* ===================================================================== *)

Section LoginEvents.
Context (env : Env).

Lemma login_event_stack fn : In fn stack_functions -> login_event (EvAttempt fn).
Proof. intros H. exact H. Qed.

Lemma MailBoxProxy_init_login_events host p_proxy_type p_proxy_addr
    p_proxy_port p_proxy_username p_proxy_password p_timeout :
  respects login_event
    (MailBoxProxy_init env host p_proxy_type p_proxy_addr p_proxy_port
       p_proxy_username p_proxy_password p_timeout).
Proof.
  assert (Hcs : forall self t,
            respects login_event (SocksIMAP4SSL_create_socket env self t)).
  { intros self t. unfold SocksIMAP4SSL_create_socket.
    apply respects_retry; [simpl; tauto | exact I |].
    apply respects_bind.
    - unfold SocksIMAP4_create_socket.
      apply respects_retry; [simpl; tauto | exact I |].
      apply respects_socks_create_connection. exact I.
    - intros sock. apply respects_ssl_wrap_socket. exact I. }
  unfold MailBoxProxy_init. apply respects_bind; [|intros c; apply respects_ret].
  unfold MailBoxProxy_get_mailbox_client.
  apply respects_retry; [simpl; tauto | exact I |].
  unfold SocksIMAP4SSL_init.
  cbn [is_some andb _ssl_context _keyfile _certfile _p_proxy_type _host
       _port _p_proxy_addr _p_proxy_port _p_proxy_rdns _p_proxy_username
       _p_proxy_password _p_timeout].
  unfold SocksIMAP4_init.
  destruct (PROXY_TYPES !! PyStr.lower p_proxy_type);
    [|apply respects_throw].
  unfold IMAP4_init. apply respects_bind.
  - unfold SocksIMAP4SSL_open.
    apply respects_retry; [simpl; tauto | exact I |].
    unfold IMAP4_open. apply respects_bind; [apply Hcs|].
    intros sock. apply respects_ret.
  - intros self. apply respects_bind; [apply respects_emit; exact I|].
    intros _. destruct (imap_greeting env host);
      [apply respects_throw | apply respects_ret].
Qed.

Lemma connect_and_login_body_login_events st :
  steps_to login_event (heap_after_login st) st
    (snd (connect_and_login_body env st)).
Proof.
  unfold connect_and_login_body. rewrite bind_run. unfold get_state at 1.
  unfold heap_after_login, provider_of.
  destruct (1 <? length (PyStr.split "@" (u (self st))))%nat eqn:Hat.
  2: { apply steps_to_same, steps_refl. }
  apply steps_to_try_except.
  - destruct (providers !! nth 1 (PyStr.split "@" (u (self st))) "")
      as [provider|] eqn:Hprov.
    + apply steps_to_bind.
      * destruct (proxy (self st)) as [l|].
        -- destruct (heap st !! l) as [c|] eqn:Hl.
           ++ apply steps_to_bind;
                [apply translate_proxy_type_steps; exact Hl | intros _].
              apply respects_bind; [apply respects_deref | intros c0].
              apply respects_bind;
                [apply MailBoxProxy_init_login_events
                | intros mb; apply respects_assign_mailbox].
           ++ rewrite bind_run. unfold translate_proxy_type.
              rewrite bind_run. unfold deref at 1. rewrite Hl.
              apply steps_to_same, steps_refl.
        -- apply steps_to_same.
           apply respects_bind; [|intros ?; apply respects_assign_mailbox].
           apply respects_MailBox_init. exact I.
      * intros _.
        apply respects_bind; [apply respects_mailbox_login; exact I | intros _].
        apply respects_bind;
          [apply respects_mailbox_folder_set; exact I | intros ok].
        destruct ok.
        -- apply respects_bind;
             [apply respects_emit; exact I | intros _].
           apply respects_bind;
             [apply respects_assign_login_status | intros _; apply respects_ret].
        -- apply respects_bind;
             [apply respects_emit; exact I | intros _].
           apply respects_bind;
             [apply respects_assign_login_status | intros _; apply respects_ret].
    + apply steps_to_same.
      apply respects_bind; [apply respects_emit; exact I | intros _].
      apply respects_bind;
        [apply respects_assign_login_status | intros _; apply respects_ret].
  - intros e k. destruct (is_MailboxLoginError e).
    + intros [= <-].
      apply respects_bind; [apply respects_emit; exact I | intros _].
      apply respects_bind;
        [apply respects_assign_login_status | intros _; apply respects_ret].
    + destruct (is_Exception e); [|discriminate]. intros [= <-].
      apply respects_bind;
        [apply respects_emit; exact I | intros _; apply respects_ret].
Qed.

Lemma attempts_of_login_events fn t :
  ~ In fn stack_functions -> Forall login_event t -> attempts_of fn t = 0%nat.
Proof.
  intros Hfn Ht. induction Ht as [|e t He Ht IH]; [reflexivity|].
  change (e :: t) with ([e] ++ t). rewrite attempts_of_app, IH.
  destruct e; try reflexivity.
  unfold attempts_of. cbn [List.filter is_attempt_of].
  destruct (String.eqb_spec fn fn0) as [->|Hne]; [|reflexivity].
  contradiction.
Qed.

(** The trace that a call of [connect_and_login] adds. *)
Lemma connect_and_login_adds st :
  exists t,
    trace (snd (connect_and_login env st))
    = trace st ++ EvAttempt "connect_and_login" :: t
    /\ Forall login_event t.
Proof.
  rewrite connect_and_login_once.
  destruct (connect_and_login_body_login_events
              (logged (EvAttempt "connect_and_login") st))
    as [_ [t [Ht HP]]].
  exists t. split; [|exact HP].
  rewrite Ht. cbn [trace logged]. rewrite <- app_assoc. reflexivity.
Qed.

End LoginEvents.

Lemma not_a_stack_function fn :
  fn = "connect_and_login" \/ fn = "scrap" -> ~ In fn stack_functions.
Proof. intros [->| ->]; simpl; intros H; intuition discriminate. Qed.

(** X16: the retry decorator of [connect_and_login] never fires.  In every
    environment and from every state a call makes exactly one attempt of
    [connect_and_login] (a rejected login or a failed connection is not
    tried again at this level), and if the call raises, what it raises is
    not an [Exception].  Apart from that attempt the call only produces
    events of connecting and logging in: it never searches or fetches, so it
    never changes a seen flag. *)
Theorem connect_and_login_is_attempted_once env st :
  attempts_of "connect_and_login" (trace (snd (connect_and_login env st)))
  = S (attempts_of "connect_and_login" (trace st))
  /\ (exists t,
        trace (snd (connect_and_login env st))
        = trace st ++ EvAttempt "connect_and_login" :: t
        /\ Forall login_event t)
  /\ (forall e st',
        connect_and_login env st = (Raises e, st') -> is_Exception e = false).
Proof.
  split; [|split].
  - destruct (connect_and_login_adds env st) as [t [Ht HP]].
    rewrite Ht. change (EvAttempt "connect_and_login" :: t)
      with ([EvAttempt "connect_and_login"] ++ t).
    rewrite !attempts_of_app,
      (attempts_of_login_events _ t
         (not_a_stack_function _ (or_introl eq_refl)) HP).
    cbn. lia.
  - apply connect_and_login_adds.
  - intros e st'. rewrite connect_and_login_once.
    apply connect_and_login_body_catches.
Qed.

Lemma connect_and_login_is_attempted_once_witness :
  attempts_of "connect_and_login"
    (trace (snd (connect_and_login Scenario.interrupted Mock.socks5_client)))
  = S (attempts_of "connect_and_login" (trace Mock.socks5_client))
  /\ is_Exception KeyboardInterrupt = false.
Proof.
  destruct (connect_and_login_is_attempted_once Scenario.interrupted
              Mock.socks5_client) as [Hone [_ Hraises]].
  split; [exact Hone|].
  apply (Hraises KeyboardInterrupt
           (snd (connect_and_login Scenario.interrupted Mock.socks5_client))).
  vm_compute. reflexivity.
Defined.

(* ===================================================================== *)
(** ** Further properties: the context manager *)
(* ===================================================================== *)

Lemma direct_login_run env s p :
  proxy (self s) = None ->
  provider_of (u (self s)) = Some p ->
  direct_connect env p = None ->
  imap_login env (u (self s)) (pw (self s)) = None ->
  folder_set env "INBOX" = SetReturns true ->
  connect_and_login env s
  = (Returns (Some true),
     {| heap := heap s;
        self := {| u := u (self s); pw := pw (self s);
                   mailbox := Some (MailBox p); login_status := true;
                   proxy := None |};
        soups := soups s; clock := clock s;
        trace := trace s ++ direct_login_events (u (self s)) (pw (self s)) p |}).
Proof.
  intros Hproxy Hprov Hdc Hlogin Hsel.
  destruct (provider_of_Some _ _ Hprov) as [Hat Hp].
  rewrite connect_and_login_once. unfold connect_and_login_body.
  unfold_prims. simp_state. rewrite Hat, Hp, Hproxy, Hdc.
  simp_state. rewrite Hlogin, Hsel. simp_state. rewrite Hproxy.
  unfold direct_login_events. rewrite <- !app_assoc. reflexivity.
Qed.

Lemma MailKit_init_attempts env user password proxy st s1 :
  MailKit_init env user password proxy st = (Returns tt, s1) ->
  attempts_of "connect_and_login" (trace s1)
  = S (attempts_of "connect_and_login" (trace st)).
Proof.
  unfold MailKit_init. intros H.
  apply bind_returns_inv in H as [[] [sa [Ha H]]].
  apply bind_returns_inv in H as [[] [sb [Hb H]]].
  apply bind_returns_inv in H as [[] [sc [Hc H]]].
  apply bind_returns_inv in H as [r [sd [Hd H]]].
  injection H as <-. injection Ha as <-. injection Hb as <-.
  assert (Hsc : attempts_of "connect_and_login" (trace sc)
                = attempts_of "connect_and_login" (trace st)).
  { destruct proxy as [l|].
    - apply bind_returns_inv in Hc as [c [se [He Hc]]].
      unfold deref in He. cbn [heap] in He.
      destruct (heap st !! l); [|discriminate]. injection He as <- <-.
      injection Hc as <-. cbn [trace]. rewrite !attempts_of_app. cbn. lia.
    - injection Hc as <-. cbn [trace]. rewrite !attempts_of_app. cbn. lia. }
  destruct (connect_and_login_adds env sc) as [t [Ht HP]].
  rewrite Hd in Ht. cbn [snd] in Ht. rewrite Ht.
  change (EvAttempt "connect_and_login" :: t)
    with ([EvAttempt "connect_and_login"] ++ t).
  rewrite !attempts_of_app,
    (attempts_of_login_events _ t
       (not_a_stack_function _ (or_introl eq_refl)) HP), Hsc.
  cbn. lia.
Qed.

(** X17: [__enter__] connects and logs in once more.  A [MailKit] that is
    built and then entered (as [with MailKit(...) as m:] does) has made two
    attempts of [connect_and_login] whenever both calls return; on a healthy
    direct connection that is two connections and two logins, the second
    replacing the mailbox of the first. *)
Theorem entering_connects_again env user password proxy st :
  (forall st',
     (MailKit_init env user password proxy;; MailKit_enter env) st
       = (Returns tt, st') ->
     attempts_of "connect_and_login" (trace st')
     = S (S (attempts_of "connect_and_login" (trace st))))
  /\ (forall p,
        proxy = None ->
        provider_of user = Some p ->
        direct_connect env p = None ->
        imap_login env user password = None ->
        folder_set env "INBOX" = SetReturns true ->
        exists st',
          (MailKit_init env user password proxy;; MailKit_enter env) st
            = (Returns tt, st')
          /\ trace st' = trace st ++
               EvLog (LogInfo "Initializing MailKit instance")
               :: direct_login_events user password p
               ++ direct_login_events user password p
          /\ login_status (self st') = true
          /\ mailbox (self st') = Some (MailBox p)).
Proof.
  split.
  - intros st' H. apply bind_returns_inv in H as [[] [s1 [Hinit Henter]]].
    rewrite <- (MailKit_init_attempts env user password proxy st s1 Hinit).
    unfold MailKit_enter in Henter.
    apply bind_returns_inv in Henter as [r [s2 [Hrun Hret]]].
    injection Hret as <-.
    destruct (connect_and_login_adds env s1) as [t [Ht HP]].
    rewrite Hrun in Ht. cbn [snd] in Ht. rewrite Ht.
    change (EvAttempt "connect_and_login" :: t)
      with ([EvAttempt "connect_and_login"] ++ t).
    rewrite !attempts_of_app,
      (attempts_of_login_events _ t
         (not_a_stack_function _ (or_introl eq_refl)) HP).
    cbn. lia.
  - intros p -> Hprov Hdc Hlogin Hsel.
    eexists. split; [|split; [|split]].
    + unfold MailKit_init, MailKit_enter.
      rewrite bind_run. erewrite (bind_returns (logger_info _));
        [|reflexivity].
      erewrite (bind_returns (set_self _)); [|reflexivity].
      erewrite (bind_returns (mret tt)); [|reflexivity].
      erewrite bind_returns.
      2: { apply (direct_login_run env _ p); simp_state;
           [reflexivity | exact Hprov | exact Hdc | exact Hlogin | exact Hsel]. }
      cbn [mret M_ret]. erewrite bind_returns; [reflexivity|].
      apply (direct_login_run env _ p); simp_state;
        [reflexivity | exact Hprov | exact Hdc | exact Hlogin | exact Hsel].
    + simp_state. rewrite <- !app_assoc. reflexivity.
    + reflexivity.
    + reflexivity.
Qed.

Lemma entering_connects_again_witness :
  exists st',
    (MailKit_init Mock.reachable "user@gmail.com" "secret" None;;
     MailKit_enter Mock.reachable) (Mock.start ∅)
    = (Returns tt, st')
    /\ trace st' = trace (Mock.start ∅) ++
         EvLog (LogInfo "Initializing MailKit instance")
         :: direct_login_events "user@gmail.com" "secret" "imap.gmail.com"
         ++ direct_login_events "user@gmail.com" "secret" "imap.gmail.com"
    /\ login_status (self st') = true
    /\ mailbox (self st') = Some (MailBox "imap.gmail.com").
Proof.
  apply (entering_connects_again Mock.reachable "user@gmail.com" "secret" None
           (Mock.start ∅)); reflexivity.
Defined.

(* ===================================================================== *)
(** ** Further properties: the command line *)
(* ===================================================================== *)

Lemma MailKit_init_direct_heap env user password st :
  heap (snd (MailKit_init env user password None st)) = heap st.
Proof.
  unfold MailKit_init.
  rewrite bind_run. unfold logger_info at 1. unfold emit at 1.
  rewrite bind_run. unfold set_self at 1.
  rewrite bind_run. unfold mret at 1. unfold M_ret at 1.
  rewrite bind_run.
  match goal with |- context [connect_and_login env ?s] =>
    pose proof (connect_and_login_steps env s) as [Hh _];
    destruct (connect_and_login env s) as [[r|e] s1] end.
  - unfold heap_after_login in Hh. cbn [self proxy heap snd u] in Hh.
    destruct (provider_of user); exact Hh.
  - unfold heap_after_login in Hh. cbn [self proxy heap snd u] in Hh.
    cbn [snd]. destruct (provider_of user); exact Hh.
Qed.

Lemma MailKit_init_raises env user password proxy st e st' :
  MailKit_init env user password proxy st = (Raises e, st') ->
  e = AttributeError "proxy" \/ is_Exception e = false.
Proof.
  unfold MailKit_init.
  rewrite bind_run. unfold logger_info at 1. unfold emit at 1.
  rewrite bind_run. unfold set_self at 1.
  rewrite bind_run.
  match goal with |- context [match ?m ?s with _ => _ end] =>
    destruct (m s) as [[[]|e0] s1] eqn:Hm end.
  - rewrite bind_run.
    destruct (connect_and_login env s1) as [[r|e1] s2] eqn:Hc.
    + discriminate.
    + intros [= <- <-]. right. revert Hc. rewrite connect_and_login_once.
      apply connect_and_login_body_catches.
  - intros [= <- <-]. left. destruct proxy as [l|]; [|discriminate].
    revert Hm. rewrite bind_run. unfold deref at 1. cbn [heap].
    destruct (heap st !! l); [discriminate|]. intros [= <- _]. reflexivity.
Qed.

Lemma MailKit_init_prefix env user password proxy st :
  exists t,
    Forall (fun e => is_attempt_of "scrap" e = false) t /\
    (MailKit_init env user password proxy st
     = (Raises (AttributeError "proxy"),
        {| heap := heap st;
           self := {| u := user; pw := password; mailbox := None;
                      login_status := false; proxy := proxy |};
           soups := soups st; clock := clock st;
           trace := trace st ++ t |})
     \/ MailKit_init env user password proxy st
        = (connect_and_login env ≫= λ _ : option bool, mret ())
            {| heap := heap st;
               self := {| u := user; pw := password; mailbox := None;
                          login_status := false; proxy := proxy |};
               soups := soups st; clock := clock st;
               trace := trace st ++ t |}).
Proof.
  remember (MailKit_init env user password proxy st) as r eqn:Hr.
  revert Hr. unfold MailKit_init.
  rewrite bind_run. unfold logger_info at 1. unfold emit at 1.
  rewrite bind_run. unfold set_self at 1.
  rewrite bind_run. cbn [heap self soups clock trace].
  destruct proxy as [l|].
  - rewrite (bind_run (deref l)). unfold deref at 1. cbn [heap].
    destruct (heap st !! l) as [c|].
    + unfold logger_info, emit. cbn [heap self soups clock trace].
      rewrite <- app_assoc. intros ->.
      eexists. split; [|right; reflexivity].
      repeat constructor.
    + intros ->. eexists. split; [|left; reflexivity]. repeat constructor.
  - unfold mret at 1. unfold M_ret at 1. intros ->.
    eexists. split; [|right; reflexivity]. repeat constructor.
Qed.

Lemma attempts_of_none fn t :
  Forall (fun e => is_attempt_of fn e = false) t -> attempts_of fn t = 0%nat.
Proof.
  intros Ht. unfold attempts_of. induction Ht as [|e t He _ IH]; [reflexivity|].
  cbn [List.filter]. rewrite He. exact IH.
Qed.

Lemma MailKit_init_scrap_attempts env user password proxy st :
  attempts_of "scrap" (trace (snd (MailKit_init env user password proxy st)))
  = attempts_of "scrap" (trace st).
Proof.
  destruct (MailKit_init_prefix env user password proxy st) as [t [Ht Hrun]].
  pose proof (attempts_of_none "scrap" t Ht) as H0.
  destruct Hrun as [-> | ->].
  - cbn [snd trace]. rewrite attempts_of_app, H0. lia.
  - rewrite bind_run.
    match goal with |- context [connect_and_login env ?s] =>
      destruct (connect_and_login_adds env s) as [t' [Ht' HP]];
      destruct (connect_and_login env s) as [[r|e1] s2] end;
      unfold mret, M_ret; cbn [snd trace] in *; rewrite Ht';
      change (EvAttempt "connect_and_login" :: t')
        with ([EvAttempt "connect_and_login"] ++ t');
      rewrite !attempts_of_app, H0,
        (attempts_of_login_events _ t'
           (not_a_stack_function _ (or_intror eq_refl)) HP);
      cbn; lia.
Qed.

Lemma scrap_with_criteria_returns
    env st scrapsub sender keyword seen time_diff specific_date :
  PyStr.truthy scrapsub || PyStr.truthy sender || PyStr.truthy keyword = true ->
  exists r,
    fst (scrap env scrapsub sender keyword seen time_diff specific_date st)
    = Returns r.
Proof.
  intros Hcrit. destruct (mailbox (self st)) as [mb|] eqn:Hmb.
  - eexists. rewrite (scrap_run env time_diff specific_date keyword scrapsub
                        sender seen mb st Hmb Hcrit). reflexivity.
  - eexists. apply scrap_unauthenticated_run, Hmb.
Qed.

(** X18: the proxy options of the command line.  [main] builds a
    [ProxyConfig] only when both [--proxy_addr] and [--proxy_port] are truthy:
    with the address missing or empty, or the port missing or 0, no
    [ProxyConfig] is created and the other proxy options are ignored, the run
    being the one of the same command line without them.  When both are given
    and the port is negative or above 65535, or the timeout is negative,
    [main] stops with pydantic's validation error before anything is logged
    or sent (a timeout of 0 is replaced by 10 and passes). *)
Theorem main_proxy_options env args st :
  (PyStr.truthy (args_proxy_addr args) && truthy_int (args_proxy_port args)
   = false ->
   heap (snd (main env args st)) = heap st
   /\ main env args st = main env (without_proxy args) st)
  /\ (forall port,
        PyStr.truthy (args_proxy_addr args) = true ->
        args_proxy_port args = Some port ->
        port <> 0 ->
        (port < 0 \/ 65535 < port
         \/ exists t, args_timeout args = Some t /\ t < 0) ->
        main env args st
        = (Raises (ValueError "validation error for ProxyConfig"), st)).
Proof.
  split.
  - intros Hno. split; [|unfold main; rewrite Hno; reflexivity].
    unfold main. rewrite Hno.
    rewrite bind_run. unfold mret at 1. unfold M_ret at 1.
    rewrite bind_run.
    pose proof (MailKit_init_direct_heap env (args_e args) (args_p args) st)
      as Hinit.
    destruct (MailKit_init env (args_e args) (args_p args) None st)
      as [[[]|e] s1]; cbn [snd] in Hinit; [|exact Hinit].
    destruct (PyStr.truthy (args_scrap args) || PyStr.truthy (args_sender args)
              || PyStr.truthy (args_keyword args)); [|exact Hinit].
    rewrite bind_run.
    match goal with |- context [scrap env ?a ?b ?c ?d ?e ?f s1] =>
      pose proof (scrap_steps env a b c d e f s1) as [Hh _];
      destruct (scrap env a b c d e f s1) as [[r|e0] s2] end;
      unfold mret, M_ret; cbn [snd] in *; congruence.
  - intros port Haddr Hport Hnz Hbad. unfold main.
    assert (Hti : truthy_int (args_proxy_port args) = true).
    { rewrite Hport. cbn. destruct (Z.eqb_spec port 0); [contradiction|].
      reflexivity. }
    rewrite Haddr, Hti. cbn [andb].
    assert (Hinvalid : ProxyConfig_validates (config_of_args args) = false).
    { unfold ProxyConfig_validates, config_of_args.
      cbn [proxy_type proxy_port timeout]. rewrite Hport.
      cbn [default id andb].
      destruct Hbad as [Hlo|[Hhi|[t [Ht Hneg]]]].
      - replace (1 <=? port) with false by (symmetry; apply Z.leb_gt; lia).
        reflexivity.
      - replace (port <=? 65535) with false by (symmetry; apply Z.leb_gt; lia).
        rewrite andb_false_r. reflexivity.
      - rewrite Ht. cbn [truthy_int default id].
        replace (t =? 0) with false by (symmetry; apply Z.eqb_neq; lia).
        cbn [negb].
        replace (1 <=? t) with false by (symmetry; apply Z.leb_gt; lia).
        apply andb_false_r. }
    unfold ProxyConfig_init. rewrite Hinvalid. reflexivity.
Qed.

Lemma main_proxy_options_witness :
  (heap (snd (main Mock.session (Scenario.through_port 0) (Mock.start ∅)))
   = heap (Mock.start ∅)
   /\ main Mock.session (Scenario.through_port 0) (Mock.start ∅)
      = main Mock.session (without_proxy (Scenario.through_port 0))
          (Mock.start ∅))
  /\ main Mock.session (Scenario.through_port 70000) (Mock.start ∅)
     = (Raises (ValueError "validation error for ProxyConfig"), Mock.start ∅).
Proof.
  split.
  - apply (proj1 (main_proxy_options Mock.session (Scenario.through_port 0)
                    (Mock.start ∅))).
    reflexivity.
  - apply (proj2 (main_proxy_options Mock.session (Scenario.through_port 70000)
                    (Mock.start ∅)) 70000);
      [reflexivity | reflexivity | lia | right; left; lia].
Defined.

(** X19: [main] calls [scrap] only when a subject, a sender or a keyword was
    given, so the command line never runs into the missing-criteria error of
    [scrap] (nor into the waits of its retries): without criteria [scrap] is
    not attempted and nothing is printed, and with criteria whatever [main]
    raises is not that error. *)
Theorem main_guards_scrap env args st :
  fst (main env args st) <> Raises (RetryError missing_criteria)
  /\ (PyStr.truthy (args_scrap args) || PyStr.truthy (args_sender args)
      || PyStr.truthy (args_keyword args) = false ->
      attempts_of "scrap" (trace (snd (main env args st)))
      = attempts_of "scrap" (trace st)
      /\ forall r, fst (main env args st) <> Returns (Some r)).
Proof.
  unfold main.
  set (cfg := if PyStr.truthy (args_proxy_addr args)
                 && truthy_int (args_proxy_port args)
              then l ← ProxyConfig_init (config_of_args args); mret (Some l)
              else mret None).
  assert (Hcfg : forall pc s, (exists e, cfg st = (Raises e, s)) \/
                              cfg st = (Returns pc, s) ->
            trace s = trace st
            /\ forall e, cfg st = (Raises e, s) ->
                         e = ValueError "validation error for ProxyConfig").
  { intros pc s H. subst cfg.
    destruct (PyStr.truthy (args_proxy_addr args)
              && truthy_int (args_proxy_port args)).
    - unfold ProxyConfig_init in *.
      destruct (ProxyConfig_validates (config_of_args args)).
      + destruct H as [[e H]|H]; [discriminate|].
        injection H as _ <-. split; [reflexivity | discriminate].
      + destruct H as [[e H]|H]; [|discriminate].
        injection H as _ <-. split; [reflexivity|].
        intros e0 [= <-]. reflexivity.
    - destruct H as [[e H]|H]; [discriminate|].
      injection H as _ <-. split; [reflexivity | discriminate]. }
  rewrite bind_run.
  destruct (cfg st) as [[pc|e] s0] eqn:Hrun.
  - destruct (Hcfg pc s0 (or_intror eq_refl)) as [Htr _].
    rewrite bind_run.
    pose proof (MailKit_init_scrap_attempts env (args_e args) (args_p args)
                  pc s0) as Hatt.
    destruct (MailKit_init env (args_e args) (args_p args) pc s0)
      as [[[]|e] s1] eqn:Hinit; cbn [snd] in Hatt.
    + destruct (PyStr.truthy (args_scrap args) || PyStr.truthy (args_sender args)
                || PyStr.truthy (args_keyword args)) eqn:Hcrit.
      * split; [|discriminate]. rewrite bind_run.
        destruct (scrap_with_criteria_returns env s1 _ _ _ None None None Hcrit)
          as [r Hr].
        destruct (scrap env (args_scrap args) (args_sender args)
                    (args_keyword args) None None None s1) as [[r0|e0] s2];
          cbn [fst] in *; discriminate.
      * split; [discriminate|]. intros _. unfold mret, M_ret. cbn [fst snd].
        split; [rewrite Hatt, Htr; reflexivity | intros r; discriminate].
    + cbn [fst snd].
      destruct (MailKit_init_raises _ _ _ _ _ _ _ Hinit) as [->|He].
      * split; [discriminate|]. intros _.
        split; [rewrite Hatt, Htr; reflexivity | intros r; discriminate].
      * split; [intros [= ->]; discriminate|]. intros _.
        split; [rewrite Hatt, Htr; reflexivity | intros r; discriminate].
  - destruct (Hcfg None s0 (or_introl (ex_intro _ e eq_refl))) as [Htr He].
    rewrite (He e eq_refl). cbn [fst snd].
    split; [discriminate|]. intros _.
    split; [rewrite Htr; reflexivity | intros r; discriminate].
Qed.

Lemma main_guards_scrap_witness :
  attempts_of "scrap"
    (trace (snd (main Mock.session Scenario.login_only (Mock.start ∅))))
  = attempts_of "scrap" (trace (Mock.start ∅))
  /\ forall r,
       fst (main Mock.session Scenario.login_only (Mock.start ∅))
       <> Returns (Some r).
Proof.
  apply (proj2 (main_guards_scrap Mock.session Scenario.login_only
                  (Mock.start ∅))).
  reflexivity.
Defined.

(* ===================================================================== *)
(** ** Further properties: what the client constructor retries *)
(* ===================================================================== *)

Section GreetingFails.
Context (env : Env) (e : exn) (host : string).
Hypothesis connects : forall n c, create_connection env n c = None.
Hypothesis handshakes : forall n h, wrap_socket env n h = None.
Hypothesis greeting_fails : imap_greeting env host = Some e.
Hypothesis e_Exception : is_Exception e = true.

(** One construction of the client: a connection, a handshake, then the
    failing greeting. *)
Lemma IMAP4_init_greeting_fails self port timeout :
  fails_adding 1 0 (fun _ => e) (IMAP4_init env self host port timeout).
Proof.
  intros st. eexists. split; [|split].
  - unfold IMAP4_init. erewrite bind_returns.
    2: { unfold SocksIMAP4SSL_open, retry. apply retrying_returns.
         unfold IMAP4_open. erewrite bind_returns; [reflexivity|].
         unfold SocksIMAP4SSL_create_socket, retry. apply retrying_returns.
         erewrite bind_returns.
         2: { unfold SocksIMAP4_create_socket, retry. apply retrying_returns.
              rewrite socks_create_connection_run, connects. reflexivity. }
         rewrite ssl_wrap_socket_run, handshakes. reflexivity. }
    rewrite bind_run. unfold emit at 1. rewrite greeting_fails. reflexivity.
  - cbn [trace logged]. rewrite !connect_attempts_app. cbn. lia.
  - cbn [clock logged]. lia.
Qed.

Lemma MailBoxProxy_init_greeting_fails p_proxy_type p_proxy_addr
    p_proxy_port p_proxy_username p_proxy_password p_timeout code :
  PROXY_TYPES !! PyStr.lower p_proxy_type = Some code ->
  fails_adding 3 6 (fun _ => RetryError e)
    (MailBoxProxy_init env host p_proxy_type p_proxy_addr p_proxy_port
       p_proxy_username p_proxy_password p_timeout).
Proof.
  intros Hcode st. unfold MailBoxProxy_init.
  destruct (fails_retry "MailBoxProxy._get_mailbox_client" 1 0 (fun _ => e)
              (SocksIMAP4SSL_init env host 993 None None None p_proxy_addr
                 p_proxy_port true p_proxy_username p_proxy_password
                 p_proxy_type p_timeout)
              (fun _ => e_Exception)) with (st := st)
    as [st' [Hrun Hrest]].
  { unfold SocksIMAP4SSL_init, SocksIMAP4_init. rewrite Hcode.
    cbn [is_some andb]. apply IMAP4_init_greeting_fails. }
  exists st'. split; [|exact Hrest].
  apply bind_raises. unfold MailBoxProxy_get_mailbox_client.
  cbn [_ssl_context _keyfile _certfile _p_proxy_type _host _port
       _p_proxy_addr _p_proxy_port _p_proxy_rdns _p_proxy_username
       _p_proxy_password _p_timeout].
  rewrite Hrun. reflexivity.
Qed.

End GreetingFails.

(** X20: a failure after the socket is open is retried by the outermost
    decorator only.  When the proxy connects and the TLS handshake succeeds
    but reading the server greeting raises an [Exception],
    [_get_mailbox_client] builds the client three times: the [MailBoxProxy]
    constructor opens 3 proxy connections, sleeps 6 seconds and raises a
    [RetryError] around the greeting error (against 27 connections for a
    failing handshake and 81 for a failing connection). *)
Theorem greeting_failure_rebuilds_client
    env e host p_proxy_type p_proxy_addr p_proxy_port p_proxy_username
    p_proxy_password p_timeout code st :
  (forall n c, create_connection env n c = None) ->
  (forall n h, wrap_socket env n h = None) ->
  imap_greeting env host = Some e ->
  is_Exception e = true ->
  PROXY_TYPES !! PyStr.lower p_proxy_type = Some code ->
  exists st',
    MailBoxProxy_init env host p_proxy_type p_proxy_addr p_proxy_port
      p_proxy_username p_proxy_password p_timeout st
    = (Raises (RetryError e), st')
    /\ connect_attempts (trace st') = (connect_attempts (trace st) + 3)%nat
    /\ clock st' = clock st + 6.
Proof.
  intros Hconn Hwrap Hgreet He Hcode.
  apply (MailBoxProxy_init_greeting_fails env e host Hconn Hwrap Hgreet He
           p_proxy_type p_proxy_addr p_proxy_port p_proxy_username
           p_proxy_password p_timeout code Hcode st).
Qed.

Lemma greeting_failure_rebuilds_client_witness :
  exists st',
    MailBoxProxy_init Scenario.no_greeting "imap.gmail.com" "HTTP"
      (Some "10.0.0.1") (Some 8080) None None (Some 10) (Mock.start ∅)
    = (Raises (RetryError (ImapError "no greeting")), st')
    /\ connect_attempts (trace st')
       = (connect_attempts (trace (Mock.start ∅)) + 3)%nat
    /\ clock st' = clock (Mock.start ∅) + 6.
Proof.
  apply (greeting_failure_rebuilds_client Scenario.no_greeting
           (ImapError "no greeting") "imap.gmail.com" "HTTP" (Some "10.0.0.1")
           (Some 8080) None None (Some 10) socks.HTTP (Mock.start ∅)).
  - intros n c. reflexivity.
  - intros n h. reflexivity.
  - reflexivity.
  - reflexivity.
  - vm_compute. reflexivity.
Defined.

(** X21: [SocksIMAP4SSL.__init__] refuses an [ssl_context] given together
    with a [keyfile] or a [certfile] before anything goes over the network
    (the key file is reported first when both are given), and
    [_get_mailbox_client] retries even this: a [MailBoxProxy] holding such
    arguments spends two waits of three seconds on three identical refusals
    and raises a [RetryError] around the [ValueError]. *)
Theorem conflicting_tls_arguments_are_retried env self st :
  is_some (_ssl_context self) = true ->
  is_some (_keyfile self) || is_some (_certfile self) = true ->
  exists st',
    MailBoxProxy_get_mailbox_client env self st
    = (Raises
         (RetryError
            (ValueError
               (if is_some (_keyfile self)
                then "ssl_context and keyfile arguments are mutually exclusive"
                else "ssl_context and certfile arguments are mutually exclusive"))),
       st')
    /\ trace st' = trace st ++
         [ EvAttempt "MailBoxProxy._get_mailbox_client"; EvSleep 3;
           EvAttempt "MailBoxProxy._get_mailbox_client"; EvSleep 3;
           EvAttempt "MailBoxProxy._get_mailbox_client" ]
    /\ clock st' = clock st + 6.
Proof.
  intros Hctx Hfile.
  assert (Hinit : forall s,
    SocksIMAP4SSL_init env (_host self) (_port self) (_keyfile self)
      (_certfile self) (_ssl_context self) (_p_proxy_addr self)
      (_p_proxy_port self) (_p_proxy_rdns self) (_p_proxy_username self)
      (_p_proxy_password self) (_p_proxy_type self) (_p_timeout self) s
    = (Raises
         (ValueError
            (if is_some (_keyfile self)
             then "ssl_context and keyfile arguments are mutually exclusive"
             else "ssl_context and certfile arguments are mutually exclusive")),
       s)).
  { intros s. unfold SocksIMAP4SSL_init. rewrite Hctx. cbn [andb].
    destruct (is_some (_keyfile self)); [reflexivity|].
    cbn [orb] in Hfile. rewrite Hfile. reflexivity. }
  eexists. split; [|split].
  - unfold MailBoxProxy_get_mailbox_client, retry. cbn [Nat.sub].
    erewrite retrying_again; [| apply Hinit | reflexivity].
    erewrite retrying_again; [| apply Hinit | reflexivity].
    eapply retrying_exhausted; [apply Hinit | reflexivity].
  - cbn [trace logged slept]. rewrite <- !app_assoc. reflexivity.
  - cbn [clock logged slept]. lia.
Qed.

Lemma conflicting_tls_arguments_are_retried_witness :
  exists st',
    MailBoxProxy_get_mailbox_client Mock.reachable Scenario.own_context
      (Mock.start ∅)
    = (Raises
         (RetryError
            (ValueError
               (if is_some (_keyfile Scenario.own_context)
                then "ssl_context and keyfile arguments are mutually exclusive"
                else "ssl_context and certfile arguments are mutually exclusive"))),
       st')
    /\ trace st' = trace (Mock.start ∅) ++
         [ EvAttempt "MailBoxProxy._get_mailbox_client"; EvSleep 3;
           EvAttempt "MailBoxProxy._get_mailbox_client"; EvSleep 3;
           EvAttempt "MailBoxProxy._get_mailbox_client" ]
    /\ clock st' = clock (Mock.start ∅) + 6.
Proof.
  apply (conflicting_tls_arguments_are_retried Mock.reachable
           Scenario.own_context (Mock.start ∅)); reflexivity.
Defined.
